(** * NotificationSystem: correlation store, HTTP handler, outcome listener
      and delivery workers

    A shallow embedding of the Go sources

      - project/endpoints/endpoints.go        (store, poller, HTTP handler)
      - project/kafkawrapper/kafkawrapper.go  (producer, consumer loop)
      - project/services  (slack, email and sms workers)

    Everything outside the repository (the uuid generator, the clock, the
    JSON codec, the Kafka broker, the SMTP / Slack / Nexmo clients, the
    process environment) is an explicit oracle handed to the functions. *)

From Stdlib Require Import ZArith String Ascii List Bool Lia.
From stdpp Require Import base gmap strings list.

Open Scope string_scope.
Open Scope list_scope.
Open Scope Z_scope.

(** ** Go values *)

(** A [uuid.UUID] is 16 bytes; it is kept as the 128-bit number they spell.
    The zero value [uuid.UUID{}] is [0]. *)
Abbreviation UUID := N.

(** A [time.Time], as nanoseconds; the zero value [time.Time{}] is [0]. *)
Abbreviation Time := Z.

(** Go's [int] on the 64-bit targets the program is built for. *)
Definition minInt : Z := - 2 ^ 63.
Definition maxInt : Z := 2 ^ 63 - 1.

Definition wrapInt (z : Z) : Z := (z + 2 ^ 63) mod 2 ^ 64 - 2 ^ 63.

Definition intAdd (a b : Z) : Z := wrapInt (a + b).
Arguments intAdd : simpl never.

(** ** strconv.Atoi

    Base-10 parse of an optionally signed decimal literal that must fit in
    an [int]; anything else is an error ([None]). *)

Definition digitVal (c : ascii) : option Z :=
  let n := Z.of_N (N_of_ascii c) in
  if (48 <=? n) && (n <=? 57) then Some (n - 48) else None.

Fixpoint parseDigits (s : string) (acc : Z) : option Z :=
  match s with
  | EmptyString => Some acc
  | String c rest =>
      match digitVal c with
      | Some d => parseDigits rest (acc * 10 + d)
      | None => None
      end
  end.

Definition parseUnsigned (s : string) : option Z :=
  match s with
  | EmptyString => None
  | _ => parseDigits s 0
  end.

Definition Atoi (s : string) : option Z :=
  match s with
  | EmptyString => None
  | String c rest =>
      let neg := Ascii.eqb c "-"%char in
      let body := if neg || Ascii.eqb c "+"%char then rest else s in
      match parseUnsigned body with
      | Some v =>
          let n := if neg then - v else v in
          if (minInt <=? n) && (n <=? maxInt) then Some n else None
      | None => None
      end
  end.

(** The spec's notion of "an integer": an optional sign followed by one or
    more decimal digits. *)
Definition isDigit (c : ascii) : bool :=
  let n := N_of_ascii c in (N.leb 48 n) && (N.leb n 57).

Fixpoint allDigits (s : string) : bool :=
  match s with
  | EmptyString => true
  | String c rest => isDigit c && allDigits rest
  end.

Definition isIntegerLiteral (s : string) : bool :=
  match s with
  | EmptyString => false
  | String c rest =>
      let body := if Ascii.eqb c "-"%char || Ascii.eqb c "+"%char then rest else s in
      match body with
      | EmptyString => false
      | _ => allDigits body
      end
  end.

(** The two bytes written "\r\n" in a Go string literal. *)
Definition CRLF : string :=
  String (ascii_of_nat 13) (String (ascii_of_nat 10) EmptyString).

(** Substring containment, as used by "the reason mentions ...". *)
Definition contains (s sub : string) : Prop :=
  exists pre post : string, s = pre +:+ sub +:+ post.

(** ** models.Notification *)

(** Modelled from the spec: the [models] package (the declaration of struct
    [Notification]) is not among the sources.  The fields, their order and
    their types are those of the positional literal built in
    [notificationHandler] and of the selectors used by the store, the poller
    and the workers; the first field, never selected by name, is called
    [Mode] after the form field it is filled from. *)
Record Notification : Type := mkNotification {
  Mode : string;
  Message : string;
  MaxRetryAttempts : Z;
  Recipient : string;
  TimeStamp : Time;
  MessageID : UUID;
  NumOfRepetitions : Z;
  IsSent : bool;
  FailReason : string
}.

(** The zero value of the struct, which a Go map lookup yields for a key
    that is absent. *)
Definition zeroNotification : Notification :=
  mkNotification "" "" 0 "" 0 0%N 0 false "".

Definition setTimeStamp (t : Time) (n : Notification) : Notification :=
  mkNotification (Mode n) (Message n) (MaxRetryAttempts n) (Recipient n)
    t (MessageID n) (NumOfRepetitions n) (IsSent n) (FailReason n).

Definition setMessageID (id : UUID) (n : Notification) : Notification :=
  mkNotification (Mode n) (Message n) (MaxRetryAttempts n) (Recipient n)
    (TimeStamp n) id (NumOfRepetitions n) (IsSent n) (FailReason n).

Definition setNumOfRepetitions (k : Z) (n : Notification) : Notification :=
  mkNotification (Mode n) (Message n) (MaxRetryAttempts n) (Recipient n)
    (TimeStamp n) (MessageID n) k (IsSent n) (FailReason n).

Definition setIsSent (b : bool) (n : Notification) : Notification :=
  mkNotification (Mode n) (Message n) (MaxRetryAttempts n) (Recipient n)
    (TimeStamp n) (MessageID n) (NumOfRepetitions n) b (FailReason n).

Definition setFailReason (r : string) (n : Notification) : Notification :=
  mkNotification (Mode n) (Message n) (MaxRetryAttempts n) (Recipient n)
    (TimeStamp n) (MessageID n) (NumOfRepetitions n) (IsSent n) r.

(** ** encoding/json

    The codec is a library of the Go distribution; the program only relies
    on its two entry points.  [inr e] is a non-nil error whose text is [e]. *)
Class JSON (payload : Type) : Type := {
  json_Marshal : Notification -> payload + string;
  json_Unmarshal : payload -> Notification + string
}.

(** * Package kafkawrapper *)

Module kafkawrapper.

(** A [sarama.ProducerMessage].  The key is the text of the message id; the
    rendering of a UUID is injective, so the id itself is kept. *)
Record ProducerMessage (payload : Type) : Type := mkProducerMessage {
  Topic : string;
  Key : UUID;
  Value : payload
}.
Arguments mkProducerMessage {payload} _ _ _.
Arguments Topic {payload} _.
Arguments Key {payload} _.
Arguments Value {payload} _.

(** What the broker does with one call of [SendKafkaMessage]: the error of
    [sarama.NewSyncProducer] and the error of [producer.SendMessage]
    ([None] is a nil error). *)
Record BrokerReply : Type := mkBrokerReply {
  NewSyncProducer_err : option string;
  SendMessage_err : option string
}.

Definition brokerUp : BrokerReply := mkBrokerReply None None.

(** What the consumer session has seen: the lines written with
    [log.Printf] and the messages marked as consumed. *)
Record Session (payload : Type) : Type := mkSession {
  logged : list string;
  marked : list payload
}.
Arguments mkSession {payload} _ _.
Arguments logged {payload} _.
Arguments marked {payload} _.

(** One call of [consumerGroup.Consume] in [ReceiveKafkaMessage]: the
    messages of the claim it hands to [ConsumeClaim] (one claim per
    session), the error it returns, and whether the context is cancelled
    when it has returned. *)
Record Round (payload : Type) : Type := mkRound {
  claimed : list payload;
  Consume_err : option string;
  ctx_done : bool
}.
Arguments mkRound {payload} _ _ _.
Arguments claimed {payload} _.
Arguments Consume_err {payload} _.
Arguments ctx_done {payload} _.

(** How [ReceiveKafkaMessage] stands after the calls of [Consume] that
    occurred: it has returned, it is still in its loop, or it has panicked
    on the nil consumer group. *)
Inductive Receiver (payload S : Type) : Type :=
  | Stopped (sess : Session payload) (st : S)
  | Running (sess : Session payload) (st : S)
  | Crashed (why : string) (sess : Session payload) (st : S).
Arguments Stopped {payload S} sess st.
Arguments Running {payload S} sess st.
Arguments Crashed {payload S} why sess st.

Section WithCodec.
Context {payload : Type} `{!JSON payload}.

Definition setupProducer (reply : BrokerReply) : option string :=
  match NewSyncProducer_err reply with
  | Some err => Some ("failed to setup producer: " +:+ err)
  | None => None
  end.

(** [SendKafkaMessage topic notification]: the returned error, and the
    topics of the broker afterwards. *)
Definition SendKafkaMessage (reply : BrokerReply) (topic : string)
    (notification : Notification) (broker : list (ProducerMessage payload))
    : option string * list (ProducerMessage payload) :=
  match setupProducer reply with
  | Some err => (Some ("failed to setup producer: " +:+ err), broker)
  | None =>
      match json_Marshal notification with
      | inr err => (Some ("failed to marshal notification: " +:+ err), broker)
      | inl notificationJSON =>
          let msg := mkProducerMessage topic (MessageID notification)
                       notificationJSON in
          match SendMessage_err reply with
          | Some err => (Some ("failed to sent on kafka topic: " +:+ err), broker)
          | None => (None, broker ++ [msg])
          end
      end
  end.

(** [ConsumeClaim]: the [for msg := range claim.Messages()] loop over the
    messages of the claim, with the callback acting on a state [S]. *)
Fixpoint ConsumeClaim {S : Type} (messageCallbackFunction : Notification -> S -> S)
    (claim : list payload) (sess : Session payload) (st : S)
    : Session payload * S :=
  match claim with
  | [] => (sess, st)
  | msg :: rest =>
      match json_Unmarshal msg with
      | inr err =>
          ConsumeClaim messageCallbackFunction rest
            (mkSession
               (logged sess ++ ["failed to unmarshal notification: " +:+ err])
               (marked sess))
            st
      | inl notification =>
          ConsumeClaim messageCallbackFunction rest
            (mkSession (logged sess) (marked sess ++ [msg]))
            (messageCallbackFunction notification st)
      end
  end.

(** [initializeConsumerGroup]: the error it returns, from the error of
    [sarama.NewConsumerGroup]; the consumer group it returns is nil exactly
    when the error is not. *)
Definition initializeConsumerGroup (NewConsumerGroup_err : option string)
    : option string :=
  match NewConsumerGroup_err with
  | Some err => Some ("failed to initialize consumer group: " +:+ err)
  | None => None
  end.

(** The [for] loop of [ReceiveKafkaMessage] over the calls of
    [consumerGroup.Consume] that occur.  The flag is [true] when the loop
    has returned; [false] when the calls are used up and it still runs. *)
Fixpoint consumeLoop {S : Type} (messageCallbackFunction : Notification -> S -> S)
    (rounds : list (Round payload)) (sess : Session payload) (st : S)
    : bool * (Session payload * S) :=
  match rounds with
  | [] => (false, (sess, st))
  | r :: rounds' =>
      let '(sess, st) :=
        ConsumeClaim messageCallbackFunction (claimed r) sess st in
      let sess :=
        match Consume_err r with
        | Some err =>
            mkSession (logged sess ++ ["error from consumer: " +:+ err])
              (marked sess)
        | None => sess
        end in
      if ctx_done r then (true, (sess, st))
      else consumeLoop messageCallbackFunction rounds' sess st
  end.

Definition ReceiveKafkaMessage {S : Type}
    (messageCallbackFunction : Notification -> S -> S)
    (NewConsumerGroup_err : option string) (rounds : list (Round payload))
    (sess : Session payload) (st : S) : Receiver payload S :=
  match initializeConsumerGroup NewConsumerGroup_err with
  | Some err =>
      Crashed "runtime error: invalid memory address or nil pointer dereference"
        (mkSession (logged sess ++ ["initialization error: " +:+ err])
           (marked sess))
        st
  | None =>
      match consumeLoop messageCallbackFunction rounds sess st with
      | (true, (sess, st)) => Stopped sess st
      | (false, (sess, st)) => Running sess st
      end
  end.

End WithCodec.

End kafkawrapper.

(** * Package endpoints *)

Module endpoints.
Import kafkawrapper.

Definition kafkaTopicProcessed : string := "processed".
Definition maxNumberDefaultRetries : string := "5".
Definition hardTimeout : Z := 60.

Definition StatusOK : Z := 200.
Definition StatusBadRequest : Z := 400.
Definition StatusRequestTimeout : Z := 408.
Definition StatusInternalServerError : Z := 500.

(** *** The notification store *)

Abbreviation MessageNotification := (gmap UUID Notification).

Definition maxChecks : nat := 500.

(** The [for attempt := 0; attempt <= maxChecks; attempt++] loop of [Add],
    with [remaining] iterations left.  [uuid_New k] is what the [k]-th call
    of [uuid.New] returns and [time_Now k] what [time.Now] returns in the
    same iteration. *)
Fixpoint AddLoop (remaining attempt : nat) (uuid_New : nat -> UUID)
    (time_Now : nat -> Time) (notification : Notification)
    (data : MessageNotification)
    : (UUID * option string) * MessageNotification :=
  match remaining with
  | O => ((0%N, Some "Could not find a free key to insert into map"), data)
  | S remaining' =>
      let messageID := uuid_New attempt in
      match data !! messageID with
      | None =>
          let notification := setTimeStamp (time_Now attempt) notification in
          let notification := setMessageID messageID notification in
          ((messageID, None), <[messageID := notification]> data)
      | Some _ =>
          AddLoop remaining' (S attempt) uuid_New time_Now notification data
      end
  end.

Definition Add (uuid_New : nat -> UUID) (time_Now : nat -> Time)
    (notification : Notification) (data : MessageNotification)
    : (UUID * option string) * MessageNotification :=
  AddLoop (S maxChecks) 0 uuid_New time_Now notification data.

Definition Update (messageID : UUID) (notification : Notification)
    (data : MessageNotification) : MessageNotification :=
  <[messageID := notification]> data.

Definition Delete (messageID : UUID) (data : MessageNotification)
    : MessageNotification :=
  match data !! messageID with
  | Some _ => delete messageID data
  | None => data
  end.

Definition Get (messageID : UUID) (data : MessageNotification) : Notification :=
  match data !! messageID with
  | Some notification => notification
  | None => zeroNotification
  end.

(** *** The poller *)

(** One firing of the ticker in [GetResults]: the values the goroutine
    offers on [wasSuccessful], in order. *)
Definition GetResultsTick (messageID : UUID) (data : MessageNotification)
    : list bool :=
  let resultMsg := Get messageID data in
  (if IsSent resultMsg then [true] else [])
  ++ (if negb (String.eqb (FailReason resultMsg) "") then [false] else []).

(** *** The outcome listener *)

Definition ReceiveProcessedNotification (receivedNotification : Notification)
    (data : MessageNotification) : MessageNotification :=
  Update (MessageID receivedNotification) receivedNotification data.

(** *** The HTTP handler *)

(** The reply written with [ctx.JSON]: status code and the text stored
    under the key "message" of the body. *)
Record Response : Type := mkResponse {
  status : Z;
  message : string
}.

(** What can happen while the handler is blocked in its [select]: the
    listener goroutine consumes one message of the processed topic, the
    ticker of [GetResults] fires, or [time.After] fires. *)
Inductive Event (payload : Type) : Type :=
  | EvProcessed (msg : payload)
  | EvTick
  | EvHardTimeout.
Arguments EvProcessed {payload} msg.
Arguments EvTick {payload}.
Arguments EvHardTimeout {payload}.

(** The outside world during one invocation of the handler. *)
Record Request (payload : Type) : Type := mkRequest {
  PostForm : string -> string;
  Getenv : string -> string;
  uuid_New : nat -> UUID;
  time_Now : nat -> Time;
  broker_reply : BrokerReply;
  schedule : list (Event payload)
}.
Arguments mkRequest {payload} _ _ _ _ _ _.
Arguments PostForm {payload} _ _.
Arguments Getenv {payload} _ _.
Arguments uuid_New {payload} _ _.
Arguments time_Now {payload} _ _.
Arguments broker_reply {payload} _.
Arguments schedule {payload} _.

(** The state the handler and the listener act on: the package-level
    store, the topics of the broker and the consumer session. *)
Record Process (payload : Type) : Type := mkProcess {
  notificationStore : MessageNotification;
  broker : list (ProducerMessage payload);
  session : Session payload
}.
Arguments mkProcess {payload} _ _ _.
Arguments notificationStore {payload} _.
Arguments broker {payload} _.
Arguments session {payload} _.

Section WithCodec.
Context {payload : Type} `{!JSON payload}.

(** The listener goroutine handles one message of the processed topic. *)
Definition listen (msg : payload) (p : Process payload) : Process payload :=
  let '(sess, data) :=
    ConsumeClaim ReceiveProcessedNotification [msg] (session p)
      (notificationStore p) in
  mkProcess data (broker p) sess.

(** The [select] of the handler, run against the events that occur while
    it waits.  [None]: the events are used up and the handler is still
    blocked. *)
Fixpoint await (messageID : UUID) (events : list (Event payload))
    (p : Process payload) : option Response * Process payload :=
  match events with
  | [] => (None, p)
  | EvProcessed msg :: events' => await messageID events' (listen msg p)
  | EvTick :: events' =>
      match GetResultsTick messageID (notificationStore p) with
      | [] => await messageID events' p
      | true :: _ =>
          (Some (mkResponse StatusOK "Notification sent successfully!"), p)
      | false :: _ =>
          (Some (mkResponse StatusRequestTimeout
             ("Notification sending failed after max number of attempts. Notification service error: "
              +:+ FailReason (Get messageID (notificationStore p)))), p)
      end
  | EvHardTimeout :: _ =>
      (* strconv.FormatUint(hardTimeout, 10) is "60" *)
      (Some (mkResponse StatusRequestTimeout
         ("Notification sending timed out (" +:+ "60" +:+ " seconds)")), p)
  end.

Definition notificationHandler (rq : Request payload) (p : Process payload)
    : option Response * Process payload :=
  let mode := PostForm rq "mode" in
  if String.eqb mode ""
     || (negb (String.eqb mode "email") && negb (String.eqb mode "sms")
         && negb (String.eqb mode "slack"))
  then (Some (mkResponse StatusBadRequest
          "Mode is either blank or not one of the supported modes: 'email', 'sms' or 'slack'"), p)
  else
  let message := PostForm rq "message" in
  if String.eqb message ""
  then (Some (mkResponse StatusBadRequest "Message is blank"), p)
  else
  let max_retry_attempts := PostForm rq "max_retry_attempts" in
  let max_retry_attempts :=
    if String.eqb max_retry_attempts "" then maxNumberDefaultRetries
    else max_retry_attempts in
  match Atoi max_retry_attempts with
  | None =>
      (Some (mkResponse StatusBadRequest "'max_retry_attempts' is not an integer"), p)
  | Some maxRetryAttempts =>
      let recipient := PostForm rq "recipient" in
      let recipient :=
        if String.eqb mode "email" && String.eqb recipient ""
        then Getenv rq "NS_EMAIL_DEFAULT_RECIPIENT" else recipient in
      match Add (uuid_New rq) (time_Now rq)
              (mkNotification mode message maxRetryAttempts recipient
                 0 0%N 0 false "")
              (notificationStore p) with
      | ((_, Some _), data) =>
          (Some (mkResponse StatusInternalServerError "Internal server error"),
           mkProcess data (broker p) (session p))
      | ((messageID, None), data) =>
          let kafkaTopic := mode in
          match SendKafkaMessage (broker_reply rq) kafkaTopic
                  (Get messageID data) (broker p) with
          | (Some _, topics) =>
              (Some (mkResponse StatusInternalServerError "Internal server error"),
               mkProcess data topics (session p))
          | (None, topics) =>
              match await messageID (schedule rq)
                      (mkProcess data topics (session p)) with
              | (Some response, p') =>
                  (Some response,
                   mkProcess (Delete messageID (notificationStore p'))
                     (broker p') (session p'))
              | (None, p') => (None, p')
              end
          end
      end
  end.

End WithCodec.

End endpoints.

(** * Package services *)

Module services.
Import kafkawrapper.

(** Modelled from the spec: the file of package [services] that declares
    the constant [kafkaTopicProcessed] is not among the sources; the
    workers republish on the shared topic named "processed", the value the
    constant of the same name has in package [endpoints]. *)
Definition kafkaTopicProcessed : string := "processed".

Definition maxEmailRetries : Z := 5.

(** One call of an external delivery client, with its arguments. *)
Inductive Call : Type :=
  | PostMessage (token channel text : string)
  | SendMail (addr : string) (auth : string * string * string * string)
      (from : string) (to : list string) (msg : string)
  | SendSMS (key secret from to text : string).

(** What [client.SMS.SendSMS] hands back: the response pointer ([None] is
    nil; otherwise the [Status] of each element of [Messages]) and the
    error. *)
Definition SMSReply : Type := option (list string) * option string.

(** The outside world during one invocation of a worker.  The delivery
    clients are indexed by the number of external calls made before. *)
Record World : Type := mkWorld {
  Getenv : string -> string;
  slack_PostMessage : nat -> option string;
  smtp_SendMail : nat -> option string;
  nexmo_SendSMS : nat -> SMSReply;
  broker_reply : BrokerReply
}.

(** The state of one worker invocation: the notification the pointer
    refers to, every value it took after a write, the external calls made
    and the messages handed to the broker. *)
Record Worker (payload : Type) : Type := mkWorker {
  notification : Notification;
  history : list Notification;
  calls : list Call;
  outbox : list (ProducerMessage payload)
}.
Arguments mkWorker {payload} _ _ _ _.
Arguments notification {payload} _.
Arguments history {payload} _.
Arguments calls {payload} _.
Arguments outbox {payload} _.

(** How an invocation ends. *)
Inductive Outcome (payload : Type) : Type :=
  | Returned (w : Worker payload)
  | Panicked (why : string) (w : Worker payload).
Arguments Returned {payload} w.
Arguments Panicked {payload} why w.

Section WithCodec.
Context {payload : Type} `{!JSON payload}.

Definition start (n : Notification) : Worker payload :=
  mkWorker n [n] [] [].

(** A write through the pointer. *)
Definition assign (f : Notification -> Notification) (w : Worker payload)
    : Worker payload :=
  let n := f (notification w) in
  mkWorker n (history w ++ [n]) (calls w) (outbox w).

Definition call (c : Call) (w : Worker payload) : Worker payload :=
  mkWorker (notification w) (history w) (calls w ++ [c]) (outbox w).

Definition publish (env : World) (w : Worker payload)
    : option string * Worker payload :=
  let '(err, topics) :=
    SendKafkaMessage (broker_reply env) kafkaTopicProcessed (notification w)
      (outbox w) in
  (err, mkWorker (notification w) (history w) (calls w) topics).

(** *** Slack *)

Definition sendSlack (env : World) (w : Worker payload) : Worker payload :=
  let slackChannel := Getenv env "NS_SLACK_CHANNEL" in
  let slackBotToken := Getenv env "NS_SLACK_BOT_TOKEN" in
  let err := slack_PostMessage env (length (calls w)) in
  let w := call (PostMessage slackBotToken slackChannel
                   (Message (notification w))) w in
  match err with
  | Some err =>
      let w := assign (setIsSent false) w in
      let w := assign (fun n =>
                 setNumOfRepetitions (intAdd (NumOfRepetitions n) 1) n) w in
      let w := assign (setFailReason
                 ("failed to send slack message with following error "
                  +:+ err +:+ ".")) w in
      w
  | None => assign (setIsSent true) w
  end.

Definition slackService (env : World) (n : Notification) : Worker payload :=
  let w := sendSlack env (start n) in
  if IsSent (notification w) then snd (publish env w)
  else
    let w := assign (setFailReason "Failed to send Slack with") w in
    snd (publish env w).

(** *** Email *)

Definition sendEmail (env : World) (w : Worker payload) : Worker payload :=
  let tempGmailToken := Getenv env "NS_EMAIL_TOKEN" in
  let emailUsername := "infos6587" in
  let emailDomain := "gmail.com" in
  let fullEmail := emailUsername +:+ "@" +:+ emailDomain in
  let gmailUsername := "Info" in
  let gmailSmtp := "smtp.gmail.com" in
  let auth := (gmailUsername, emailUsername, tempGmailToken, gmailSmtp) in
  let emailRecipient := Recipient (notification w) in
  let to := [emailRecipient] in
  let emailSubject := "Subject: Email Notification System" +:+ CRLF in
  let emailBody := Message (notification w) in
  let emailRecipientDisclosed := "To: " +:+ emailRecipient +:+ CRLF in
  let msg := emailRecipientDisclosed +:+ emailSubject +:+ CRLF +:+ emailBody in
  let smtpPort := "587" in
  let err := smtp_SendMail env (length (calls w)) in
  let w := call (SendMail (gmailSmtp +:+ ":" +:+ smtpPort) auth fullEmail
                   to msg) w in
  match err with
  | Some err =>
      let w := assign (setIsSent false) w in
      let w := assign (fun n =>
                 setNumOfRepetitions (intAdd (NumOfRepetitions n) 1) n) w in
      let w := assign (setFailReason
                 ("failed to send email with following error " +:+ err)) w in
      w
  | None => assign (setIsSent true) w
  end.

(** The [for emailSendCount := 0; emailSendCount <= maxEmailRetries;
    emailSendCount++] loop, with [remaining] iterations left; running out
    of iterations falls off the end of [emailService] without publishing. *)
Fixpoint emailLoop (remaining : nat) (env : World) (w : Worker payload)
    : Worker payload :=
  match remaining with
  | O => w
  | S remaining' =>
      let w := sendEmail env w in
      if IsSent (notification w) then snd (publish env w)
      else if negb (IsSent (notification w))
              && (MaxRetryAttempts (notification w)
                    <=? NumOfRepetitions (notification w))
      then
        let w := assign (setIsSent false) w in
        let w := assign (fun n => setFailReason
                   ("Too many failed attempts. Last attempt failed with: "
                    +:+ FailReason n) n) w in
        snd (publish env w)
      else if negb (IsSent (notification w))
              && (NumOfRepetitions (notification w) =? maxEmailRetries)
      then
        let w := assign (setIsSent false) w in
        let w := assign (fun n => setFailReason
                   ("Too many failed attempts. Max number of retries reached. Last attempt failed with: "
                    +:+ FailReason n) n) w in
        snd (publish env w)
      else emailLoop remaining' env w
  end.

Definition emailService (env : World) (n : Notification) : Worker payload :=
  emailLoop (S (Z.to_nat maxEmailRetries)) env (start n).

(** *** SMS *)

Definition sendSms (env : World) (w : Worker payload) : Outcome payload :=
  let apiKey := Getenv env "NS_SMS_API_KEY" in
  let apiSecret := Getenv env "NS_SMS_API_SECRET" in
  let SenderTelephone := Getenv env "NS_SMS_SENDER_TELEPHONE" in
  let RecipientTelephone := Getenv env "NS_SMS_RECEIVER_TELEPHONE" in
  let '(smsResponse, err) := nexmo_SendSMS env (length (calls w)) in
  let w := call (SendSMS apiKey apiSecret SenderTelephone RecipientTelephone
                   (Message (notification w))) w in
  match err with
  | Some err =>
      let w := assign (setIsSent false) w in
      let w := assign (fun n =>
                 setNumOfRepetitions (intAdd (NumOfRepetitions n) 1) n) w in
      match smsResponse with
      | None => Panicked "invalid memory address or nil pointer dereference" w
      | Some [] => Panicked "index out of range [0] with length 0" w
      | Some (Status :: _) =>
          Returned (assign (setFailReason
            ("failed to send sms with following error " +:+ err
             +:+ " and status " +:+ Status +:+ ".")) w)
      end
  | None => Returned (assign (setIsSent true) w)
  end.

Definition smsService (env : World) (n : Notification) : Outcome payload :=
  match sendSms env (start n) with
  | Panicked why w => Panicked why w
  | Returned w =>
      if IsSent (notification w) then Returned (snd (publish env w))
      else Returned (snd (publish env w))
  end.

End WithCodec.

(** *** Debug helper *)

(** [randRange]: [rand.IntN n] panics unless [n] is positive; otherwise it
    returns what the generator draws.  [inr] is a panic. *)
Definition randRange (rand_IntN : Z -> Z) (min max : Z) : Z + string :=
  let n := wrapInt (max - min) in
  if n <=? 0 then inr "invalid argument to IntN"
  else inl (intAdd (rand_IntN n) min).

End services.

(** * A concrete wire format

    Used to run the model: a message on a topic either carries a snapshot
    or bytes that do not decode. *)

Inductive wire : Type :=
  | Encoded (n : Notification)
  | Garbled (raw : string).

#[export] Instance wire_JSON : JSON wire := {|
  json_Marshal n := inl (Encoded n);
  json_Unmarshal v :=
    match v with
    | Encoded n => inl n
    | Garbled raw => inr ("invalid character in " +:+ raw)
    end
|}.

(** * Specification vocabulary *)

Import kafkawrapper endpoints.

(** The codec gives back what was encoded. *)
Definition roundtrips (payload : Type) `{!JSON payload} : Prop :=
  forall n : Notification,
    exists v : payload, json_Marshal n = inl v /\ json_Unmarshal v = inl n.

(** The snapshot a message decodes to, if it decodes. *)
Definition decoded {payload : Type} `{!JSON payload} (msg : payload)
    : option Notification :=
  match json_Unmarshal msg with
  | inl n => Some n
  | inr _ => None
  end.

(** The snapshot stored under an id is still pending: the poller has
    nothing to report for it. *)
Definition pending (n : Notification) : Prop :=
  IsSent n = false /\ FailReason n = "".

(** An event that cannot make the entry under [id] reportable. *)
Definition quietFor {payload : Type} `{!JSON payload} (id : UUID)
    (e : Event payload) : Prop :=
  match e with
  | EvProcessed msg =>
      match decoded msg with
      | Some n => MessageID n = id -> pending n
      | None => True
      end
  | _ => True
  end.

Definition isHardTimeout {payload : Type} (e : Event payload) : bool :=
  match e with
  | EvHardTimeout => true
  | _ => false
  end.

Definition timeoutResponse : Response :=
  mkResponse StatusRequestTimeout "Notification sending timed out (60 seconds)".

Definition failureResponse (reason : string) : Response :=
  mkResponse StatusRequestTimeout
    ("Notification sending failed after max number of attempts. Notification service error: "
     +:+ reason).

(** The operations other goroutines may run on the store. *)
Inductive StoreOp : Type :=
  | OpAdd (uuid_New : nat -> UUID) (time_Now : nat -> Time) (n : Notification)
  | OpUpdate (id : UUID) (n : Notification)
  | OpDelete (id : UUID).

Definition applyOp (op : StoreOp) (data : MessageNotification)
    : MessageNotification :=
  match op with
  | OpAdd uuid_New time_Now n => snd (Add uuid_New time_Now n data)
  | OpUpdate id n => Update id n data
  | OpDelete id => Delete id data
  end.

Definition applyOps (ops : list StoreOp) (data : MessageNotification)
    : MessageNotification :=
  fold_left (fun d op => applyOp op d) ops data.

(** The operation cannot write under [id]: it is no [Update] of [id], and
    an [Add] never draws [id]. *)
Definition avoids (id : UUID) (op : StoreOp) : Prop :=
  match op with
  | OpAdd uuid_New _ _ => forall k : nat, uuid_New k <> id
  | OpUpdate id' _ => id' <> id
  | OpDelete _ => True
  end.

(** The request passes validation and is registered under [id], leaving
    the store [data]. *)
Definition registered {payload : Type} (rq : Request payload)
    (p : Process payload) (id : UUID) (data : MessageNotification) : Prop :=
  let mode := PostForm rq "mode" in
  (mode = "email" \/ mode = "sms" \/ mode = "slack")
  /\ PostForm rq "message" <> ""
  /\ exists maxRetryAttempts : Z,
       Atoi (if String.eqb (PostForm rq "max_retry_attempts") ""
             then maxNumberDefaultRetries
             else PostForm rq "max_retry_attempts") = Some maxRetryAttempts
       /\ Add (uuid_New rq) (time_Now rq)
            (mkNotification mode (PostForm rq "message") maxRetryAttempts
               (if String.eqb mode "email"
                   && String.eqb (PostForm rq "recipient") ""
                then Getenv rq "NS_EMAIL_DEFAULT_RECIPIENT"
                else PostForm rq "recipient")
               0 0%N 0 false "")
            (notificationStore p) = ((id, None), data).

(** The registered request is accepted by the broker. *)
Definition admitted {payload : Type} `{!JSON payload} (rq : Request payload)
    (p : Process payload) (id : UUID) (data : MessageNotification) : Prop :=
  registered rq p id data
  /\ fst (SendKafkaMessage (broker_reply rq) (PostForm rq "mode")
            (Get id data) (broker p)) = None.

(** The attempts counter is at most [B] in every value the notification
    has taken and in its current value. *)
Definition within {payload : Type} (B : Z) (w : services.Worker payload) : Prop :=
  Forall (fun s => NumOfRepetitions s <= B) (services.history w)
  /\ NumOfRepetitions (services.notification w) <= B.

(** The notification after a failed attempt that reported [reason]. *)
Definition afterFailure (reason : string) (n : Notification) : Notification :=
  setFailReason reason
    (setNumOfRepetitions (intAdd (NumOfRepetitions n) 1) (setIsSent false n)).

(** The state a worker invocation ends in, whether it returned or
    panicked. *)
Definition finalState {payload : Type} (o : services.Outcome payload)
    : services.Worker payload :=
  match o with
  | services.Returned w => w
  | services.Panicked _ w => w
  end.

(** A listener event that leaves the entry under [id] alone: its message
    does not decode, or carries another id. *)
Definition otherFor {payload : Type} `{!JSON payload} (id : UUID)
    (e : Event payload) : Prop :=
  match e with
  | EvProcessed msg =>
      match decoded msg with
      | Some n => MessageID n <> id
      | None => True
      end
  | _ => False
  end.

(** The events bring the outcome message [msg] to the handler that waits
    for [id]: first any number of polls that find the entry pending and of
    listener events that leave it pending, the hard timeout not among them;
    then the listener consumes [msg]; then any number of listener events
    for other requests; then the ticker fires.  What follows is free. *)
Definition delivers {payload : Type} `{!JSON payload} (id : UUID)
    (msg : payload) (events : list (Event payload)) : Prop :=
  exists pre mid rest : list (Event payload),
    Forall (quietFor id) pre
    /\ existsb isHardTimeout pre = false
    /\ Forall (otherFor id) mid
    /\ events = pre ++ EvProcessed msg :: mid ++ EvTick :: rest.

(** Whenever the outcome message [msg] is delivered while the handler of
    the request registered under [id] waits, the caller receives the
    failure response carrying [reason]. *)
Definition relayed {payload : Type} `{!JSON payload} (id : UUID) (msg : payload)
    (reason : string) : Prop :=
  forall (rq : Request payload) (p : Process payload)
         (data : MessageNotification),
    admitted rq p id data ->
    delivers id msg (schedule rq) ->
    fst (notificationHandler rq p) = Some (failureResponse reason).

(** ** Further vocabulary *)

(** Every entry of the store is kept under its own [MessageID]. *)
Definition keyed (data : MessageNotification) : Prop :=
  forall (id : UUID) (n : Notification), data !! id = Some n -> MessageID n = id.

(** The text [strconv.Atoi] is applied to: the form field, or the default
    when the field is absent. *)
Definition retriesField {payload : Type} (rq : Request payload) : string :=
  if String.eqb (PostForm rq "max_retry_attempts") ""
  then maxNumberDefaultRetries
  else PostForm rq "max_retry_attempts".

(** The recipient the handler registers. *)
Definition recipientField {payload : Type} (rq : Request payload) : string :=
  if String.eqb (PostForm rq "mode") "email"
     && String.eqb (PostForm rq "recipient") ""
  then Getenv rq "NS_EMAIL_DEFAULT_RECIPIENT"
  else PostForm rq "recipient".

(** The form passes the three checks of the handler. *)
Definition validForm {payload : Type} (rq : Request payload) : Prop :=
  (PostForm rq "mode" = "email" \/ PostForm rq "mode" = "sms"
   \/ PostForm rq "mode" = "slack")
  /\ PostForm rq "message" <> ""
  /\ Atoi (retriesField rq) <> None.

Definition successResponse : Response :=
  mkResponse StatusOK "Notification sent successfully!".

Definition serverErrorResponse : Response :=
  mkResponse StatusInternalServerError "Internal server error".

(** An event that touches no entry of the store but the one under [id]. *)
Definition onlyFor {payload : Type} `{!JSON payload} (id : UUID)
    (e : Event payload) : Prop :=
  match e with
  | EvProcessed msg =>
      match decoded msg with
      | Some n => MessageID n = id
      | None => True
      end
  | _ => True
  end.

(** Whenever the outcome message [msg] is delivered while the handler of
    the request registered under [id] waits, the caller receives the
    success response. *)
Definition relayedSuccess {payload : Type} `{!JSON payload} (id : UUID)
    (msg : payload) : Prop :=
  forall (rq : Request payload) (p : Process payload)
         (data : MessageNotification),
    admitted rq p id data ->
    delivers id msg (schedule rq) ->
    fst (notificationHandler rq p) = Some successResponse.

(** The line [ConsumeClaim] logs for a decode error. *)
Definition unmarshalLine (err : string) : string :=
  "failed to unmarshal notification: " +:+ err.

(** The decode errors of the messages that do not decode, in order. *)
Definition decodeErrors {payload : Type} `{!JSON payload}
    (claim : list payload) : list string :=
  omap (fun msg => match json_Unmarshal msg with
                   | inl _ => None
                   | inr err => Some err
                   end) claim.

(** The lines one call of [Consume] adds to the log: one for each message
    of the claim that does not decode, then one for the error of the call. *)
Definition roundLines {payload : Type} `{!JSON payload} (r : Round payload)
    : list string :=
  map unmarshalLine (decodeErrors (claimed r))
  ++ match Consume_err r with
     | Some err => ["error from consumer: " +:+ err]
     | None => []
     end.

(** [s] is the request [n] up to the three fields that report progress. *)
Definition sameRequest (n s : Notification) : Prop :=
  Mode s = Mode n /\ Message s = Message n
  /\ MaxRetryAttempts s = MaxRetryAttempts n /\ Recipient s = Recipient n
  /\ TimeStamp s = TimeStamp n /\ MessageID s = MessageID n.

(** The call of [smtp.SendMail] that delivers the request [n]. *)
Definition envelope (env : services.World) (n : Notification) : services.Call :=
  services.SendMail "smtp.gmail.com:587"
    ("Info", "infos6587", services.Getenv env "NS_EMAIL_TOKEN", "smtp.gmail.com")
    "infos6587@gmail.com" [Recipient n]
    ("To: " +:+ Recipient n +:+ CRLF +:+ "Subject: Email Notification System"
     +:+ CRLF +:+ CRLF +:+ Message n).

Definition callerBudgetPrefix : string :=
  "Too many failed attempts. Last attempt failed with: ".

Definition systemBudgetPrefix : string :=
  "Too many failed attempts. Max number of retries reached. Last attempt failed with: ".

Definition emailError (e : string) : string :=
  "failed to send email with following error " +:+ e.

Definition decodable {payload : Type} `{!JSON payload} (msg : payload) : bool :=
  match json_Unmarshal msg with
  | inl _ => true
  | inr _ => false
  end.

(** The calls of [Consume] up to and including the first after which the
    context is cancelled. *)
Fixpoint untilDone {payload : Type} (rounds : list (Round payload))
    : list (Round payload) :=
  match rounds with
  | [] => []
  | r :: rounds' => if ctx_done r then [r] else r :: untilDone rounds'
  end.

(** The snapshots of the messages that decode, in the order of arrival. *)
Definition snapshotsOf {payload : Type} `{!JSON payload}
    (rounds : list (Round payload)) : list Notification :=
  omap decoded (concat (map claimed rounds)).

(** The last snapshot of the list whose [MessageID] is [id]. *)
Fixpoint lastFor (id : UUID) (snapshots : list Notification)
    (found : option Notification) : option Notification :=
  match snapshots with
  | [] => found
  | n :: rest =>
      lastFor id rest (if N.eqb (MessageID n) id then Some n else found)
  end.

(** Along the whole invocation the notification is the request [n] up to
    its progress fields, and what was handed to the broker is on the
    processed topic under the id of [n]. *)
Definition tracks {payload : Type} (n : Notification)
    (w : services.Worker payload) : Prop :=
  Forall (sameRequest n) (services.history w)
  /\ sameRequest n (services.notification w)
  /\ Forall (fun m => Topic m = services.kafkaTopicProcessed
                      /\ Key m = MessageID n) (services.outbox w).

(** Every delivery call made so far is the envelope of the request [n]. *)
Definition mails {payload : Type} (env : services.World) (n : Notification)
    (w : services.Worker payload) : Prop :=
  sameRequest n (services.notification w)
  /\ Forall (fun c => c = envelope env n) (services.calls w).

(** ** Fixtures: concrete worlds the model is run in *)

Definition formOf (mode message max_retry_attempts recipient : string)
    (key : string) : string :=
  if String.eqb key "mode" then mode
  else if String.eqb key "message" then message
  else if String.eqb key "max_retry_attempts" then max_retry_attempts
  else if String.eqb key "recipient" then recipient
  else "".

Definition noEnv (key : string) : string := "".

Definition emptyProcess : Process wire :=
  mkProcess ∅ [] (mkSession [] []).

Definition brokerDown : BrokerReply :=
  mkBrokerReply None (Some "kafka: client has run out of available brokers").

(** A request for which the first generated id is [7]. *)
Definition requestWith (form : string -> string) (reply : BrokerReply)
    (events : list (Event wire)) : Request wire :=
  mkRequest form noEnv (fun k => (7 + N.of_nat k)%N) (fun _ => 1000) reply
    events.

(** A world in which every delivery attempt fails. *)
Definition failingWorld : services.World :=
  services.mkWorld noEnv
    (fun _ => Some "channel_not_found")
    (fun _ => Some "dial tcp: connection refused")
    (fun _ => (Some ["1"], Some "throttled"))
    brokerUp.

(** A world in which the SMS gateway cannot be reached: the client hands
    back an error and a response without messages. *)
Definition unreachableSmsWorld : services.World :=
  services.mkWorld noEnv (fun _ => None) (fun _ => None)
    (fun _ => (Some [], Some "Post https://rest.nexmo.com/sms/json: dial tcp: no route to host"))
    brokerUp.

Definition sampleRequest (mode : string) (maxRetryAttempts : Z) : Notification :=
  mkNotification mode "hi" maxRetryAttempts "a@example.com" 1000 7%N 0 false "".

(** The request the handler registers under id 7 for the form
    mode=email, message=hi, max_retry_attempts=2, and the outcome the email
    worker publishes for it in [failingWorld]. *)
Definition emailHi2 : Notification :=
  mkNotification "email" "hi" 2 "" 1000 7%N 0 false "".

Definition emailHi2Outcome : Notification :=
  mkNotification "email" "hi" 2 "" 1000 7%N 2 false
    "Too many failed attempts. Last attempt failed with: failed to send email with following error dial tcp: connection refused".

(** A world in which every delivery attempt succeeds. *)
Definition workingWorld : services.World :=
  services.mkWorld noEnv (fun _ => None) (fun _ => None)
    (fun _ => (Some ["0"], None)) brokerUp.

(** A world in which the first two mails fail and the third goes out. *)
Definition flakyWorld : services.World :=
  services.mkWorld noEnv (fun _ => None)
    (fun k => if Nat.ltb k 2 then Some "421 try again later" else None)
    (fun _ => (Some ["0"], None)) brokerUp.

(** A world in which every delivery attempt fails and the failed response
    of the SMS gateway has no messages. *)
Definition failingSilentWorld : services.World :=
  services.mkWorld noEnv
    (fun _ => Some "channel_not_found")
    (fun _ => Some "dial tcp: connection refused")
    (fun _ => (Some [], Some "dial tcp: no route to host"))
    brokerUp.

(** * Properties *)

(** ** Go integers and strconv.Atoi *)

Lemma wrapInt_id (z : Z) : minInt <= z <= maxInt -> wrapInt z = z.
Proof.
  unfold wrapInt, minInt, maxInt. intros Hz.
  rewrite Z.mod_small by lia. lia.
Qed.

Lemma intAdd_small (a b : Z) :
  minInt <= a + b <= maxInt -> intAdd a b = a + b.
Proof. apply wrapInt_id. Qed.

Lemma digitVal_not_digit (c : ascii) : isDigit c = false -> digitVal c = None.
Proof.
  unfold isDigit, digitVal. intros H.
  destruct (N.leb_spec 48 (N_of_ascii c)) as [H1|H1];
    destruct (N.leb_spec (N_of_ascii c) 57) as [H2|H2];
    simpl in H; try discriminate.
  - replace (Z.of_N (N_of_ascii c) <=? 57) with false
      by (symmetry; apply Z.leb_gt; lia).
    now rewrite andb_false_r.
  - replace (48 <=? Z.of_N (N_of_ascii c)) with false
      by (symmetry; apply Z.leb_gt; lia).
    reflexivity.
  - replace (48 <=? Z.of_N (N_of_ascii c)) with false
      by (symmetry; apply Z.leb_gt; lia).
    reflexivity.
Qed.

Lemma parseDigits_not_digits (s : string) (acc : Z) :
  allDigits s = false -> parseDigits s acc = None.
Proof.
  revert acc. induction s as [|c s IH]; intros acc H; simpl in *.
  - discriminate.
  - destruct (isDigit c) eqn:Hc; simpl in H.
    + destruct (digitVal c); [apply IH; exact H | reflexivity].
    + now rewrite digitVal_not_digit.
Qed.

Lemma parseUnsigned_not_digits (s : string) :
  match s with EmptyString => false | _ => allDigits s end = false ->
  parseUnsigned s = None.
Proof.
  destruct s as [|c s]; [reflexivity|].
  intros H. unfold parseUnsigned. now apply parseDigits_not_digits.
Qed.

Lemma Atoi_not_integer (s : string) : isIntegerLiteral s = false -> Atoi s = None.
Proof.
  destruct s as [|c s]; [reflexivity|].
  unfold isIntegerLiteral, Atoi.
  destruct (Ascii.eqb c "-"); simpl; intros H.
  - now rewrite parseUnsigned_not_digits.
  - destruct (Ascii.eqb c "+"); now rewrite parseUnsigned_not_digits.
Qed.

(** ** The notification store *)

Lemma Delete_eq (id : UUID) (data : MessageNotification) :
  Delete id data = delete id data.
Proof.
  unfold Delete. destruct (data !! id) eqn:H; [reflexivity|].
  symmetry. now apply delete_id.
Qed.

Lemma Delete_lookup (id : UUID) (data : MessageNotification) :
  Delete id data !! id = None.
Proof. rewrite Delete_eq. apply lookup_delete_eq. Qed.

Lemma Delete_lookup_ne (id id' : UUID) (data : MessageNotification) :
  id <> id' -> Delete id data !! id' = data !! id'.
Proof. intros H. rewrite Delete_eq. now apply lookup_delete_ne. Qed.

Lemma Get_lookup (id : UUID) (data : MessageNotification) (n : Notification) :
  data !! id = Some n -> Get id data = n.
Proof. unfold Get. now intros ->. Qed.

Lemma Get_missing (id : UUID) (data : MessageNotification) :
  data !! id = None -> Get id data = zeroNotification.
Proof. unfold Get. now intros ->. Qed.

Lemma AddLoop_collide (remaining attempt : nat) (uuid_New : nat -> UUID)
    (time_Now : nat -> Time) (n : Notification) (data : MessageNotification) :
  (forall k : nat, (attempt <= k < attempt + remaining)%nat ->
     is_Some (data !! uuid_New k)) ->
  AddLoop remaining attempt uuid_New time_Now n data
  = ((0%N, Some "Could not find a free key to insert into map"), data).
Proof.
  revert attempt. induction remaining as [|r IH]; intros attempt H; simpl.
  - reflexivity.
  - destruct (H attempt) as [x Hx]; [lia|]. rewrite Hx.
    apply IH. intros k Hk. apply H. lia.
Qed.

Lemma AddLoop_fresh (remaining attempt k : nat) (uuid_New : nat -> UUID)
    (time_Now : nat -> Time) (n : Notification) (data : MessageNotification) :
  (attempt <= k < attempt + remaining)%nat ->
  data !! uuid_New k = None ->
  (forall j : nat, (attempt <= j < k)%nat -> is_Some (data !! uuid_New j)) ->
  AddLoop remaining attempt uuid_New time_Now n data
  = ((uuid_New k, None),
     <[uuid_New k := setMessageID (uuid_New k) (setTimeStamp (time_Now k) n)]> data).
Proof.
  revert attempt. induction remaining as [|r IH]; intros attempt Hk Hfree Hcol.
  - lia.
  - simpl. destruct (decide (attempt = k)) as [->|Hne].
    + now rewrite Hfree.
    + destruct (Hcol attempt) as [x Hx]; [lia|]. rewrite Hx.
      apply IH; [lia | exact Hfree | intros j Hj; apply Hcol; lia].
Qed.

(** Either some draw is fresh, and then there is a first one, or all of
    them collide. *)
Lemma first_fresh (uuid_New : nat -> UUID) (data : MessageNotification) (b : nat) :
  (exists k : nat, (k < b)%nat /\ data !! uuid_New k = None
     /\ forall j : nat, (j < k)%nat -> is_Some (data !! uuid_New j))
  \/ (forall k : nat, (k < b)%nat -> is_Some (data !! uuid_New k)).
Proof.
  induction b as [|b [(k & Hk & Hf & Hc)|Hall]].
  - right. intros k Hk. lia.
  - left. exists k. split; [lia|]. now split.
  - destruct (data !! uuid_New b) eqn:Hb.
    + right. intros k Hk. destruct (decide (k = b)) as [->|Hne].
      * rewrite Hb. now eexists.
      * apply Hall. lia.
    + left. exists b. split; [lia|]. split; [exact Hb|].
      intros j Hj. now apply Hall.
Qed.

(** C7.  [Add] draws ids until one is not a key of the map, at most
    [maxChecks + 1] = 501 times.  When every draw collides it returns the
    zero id with an error and leaves the store as it was.  Otherwise it
    returns the first fresh draw; the snapshot, with [MessageID] set to that
    id and [TimeStamp] to the current time, is stored under it and every
    other entry is unchanged. *)
Theorem Add_fresh_or_exhausted (uuid_New : nat -> UUID) (time_Now : nat -> Time)
    (n : Notification) (data : MessageNotification) :
  ((forall k : nat, (k <= maxChecks)%nat -> is_Some (data !! uuid_New k)) ->
     exists e : string, Add uuid_New time_Now n data = ((0%N, Some e), data))
  /\
  ((exists k : nat, (k <= maxChecks)%nat /\ data !! uuid_New k = None) ->
     exists (k : nat) (id : UUID) (data' : MessageNotification),
       Add uuid_New time_Now n data = ((id, None), data')
       /\ (k <= maxChecks)%nat /\ id = uuid_New k
       /\ (forall j : nat, (j < k)%nat -> is_Some (data !! uuid_New j))
       /\ data !! id = None
       /\ data' !! id = Some (setMessageID id (setTimeStamp (time_Now k) n))
       /\ MessageID (Get id data') = id
       /\ TimeStamp (Get id data') = time_Now k
       /\ (forall id' : UUID, id' <> id -> data' !! id' = data !! id')).
Proof.
  split.
  - intros Hall. eexists. unfold Add. apply AddLoop_collide.
    intros k Hk. apply Hall. lia.
  - intros (k0 & Hk0 & Hfree0).
    destruct (first_fresh uuid_New data (S maxChecks))
      as [(k & Hk & Hfree & Hcol)|Hall].
    + exists k, (uuid_New k), (<[uuid_New k :=
        setMessageID (uuid_New k) (setTimeStamp (time_Now k) n)]> data).
      split.
      { unfold Add. apply AddLoop_fresh; [lia | exact Hfree |].
        intros j Hj. apply Hcol. lia. }
      split; [lia|]. split; [reflexivity|]. split; [exact Hcol|].
      split; [exact Hfree|]. split; [apply lookup_insert_eq|].
      split; [|split].
      * erewrite Get_lookup by apply lookup_insert_eq. reflexivity.
      * erewrite Get_lookup by apply lookup_insert_eq. reflexivity.
      * intros id' Hne. now apply lookup_insert_ne.
    + destruct (Hall k0) as [x Hx]; [lia|]. congruence.
Qed.

Lemma Add_fresh_or_exhausted_witness :
  (exists e : string,
     Add (fun _ => 7%N) (fun _ => 1000) (sampleRequest "sms" 3)
       {[ 7%N := zeroNotification ]}
     = ((0%N, Some e), {[ 7%N := zeroNotification ]}))
  /\
  (exists (k : nat) (id : UUID) (data' : MessageNotification),
     Add (fun k => (7 + N.of_nat k)%N) (fun _ => 1000) (sampleRequest "sms" 3)
       {[ 7%N := zeroNotification ]} = ((id, None), data')
     /\ k = 1%nat /\ id = 8%N
     /\ data' !! 8%N = Some (setMessageID 8%N (setTimeStamp 1000 (sampleRequest "sms" 3)))
     /\ data' !! 7%N = Some zeroNotification).
Proof.
  split.
  - apply (Add_fresh_or_exhausted (fun _ => 7%N) (fun _ => 1000)
             (sampleRequest "sms" 3) {[ 7%N := zeroNotification ]}).
    intros k _. rewrite lookup_singleton_eq. now eexists.
  - destruct (proj2 (Add_fresh_or_exhausted (fun k => (7 + N.of_nat k)%N)
             (fun _ => 1000) (sampleRequest "sms" 3)
             {[ 7%N := zeroNotification ]}))
      as (k & id & data' & HAdd & Hk & Hid & Hcol & Hfree & Hnew & _ & _ & Hold).
    { exists 1%nat. split; [unfold maxChecks; lia|]. reflexivity. }
    assert (k = 1%nat) as ->.
    { destruct k as [|[|k]].
      - subst id. simpl in Hfree. rewrite lookup_singleton_eq in Hfree.
        discriminate.
      - reflexivity.
      - destruct (Hcol 1%nat) as [x Hx]; [lia|]. simpl in Hx.
        rewrite lookup_singleton_ne in Hx by lia. discriminate. }
    simpl in Hid. subst id.
    exists 1%nat, 8%N, data'. split; [exact HAdd|].
    split; [reflexivity|]. split; [reflexivity|]. split; [exact Hnew|].
    rewrite Hold by lia. apply lookup_singleton_eq.
Defined.

(** ** The poller and the select of the handler *)

Lemma GetResultsTick_pending (id : UUID) (data : MessageNotification) :
  pending (Get id data) -> GetResultsTick id data = [].
Proof. unfold GetResultsTick. intros [-> ->]. reflexivity. Qed.

Lemma GetResultsTick_failed (id : UUID) (data : MessageNotification) :
  IsSent (Get id data) = false -> FailReason (Get id data) <> "" ->
  GetResultsTick id data = [false].
Proof.
  unfold GetResultsTick. intros -> H.
  apply String.eqb_neq in H. now rewrite H.
Qed.

Section Select.
Context {payload : Type} `{!JSON payload}.

Lemma listen_store (msg : payload) (p : Process payload) :
  notificationStore (listen msg p)
  = match decoded msg with
    | Some n => Update (MessageID n) n (notificationStore p)
    | None => notificationStore p
    end.
Proof.
  unfold listen, decoded. simpl. now destruct (json_Unmarshal msg).
Qed.

Lemma listen_broker (msg : payload) (p : Process payload) :
  broker (listen msg p) = broker p.
Proof. unfold listen. simpl. now destruct (json_Unmarshal msg). Qed.

Lemma listen_keeps_pending (id : UUID) (msg : payload) (p : Process payload) :
  quietFor id (EvProcessed msg) ->
  pending (Get id (notificationStore p)) ->
  pending (Get id (notificationStore (listen msg p))).
Proof.
  intros Hq Hp. rewrite listen_store. simpl in Hq.
  destruct (decoded msg) as [n|]; [|exact Hp].
  unfold Update, Get. destruct (decide (MessageID n = id)) as [He|Hne].
  - rewrite He, lookup_insert_eq. now apply Hq.
  - rewrite lookup_insert_ne by exact Hne. exact Hp.
Qed.

Lemma await_pending (id : UUID) (events : list (Event payload))
    (p : Process payload) :
  pending (Get id (notificationStore p)) ->
  Forall (quietFor id) events ->
  fst (await id events p)
  = if existsb isHardTimeout events then Some timeoutResponse else None.
Proof.
  intros Hp Hq. revert p Hp.
  induction Hq as [|e events He Hq IH]; intros p Hp; [reflexivity|].
  destruct e as [msg| |]; simpl.
  - apply IH. now apply listen_keeps_pending.
  - rewrite GetResultsTick_pending by exact Hp. now apply IH.
  - reflexivity.
Qed.

(** The listener hands over a failed snapshot for [id] and the ticker
    fires: the handler is released with the stored reason. *)
Lemma await_failure (id : UUID) (msg : payload) (n : Notification)
    (rest : list (Event payload)) (p : Process payload) :
  json_Unmarshal msg = inl n -> MessageID n = id ->
  IsSent n = false -> FailReason n <> "" ->
  fst (await id (EvProcessed msg :: EvTick :: rest) p)
  = Some (failureResponse (FailReason n)).
Proof.
  intros Hdec Hid Hsent Hreason. simpl.
  assert (Get id (notificationStore (listen msg p)) = n) as HG.
  { rewrite listen_store. unfold decoded. rewrite Hdec.
    apply Get_lookup. unfold Update. rewrite Hid. apply lookup_insert_eq. }
  rewrite GetResultsTick_failed by (rewrite HG; assumption).
  simpl. now rewrite HG.
Qed.

End Select.

(** C9.  One firing of the ticker offers a value to the handler exactly
    when the stored snapshot has [IsSent] set (then [true] comes first) or a
    nonempty [FailReason] (then [false]); for a pending snapshot, and so for
    the zero value read for an id that is absent, it offers nothing, and as
    long as the snapshot stays pending the handler is released by the hard
    timeout only: without it the handler is still blocked. *)
Theorem GetResults_signals_iff_terminal {payload : Type} `{!JSON payload}
    (id : UUID) (data : MessageNotification) :
  (GetResultsTick id data <> []
     <-> IsSent (Get id data) = true \/ FailReason (Get id data) <> "")
  /\ (IsSent (Get id data) = true ->
        exists more : list bool, GetResultsTick id data = true :: more)
  /\ (IsSent (Get id data) = false -> FailReason (Get id data) <> "" ->
        GetResultsTick id data = [false])
  /\ (IsSent (Get id data) = false -> FailReason (Get id data) = "" ->
        GetResultsTick id data = [])
  /\ (data !! id = None -> GetResultsTick id data = [])
  /\ (forall (events : list (Event payload)) (p : Process payload),
        notificationStore p = data ->
        IsSent (Get id data) = false -> FailReason (Get id data) = "" ->
        Forall (quietFor id) events ->
        fst (await id events p)
        = if existsb isHardTimeout events then Some timeoutResponse else None).
Proof.
  split; [|split; [|split; [|split; [|split]]]].
  - unfold GetResultsTick. split.
    + destruct (IsSent (Get id data)); [now left|].
      destruct (String.eqb_spec (FailReason (Get id data)) "") as [He|Hne];
        simpl; [congruence | now right].
    + intros [Hs|Hr].
      * now rewrite Hs.
      * apply String.eqb_neq in Hr. rewrite Hr.
        now destruct (IsSent (Get id data)).
  - intros Hs. unfold GetResultsTick. rewrite Hs. now eexists.
  - apply GetResultsTick_failed.
  - intros Hs Hr. now apply GetResultsTick_pending.
  - intros Hmiss. apply GetResultsTick_pending.
    rewrite (Get_missing _ _ Hmiss). now split.
  - intros events p <- Hs Hr Hq. apply await_pending; [now split | exact Hq].
Qed.

Lemma GetResults_signals_iff_terminal_witness :
  GetResultsTick 7%N {[ 7%N := setFailReason "boom" zeroNotification ]} = [false]
  /\ GetResultsTick 7%N {[ 7%N := zeroNotification ]} = []
  /\ GetResultsTick 7%N (∅ : MessageNotification) = []
  /\ fst (await 7%N [EvTick; EvProcessed (Garbled "x"); EvTick]
            (mkProcess {[ 7%N := zeroNotification ]} [] (mkSession [] [])))
     = None
  /\ fst (await 7%N [EvTick; EvProcessed (Encoded zeroNotification);
                     EvHardTimeout; EvTick]
            (mkProcess {[ 7%N := zeroNotification ]} [] (mkSession [] [])))
     = Some timeoutResponse.
Proof.
  pose proof (GetResults_signals_iff_terminal (payload := wire) 7%N
                {[ 7%N := setFailReason "boom" zeroNotification ]})
    as (_ & _ & Hfail & _).
  pose proof (GetResults_signals_iff_terminal (payload := wire) 7%N
                {[ 7%N := zeroNotification ]})
    as (_ & _ & _ & Hpend & _ & Hawait).
  pose proof (GetResults_signals_iff_terminal (payload := wire) 7%N ∅)
    as (_ & _ & _ & _ & Hmiss & _).
  assert (Get 7%N ({[ 7%N := zeroNotification ]} : MessageNotification)
          = zeroNotification) as HG
    by (apply Get_lookup, lookup_singleton_eq).
  split; [|split; [|split; [|split]]].
  - apply Hfail;
      erewrite Get_lookup by apply lookup_singleton_eq; simpl;
      [reflexivity | discriminate].
  - apply Hpend; rewrite HG; reflexivity.
  - apply Hmiss. apply lookup_empty.
  - apply (Hawait [EvTick; EvProcessed (Garbled "x"); EvTick]);
      [reflexivity | rewrite HG; reflexivity | rewrite HG; reflexivity |].
    repeat constructor.
  - apply (Hawait [EvTick; EvProcessed (Encoded zeroNotification);
                   EvHardTimeout; EvTick]);
      [reflexivity | rewrite HG; reflexivity | rewrite HG; reflexivity |].
    repeat constructor.
Defined.

(** ** The outcome listener *)

Section Listener.
Context {payload : Type} `{!JSON payload}.

Lemma omap_decoded_cons (msg : payload) (rest : list payload) :
  omap decoded (msg :: rest)
  = match decoded msg with
    | Some n => n :: omap decoded rest
    | None => omap decoded rest
    end.
Proof. reflexivity. Qed.

End Listener.

(** ** The HTTP handler *)

Section Handler.
Context {payload : Type} `{!JSON payload}.

(** An admitted request reaches the [select]; what the handler answers and
    leaves behind is decided there, followed by the final [Delete]. *)
Lemma handler_admitted (rq : Request payload) (p : Process payload)
    (id : UUID) (data : MessageNotification) :
  admitted rq p id data ->
  notificationHandler rq p
  = match await id (schedule rq)
            (mkProcess data
               (snd (SendKafkaMessage (broker_reply rq) (PostForm rq "mode")
                       (Get id data) (broker p)))
               (session p)) with
    | (Some response, p') =>
        (Some response,
         mkProcess (Delete id (notificationStore p')) (broker p') (session p'))
    | (None, p') => (None, p')
    end.
Proof.
  intros [(Hmode & Hmsg & maxRetryAttempts & HAtoi & HAdd) Hsend].
  unfold notificationHandler.
  assert (String.eqb (PostForm rq "mode") ""
          || (negb (String.eqb (PostForm rq "mode") "email")
              && negb (String.eqb (PostForm rq "mode") "sms")
              && negb (String.eqb (PostForm rq "mode") "slack")) = false) as ->.
  { destruct Hmode as [->|[->| ->]]; reflexivity. }
  apply String.eqb_neq in Hmsg. rewrite Hmsg, HAtoi, HAdd.
  destruct (SendKafkaMessage (broker_reply rq) (PostForm rq "mode")
              (Get id data) (broker p)) as [err topics].
  simpl in Hsend. subst err. reflexivity.
Qed.

Lemma handler_admitted_answer (rq : Request payload) (p : Process payload)
    (id : UUID) (data : MessageNotification) :
  admitted rq p id data ->
  fst (notificationHandler rq p)
  = fst (await id (schedule rq)
           (mkProcess data
              (snd (SendKafkaMessage (broker_reply rq) (PostForm rq "mode")
                      (Get id data) (broker p)))
              (session p))).
Proof.
  intros H. rewrite (handler_admitted _ _ _ _ H).
  now destruct (await id _ _) as [[r|] p'].
Qed.

(** What [Add] stores for the handler keeps the fields of the literal it
    was given, the counter at zero in particular. *)
Lemma Add_ok_Get (uuid_New : nat -> UUID) (time_Now : nat -> Time)
    (n : Notification) (data data' : MessageNotification) (id : UUID) :
  Add uuid_New time_Now n data = ((id, None), data') ->
  exists t : Time, data' !! id = Some (setMessageID id (setTimeStamp t n)).
Proof.
  intros HAdd.
  destruct (first_fresh uuid_New data (S maxChecks))
    as [(k & Hk & Hfree & Hcol)|Hall].
  - unfold Add in HAdd.
    rewrite (AddLoop_fresh (S maxChecks) 0 k) in HAdd;
      [| lia | exact Hfree | intros j Hj; apply Hcol; lia].
    injection HAdd as <- <-. exists (time_Now k). apply lookup_insert_eq.
  - unfold Add in HAdd. rewrite AddLoop_collide in HAdd; [discriminate|].
    intros k Hk. apply Hall. lia.
Qed.

End Handler.

(** C6.  A request whose mode is missing or unsupported, or whose message
    is empty, or whose max_retry_attempts is given but is no integer, is
    answered with status 400, and the handler returns with the store, the
    topics of the broker and the consumer session exactly as they were:
    nothing was registered and nothing was published. *)
Theorem invalid_request_rejected {payload : Type} `{!JSON payload}
    (rq : Request payload) (p : Process payload) :
  (PostForm rq "mode" = ""
   \/ (PostForm rq "mode" <> "email" /\ PostForm rq "mode" <> "sms"
       /\ PostForm rq "mode" <> "slack"))
  \/ PostForm rq "message" = ""
  \/ (PostForm rq "max_retry_attempts" <> ""
      /\ isIntegerLiteral (PostForm rq "max_retry_attempts") = false) ->
  exists text : string,
    notificationHandler rq p = (Some (mkResponse StatusBadRequest text), p).
Proof.
  intros H. unfold notificationHandler.
  destruct (String.eqb_spec (PostForm rq "mode") "") as [Hm0|Hm0];
    [now eexists|].
  destruct (String.eqb_spec (PostForm rq "mode") "email") as [Hm1|Hm1];
    destruct (String.eqb_spec (PostForm rq "mode") "sms") as [Hm2|Hm2];
    destruct (String.eqb_spec (PostForm rq "mode") "slack") as [Hm3|Hm3];
    cbn [negb andb orb]; try (now eexists);
    (destruct (String.eqb_spec (PostForm rq "message") "") as [Hg|Hg];
       [now eexists|]);
    (destruct H as [[H|(H1 & H2 & H3)]|[H|(Hp & Hi)]]; try congruence;
     apply String.eqb_neq in Hp; rewrite Hp;
     rewrite (Atoi_not_integer _ Hi); now eexists).
Qed.

Lemma invalid_request_rejected_witness :
  (exists text : string,
     notificationHandler (requestWith (formOf "fax" "hi" "" "") brokerUp [])
       emptyProcess
     = (Some (mkResponse StatusBadRequest text), emptyProcess))
  /\ (exists text : string,
        notificationHandler (requestWith (formOf "sms" "" "" "") brokerUp [])
          emptyProcess
        = (Some (mkResponse StatusBadRequest text), emptyProcess))
  /\ (exists text : string,
        notificationHandler
          (requestWith (formOf "email" "hi" "two" "") brokerUp []) emptyProcess
        = (Some (mkResponse StatusBadRequest text), emptyProcess)).
Proof.
  split; [|split]; apply invalid_request_rejected.
  - left. right. cbn. repeat split; discriminate.
  - right. left. reflexivity.
  - right. right. cbn. split; [discriminate | reflexivity].
Defined.

(** A registered request whose publish fails is answered with status 500
    by the early return; the final [Delete] is not reached and the entry
    registered for the request stays in the store. *)
Lemma handler_publish_failure {payload : Type} `{!JSON payload}
    (rq : Request payload) (p : Process payload) (id : UUID)
    (data : MessageNotification) :
  registered rq p id data ->
  fst (SendKafkaMessage (broker_reply rq) (PostForm rq "mode") (Get id data)
         (broker p)) <> None ->
  notificationHandler rq p
  = (Some (mkResponse StatusInternalServerError "Internal server error"),
     mkProcess data (broker p) (session p))
  /\ is_Some (data !! id).
Proof.
  intros (Hmode & Hmsg & maxRetryAttempts & HAtoi & HAdd) Hsend.
  split.
  - unfold notificationHandler.
    assert (String.eqb (PostForm rq "mode") ""
            || (negb (String.eqb (PostForm rq "mode") "email")
                && negb (String.eqb (PostForm rq "mode") "sms")
                && negb (String.eqb (PostForm rq "mode") "slack")) = false) as ->.
    { destruct Hmode as [->|[->| ->]]; reflexivity. }
    apply String.eqb_neq in Hmsg. rewrite Hmsg, HAtoi, HAdd.
    revert Hsend. unfold SendKafkaMessage.
    destruct (setupProducer (broker_reply rq)); [reflexivity|].
    destruct (json_Marshal (Get id data)); [|reflexivity].
    destruct (SendMessage_err (broker_reply rq)); [reflexivity|].
    simpl. congruence.
  - destruct (Add_ok_Get _ _ _ _ _ _ HAdd) as [t Ht]. rewrite Ht. now eexists.
Qed.

(** C1, on the code: an email request "hi" arrives at an empty store while
    the broker refuses the message.  The handler answers 500, and the entry
    it registered under id 7 is still in the store when it returns. *)
Theorem publish_failure_leaves_entry :
  notificationHandler (requestWith (formOf "email" "hi" "" "") brokerDown [])
    emptyProcess
  = (Some (mkResponse StatusInternalServerError "Internal server error"),
     mkProcess
       {[ 7%N := mkNotification "email" "hi" 5 "" 1000 7%N 0 false "" ]}
       [] (mkSession [] []))
  /\ notificationStore
       (snd (notificationHandler
               (requestWith (formOf "email" "hi" "" "") brokerDown [])
               emptyProcess)) !! 7%N
     = Some (mkNotification "email" "hi" 5 "" 1000 7%N 0 false "").
Proof.
  assert (registered (requestWith (formOf "email" "hi" "" "") brokerDown [])
            emptyProcess 7%N
            {[ 7%N := mkNotification "email" "hi" 5 "" 1000 7%N 0 false "" ]})
    as Hreg.
  { split; [now left|]. split; [discriminate|]. exists 5. split; reflexivity. }
  destruct (handler_publish_failure _ _ _ _ Hreg) as [Heq _].
  { erewrite Get_lookup by apply lookup_singleton_eq. discriminate. }
  rewrite Heq. split; [reflexivity|]. apply lookup_singleton_eq.
Qed.

(** ** Lifetime of an entry *)

Lemma AddLoop_avoids (remaining attempt : nat) (uuid_New : nat -> UUID)
    (time_Now : nat -> Time) (n : Notification) (data : MessageNotification)
    (id : UUID) :
  (forall k : nat, uuid_New k <> id) ->
  snd (AddLoop remaining attempt uuid_New time_Now n data) !! id = data !! id.
Proof.
  intros Hne. revert attempt.
  induction remaining as [|r IH]; intros attempt; simpl; [reflexivity|].
  destruct (data !! uuid_New attempt); [apply IH|].
  simpl. now apply lookup_insert_ne.
Qed.

Lemma applyOp_keeps_absent (id : UUID) (op : StoreOp) (data : MessageNotification) :
  avoids id op -> data !! id = None -> applyOp op data !! id = None.
Proof.
  destruct op as [uuid_New time_Now n|id' n|id']; simpl; intros Hop Hnone.
  - unfold Add. now rewrite AddLoop_avoids.
  - unfold Update. now rewrite lookup_insert_ne.
  - destruct (decide (id' = id)) as [->|Hne].
    + apply Delete_lookup.
    + now rewrite Delete_lookup_ne.
Qed.

Lemma applyOps_keep_absent (id : UUID) (ops : list StoreOp)
    (data : MessageNotification) :
  Forall (avoids id) ops -> data !! id = None -> applyOps ops data !! id = None.
Proof.
  intros Hops. revert data.
  induction Hops as [|op ops Hop Hops IH]; intros data Hnone; [exact Hnone|].
  unfold applyOps. simpl. apply IH. now apply applyOp_keeps_absent.
Qed.

(** C2, as stated, fails: the handler answers at the hard timeout and
    deletes the entry under id 7; the outcome of the email worker arrives
    afterwards, and the listener stores it under id 7 again. *)
Lemma late_outcome_recreates_entry :
  let rq := requestWith (formOf "email" "hi" "2" "") brokerUp [EvHardTimeout] in
  let late := emailHi2Outcome in
  fst (notificationHandler rq emptyProcess) = Some timeoutResponse
  /\ notificationStore (snd (notificationHandler rq emptyProcess)) !! 7%N = None
  /\ notificationStore
       (listen (Encoded late) (snd (notificationHandler rq emptyProcess))) !! 7%N
     = Some late.
Proof.
  intros rq late.
  assert (admitted rq emptyProcess 7%N {[ 7%N := emailHi2 ]}) as Hadm.
  { split; [|reflexivity].
    split; [now left|]. split; [discriminate|]. exists 2. split; reflexivity. }
  rewrite (handler_admitted _ _ _ _ Hadm). cbn [schedule rq requestWith await fst snd].
  split; [reflexivity|]. split.
  - cbn [notificationStore]. apply Delete_lookup.
  - rewrite listen_store. cbn [decoded json_Unmarshal wire_JSON MessageID late].
    unfold Update. apply lookup_insert_eq.
Qed.

(** C2, amended.  Once the entry of an id is deleted nothing is stored
    under that id, and it stays so under every later store operation other
    than an [Update] of that id or an [Add] that draws the id again; the
    handler's answer always comes with that deletion.  A late outcome event
    for the id, applied through [Update], stores its snapshot under the id
    again. *)
Theorem entry_absent_until_updated {payload : Type} `{!JSON payload}
    (id : UUID) (data : MessageNotification) :
  Delete id data !! id = None
  /\ (forall ops : list StoreOp, Forall (avoids id) ops ->
        applyOps ops (Delete id data) !! id = None)
  /\ (forall (rq : Request payload) (p : Process payload)
             (data0 : MessageNotification),
        admitted rq p id data0 -> is_Some (fst (notificationHandler rq p)) ->
        notificationStore (snd (notificationHandler rq p)) !! id = None)
  /\ (forall late : Notification, MessageID late = id ->
        ReceiveProcessedNotification late (Delete id data) !! id = Some late)
  /\ (forall (msg : payload) (late : Notification) (p : Process payload),
        decoded msg = Some late -> MessageID late = id ->
        notificationStore p = Delete id data ->
        notificationStore (listen msg p) !! id = Some late).
Proof.
  split; [apply Delete_lookup|]. split; [|split; [|split]].
  - intros ops Hops. apply applyOps_keep_absent; [exact Hops|].
    apply Delete_lookup.
  - intros rq p data0 Hadm Hans. rewrite (handler_admitted _ _ _ _ Hadm) in *.
    destruct (await id _ _) as [[r|] p'].
    + cbn [snd notificationStore]. apply Delete_lookup.
    + simpl in Hans. destruct Hans as [x Hx]. discriminate.
  - intros late <-. unfold ReceiveProcessedNotification, Update.
    apply lookup_insert_eq.
  - intros msg late p Hdec <- Hp. rewrite listen_store, Hdec.
    unfold Update. apply lookup_insert_eq.
Qed.

Lemma entry_absent_until_updated_witness :
  let data : MessageNotification := {[ 7%N := sampleRequest "email" 2 ]} in
  let late := setFailReason "Too many failed attempts." (sampleRequest "email" 2) in
  Delete 7%N data !! 7%N = None
  /\ applyOps [OpUpdate 8%N zeroNotification; OpDelete 7%N; OpDelete 8%N;
               OpAdd (fun k => (9 + N.of_nat k)%N) (fun _ => 1000) zeroNotification]
       (Delete 7%N data) !! 7%N = None
  /\ notificationStore
       (snd (notificationHandler
               (requestWith (formOf "email" "hi" "2" "") brokerUp [EvHardTimeout])
               emptyProcess)) !! 7%N = None
  /\ ReceiveProcessedNotification late (Delete 7%N data) !! 7%N = Some late
  /\ notificationStore
       (listen (Encoded late) (mkProcess (Delete 7%N data) [] (mkSession [] [])))
     !! 7%N = Some late.
Proof.
  intros data late.
  destruct (entry_absent_until_updated (payload := wire) 7%N data)
    as (Hdel & Hops & Hhandler & Hlate & Hlisten).
  split; [exact Hdel|]. split; [|split; [|split]].
  - apply Hops. repeat constructor; simpl; lia.
  - apply (Hhandler _ _ {[ 7%N := emailHi2 ]}).
    + split; [|reflexivity].
      split; [now left|]. split; [discriminate|]. exists 2. split; reflexivity.
    + eexists. reflexivity.
  - apply Hlate. reflexivity.
  - apply Hlisten; reflexivity.
Defined.

(** ** Strings *)

Lemma append_assoc (a b c : string) : (a +:+ b) +:+ c = a +:+ (b +:+ c).
Proof.
  induction a as [|x a IH]; [reflexivity|].
  change (String x ((a +:+ b) +:+ c) = String x (a +:+ (b +:+ c))).
  now rewrite IH.
Qed.

Lemma append_empty_r (a : string) : a +:+ "" = a.
Proof.
  induction a as [|x a IH]; [reflexivity|].
  change (String x (a +:+ "") = String x a). now rewrite IH.
Qed.

Lemma contains_here (pre sub post : string) : contains (pre +:+ sub +:+ post) sub.
Proof. now exists pre, post. Qed.

Lemma contains_suffix (pre sub : string) : contains (pre +:+ sub) sub.
Proof. exists pre, "". now rewrite append_empty_r. Qed.

Lemma contains_after (a s sub : string) : contains s sub -> contains (a +:+ s) sub.
Proof.
  intros (pre & post & ->). exists (a +:+ pre), post. now rewrite append_assoc.
Qed.

Lemma contains_before (s b sub : string) : contains s sub -> contains (s +:+ b) sub.
Proof.
  intros (pre & post & ->). exists pre, (post +:+ b).
  now rewrite !append_assoc.
Qed.

Lemma append_nonempty (a b : string) : a <> "" -> a +:+ b <> "".
Proof. destruct a; [congruence | discriminate]. Qed.

(** ** The delivery workers *)

Import services.

Section Workers.
Context {payload : Type} `{!JSON payload}.

Lemma within_start (B : Z) (n : Notification) :
  NumOfRepetitions n <= B -> within B (start (payload := payload) n).
Proof. intros H. split; [now repeat constructor | exact H]. Qed.

Lemma within_assign (B : Z) (f : Notification -> Notification)
    (w : Worker payload) :
  within B w -> NumOfRepetitions (f (notification w)) <= B ->
  within B (assign f w).
Proof.
  intros [Hh Hn] Hf. split; [|exact Hf].
  cbn [assign history]. apply Forall_app. split; [exact Hh|].
  now repeat constructor.
Qed.

Lemma within_call (B : Z) (c : Call) (w : Worker payload) :
  within B w -> within B (call c w).
Proof. now intros [Hh Hn]. Qed.

Lemma publish_same (env : World) (w : Worker payload) :
  notification (snd (publish env w)) = notification w
  /\ history (snd (publish env w)) = history w
  /\ calls (snd (publish env w)) = calls w.
Proof.
  unfold publish.
  now destruct (SendKafkaMessage _ _ _ _) as [err topics].
Qed.

Lemma within_publish (B : Z) (env : World) (w : Worker payload) :
  within B w -> within B (snd (publish env w)).
Proof.
  destruct (publish_same env w) as (Hn & Hh & _).
  unfold within. now rewrite Hn, Hh.
Qed.

(** With the broker up and a codec that encodes the snapshot, [publish]
    appends one message for the processed topic, which decodes to the
    snapshot. *)
Lemma publish_up (env : World) (w : Worker payload) :
  roundtrips payload -> broker_reply env = brokerUp ->
  exists v : payload,
    json_Unmarshal v = inl (notification w)
    /\ outbox (snd (publish env w))
       = outbox w
         ++ [mkProducerMessage kafkaTopicProcessed (MessageID (notification w)) v].
Proof.
  intros Hrt Hup. destruct (Hrt (notification w)) as (v & Hm & Hu).
  exists v. split; [exact Hu|].
  unfold publish, SendKafkaMessage. rewrite Hup. cbn [setupProducer brokerUp
    NewSyncProducer_err SendMessage_err]. now rewrite Hm.
Qed.

(** *** One attempt *)

Lemma sendEmail_fail (env : World) (w : Worker payload) (e : string) :
  smtp_SendMail env (length (calls w)) = Some e ->
  notification (sendEmail env w)
  = afterFailure ("failed to send email with following error " +:+ e)
      (notification w)
  /\ history (sendEmail env w)
     = history w
       ++ [setIsSent false (notification w);
           setNumOfRepetitions (intAdd (NumOfRepetitions (notification w)) 1)
             (setIsSent false (notification w));
           afterFailure ("failed to send email with following error " +:+ e)
             (notification w)]
  /\ length (calls (sendEmail env w)) = S (length (calls w))
  /\ outbox (sendEmail env w) = outbox w.
Proof.
  intros H. unfold sendEmail. rewrite H.
  cbn [assign call notification history calls outbox].
  split; [reflexivity|]. split; [now rewrite <- !app_assoc|].
  split; [|reflexivity]. rewrite length_app. simpl. lia.
Qed.

Lemma sendEmail_ok (env : World) (w : Worker payload) :
  smtp_SendMail env (length (calls w)) = None ->
  notification (sendEmail env w) = setIsSent true (notification w)
  /\ history (sendEmail env w) = history w ++ [setIsSent true (notification w)]
  /\ length (calls (sendEmail env w)) = S (length (calls w))
  /\ outbox (sendEmail env w) = outbox w.
Proof.
  intros H. unfold sendEmail. rewrite H.
  cbn [assign call notification history calls outbox].
  repeat split. rewrite length_app. simpl. lia.
Qed.

Lemma sendSlack_fail (env : World) (w : Worker payload) (e : string) :
  slack_PostMessage env (length (calls w)) = Some e ->
  notification (sendSlack env w)
  = afterFailure ("failed to send slack message with following error "
                  +:+ e +:+ ".") (notification w)
  /\ history (sendSlack env w)
     = history w
       ++ [setIsSent false (notification w);
           setNumOfRepetitions (intAdd (NumOfRepetitions (notification w)) 1)
             (setIsSent false (notification w));
           afterFailure ("failed to send slack message with following error "
                         +:+ e +:+ ".") (notification w)]
  /\ length (calls (sendSlack env w)) = S (length (calls w))
  /\ outbox (sendSlack env w) = outbox w.
Proof.
  intros H. unfold sendSlack. rewrite H.
  cbn [assign call notification history calls outbox].
  split; [reflexivity|]. split; [now rewrite <- !app_assoc|].
  split; [|reflexivity]. rewrite length_app. simpl. lia.
Qed.

Lemma sendSlack_ok (env : World) (w : Worker payload) :
  slack_PostMessage env (length (calls w)) = None ->
  notification (sendSlack env w) = setIsSent true (notification w)
  /\ history (sendSlack env w) = history w ++ [setIsSent true (notification w)]
  /\ length (calls (sendSlack env w)) = S (length (calls w))
  /\ outbox (sendSlack env w) = outbox w.
Proof.
  intros H. unfold sendSlack. rewrite H.
  cbn [assign call notification history calls outbox].
  repeat split. rewrite length_app. simpl. lia.
Qed.

End Workers.

(** *** The attempts counter *)

Section Counter.
Context {payload : Type} `{!JSON payload}.

Lemma within_mono (B B' : Z) (w : Worker payload) :
  B <= B' -> within B w -> within B' w.
Proof.
  intros HB [Hh Hn]. split; [|lia].
  eapply Forall_impl; [exact Hh|]. intros s Hs. simpl in Hs. lia.
Qed.

Lemma intAdd_counter (c : Z) : 0 <= c <= 4 -> intAdd c 1 = c + 1.
Proof. intros Hc. apply intAdd_small. unfold minInt, maxInt. lia. Qed.

Ltac step_within Hc :=
  repeat first
    [ apply within_publish
    | apply within_assign;
        [| cbn; rewrite ?(intAdd_counter _ Hc); cbn in Hc; lia ]
    | apply within_call ].

Lemma sendEmail_within (env : World) (w : Worker payload) :
  0 <= NumOfRepetitions (notification w) <= 4 -> within 5 w ->
  within 5 (sendEmail env w)
  /\ MaxRetryAttempts (notification (sendEmail env w))
     = MaxRetryAttempts (notification w)
  /\ (IsSent (notification (sendEmail env w)) = true
      \/ (IsSent (notification (sendEmail env w)) = false
          /\ NumOfRepetitions (notification (sendEmail env w))
             = NumOfRepetitions (notification w) + 1)).
Proof.
  intros Hc Hw. unfold sendEmail.
  destruct (smtp_SendMail env (length (calls w))) as [e|].
  - split; [|split; [reflexivity|right; split; [reflexivity|]]].
    + step_within Hc. exact Hw.
    + cbn. now apply intAdd_counter.
  - split; [|split; [reflexivity|now left]].
    step_within Hc. exact Hw.
Qed.

Lemma sendSlack_within (env : World) (w : Worker payload) :
  0 <= NumOfRepetitions (notification w) <= 4 -> within 5 w ->
  within 5 (sendSlack env w).
Proof.
  intros Hc Hw. unfold sendSlack.
  destruct (slack_PostMessage env (length (calls w))) as [e|].
  - step_within Hc. exact Hw.
  - step_within Hc. exact Hw.
Qed.

Lemma sendSms_within (env : World) (w : Worker payload) :
  0 <= NumOfRepetitions (notification w) <= 4 -> within 5 w ->
  within 5 (finalState (sendSms env w)).
Proof.
  intros Hc Hw. unfold sendSms.
  destruct (nexmo_SendSMS env (length (calls w))) as [smsResponse [e|]].
  - destruct smsResponse as [[|Status more]|]; cbn [finalState];
      step_within Hc; exact Hw.
  - cbn [finalState]. step_within Hc. exact Hw.
Qed.

Lemma emailLoop_within (remaining : nat) (env : World) (w : Worker payload) :
  0 <= NumOfRepetitions (notification w) <= 4 -> within 5 w ->
  within 5 (emailLoop remaining env w).
Proof.
  revert w. induction remaining as [|r IH]; intros w Hc Hw; [exact Hw|].
  cbn [emailLoop].
  destruct (sendEmail_within env w Hc Hw) as (Hw1 & HM & Hsent).
  destruct Hsent as [Hs|[Hs Hn]]; rewrite Hs; cbn [negb andb].
  - now apply within_publish.
  - destruct (MaxRetryAttempts (notification (sendEmail env w))
              <=? NumOfRepetitions (notification (sendEmail env w))).
    + pose proof Hw1 as [Hh1 Hn1]. step_within Hn1. exact Hw1.
    + destruct (Z.eqb_spec (NumOfRepetitions (notification (sendEmail env w)))
                  maxEmailRetries) as [He|Hne].
      * pose proof Hw1 as [Hh1 Hn1]. step_within Hn1. exact Hw1.
      * apply IH; [|exact Hw1]. unfold maxEmailRetries in Hne. lia.
Qed.

End Counter.

(** The notification the handler registers, and then publishes, has its
    counter at zero. *)
Lemma registered_counter_zero {payload : Type} (rq : Request payload)
    (p : Process payload) (id : UUID) (data : MessageNotification) :
  registered rq p id data -> NumOfRepetitions (Get id data) = 0.
Proof.
  intros (_ & _ & M & _ & HAdd).
  destruct (Add_ok_Get _ _ _ _ _ _ HAdd) as [t Ht].
  now rewrite (Get_lookup _ _ _ Ht).
Qed.

(** C5.  A request enters a worker with its counter at zero, as the
    handler registers it.  In every value the notification takes while the
    email, slack or sms worker processes it, whatever the delivery attempts
    answer and also when the sms worker panics, [NumOfRepetitions] is at
    most the larger of the caller's [MaxRetryAttempts] and the cap 5. *)
Theorem attempts_counter_bounded {payload : Type} `{!JSON payload}
    (env : World) (n : Notification) :
  NumOfRepetitions n = 0 ->
  within (Z.max (MaxRetryAttempts n) maxEmailRetries)
    (emailService (payload := payload) env n)
  /\ within (Z.max (MaxRetryAttempts n) maxEmailRetries)
       (slackService (payload := payload) env n)
  /\ within (Z.max (MaxRetryAttempts n) maxEmailRetries)
       (finalState (smsService (payload := payload) env n)).
Proof.
  intros H0.
  assert (within 5 (start (payload := payload) n)) as Hstart
    by (apply within_start; lia).
  assert (0 <= NumOfRepetitions (notification (start (payload := payload) n)) <= 4)
    as Hc by (cbn; lia).
  assert (5 <= Z.max (MaxRetryAttempts n) maxEmailRetries) as HB
    by (unfold maxEmailRetries; lia).
  split; [|split]; apply (within_mono 5 _ _ HB).
  - unfold emailService. now apply emailLoop_within.
  - unfold slackService.
    pose proof (sendSlack_within env _ Hc Hstart) as Hw.
    destruct (IsSent (notification (sendSlack env (start n)))).
    + now apply within_publish.
    + apply within_publish. apply within_assign; [exact Hw|].
      destruct Hw as [_ Hn]. exact Hn.
  - unfold smsService.
    pose proof (sendSms_within env _ Hc Hstart) as Hw.
    destruct (sendSms env (start n)) as [w|why w]; cbn [finalState] in *.
    + destruct (IsSent (notification w)); cbn [finalState];
        now apply within_publish.
    + exact Hw.
Qed.

Lemma attempts_counter_bounded_witness :
  within 5 (emailService (payload := wire) failingWorld (sampleRequest "email" 3))
  /\ within 9 (slackService (payload := wire) failingWorld (sampleRequest "slack" 9))
  /\ within 5 (finalState (smsService (payload := wire) unreachableSmsWorld
                             (sampleRequest "sms" 1))).
Proof.
  split; [|split].
  - apply (attempts_counter_bounded (payload := wire) failingWorld
             (sampleRequest "email" 3)). reflexivity.
  - apply (attempts_counter_bounded (payload := wire) failingWorld
             (sampleRequest "slack" 9)). reflexivity.
  - apply (attempts_counter_bounded (payload := wire) unreachableSmsWorld
             (sampleRequest "sms" 1)). reflexivity.
Defined.

(** *** Attempts that always fail *)

Section Failing.
Context {payload : Type} `{!JSON payload}.
Variable env : World.
Hypothesis codec_ok : roundtrips payload.
Hypothesis broker_ok : broker_reply env = brokerUp.

(** The state in which the email worker gives up: [IsSent] cleared, the
    reason prefixed, the outcome published. *)
Lemma give_up_state (prefix : string) (w : Worker payload) :
  let w' := snd (publish env
                   (assign (fun n => setFailReason (prefix +:+ FailReason n) n)
                      (assign (setIsSent false) w))) in
  exists v : payload,
    json_Unmarshal v = inl (notification w')
    /\ outbox w'
       = outbox w
         ++ [mkProducerMessage kafkaTopicProcessed (MessageID (notification w)) v]
    /\ FailReason (notification w') = prefix +:+ FailReason (notification w)
    /\ IsSent (notification w') = false
    /\ MessageID (notification w') = MessageID (notification w)
    /\ NumOfRepetitions (notification w') = NumOfRepetitions (notification w)
    /\ calls w' = calls w.
Proof.
  intros w'. subst w'.
  set (w2 := assign _ (assign (setIsSent false) w)).
  destruct (publish_up env w2 codec_ok broker_ok) as (v & Hv & Hout).
  destruct (publish_same env w2) as (Hn & _ & Hc).
  exists v. rewrite Hn, Hc, Hout. repeat split. exact Hv.
Qed.

Lemma emailLoop_failing (remaining : nat) (w : Worker payload) :
  (forall k : nat, smtp_SendMail env k <> None) ->
  0 <= NumOfRepetitions (notification w) <= 4 ->
  5 - NumOfRepetitions (notification w) <= Z.of_nat remaining ->
  exists (e : string) (v : payload),
    Z.of_nat (length (calls (emailLoop remaining env w)))
    = Z.of_nat (length (calls w))
      + Z.max 1 (Z.min (MaxRetryAttempts (notification w)) 5
                 - NumOfRepetitions (notification w))
    /\ smtp_SendMail env (pred (length (calls (emailLoop remaining env w))))
       = Some e
    /\ contains (FailReason (notification (emailLoop remaining env w))) e
    /\ contains (FailReason (notification (emailLoop remaining env w)))
         "Too many failed attempts"
    /\ IsSent (notification (emailLoop remaining env w)) = false
    /\ MessageID (notification (emailLoop remaining env w))
       = MessageID (notification w)
    /\ json_Unmarshal v = inl (notification (emailLoop remaining env w))
    /\ outbox (emailLoop remaining env w)
       = outbox w
         ++ [mkProducerMessage kafkaTopicProcessed (MessageID (notification w)) v].
Proof.
  intros Hfail. revert w.
  induction remaining as [|r IH]; intros w Hc Hr; [lia|].
  destruct (smtp_SendMail env (length (calls w))) as [e0|] eqn:He0;
    [|now destruct (Hfail (length (calls w)))].
  destruct (sendEmail_fail env w e0 He0) as (Hn1 & _ & Hc1 & Ho1).
  assert (IsSent (notification (sendEmail env w)) = false) as HS
    by now rewrite Hn1.
  assert (NumOfRepetitions (notification (sendEmail env w))
          = NumOfRepetitions (notification w) + 1) as HN
    by (rewrite Hn1; cbn; now apply intAdd_counter).
  assert (MaxRetryAttempts (notification (sendEmail env w))
          = MaxRetryAttempts (notification w)) as HM by now rewrite Hn1.
  assert (MessageID (notification (sendEmail env w))
          = MessageID (notification w)) as HI by now rewrite Hn1.
  assert (FailReason (notification (sendEmail env w))
          = "failed to send email with following error " +:+ e0) as HF
    by now rewrite Hn1.
  cbn [emailLoop]. rewrite HS. cbn [negb andb]. rewrite HM, HN.
  destruct (Z.leb_spec (MaxRetryAttempts (notification w))
              (NumOfRepetitions (notification w) + 1)) as [Hle|Hgt];
    [|destruct (Z.eqb_spec (NumOfRepetitions (notification w) + 1)
                 maxEmailRetries) as [Heq|Hne]].
  - destruct (give_up_state
                "Too many failed attempts. Last attempt failed with: "
                (sendEmail env w)) as (v & Hv & Hout & Hreason & Hs & Hid & _ & Hcalls).
    exists e0, v. rewrite Hcalls, Hc1, Hreason, HF, Hs, Hid, Hout, HI, Ho1.
    cbn [pred]. split; [lia|]. split; [exact He0|].
    split; [apply contains_after, contains_suffix|].
    split; [|now repeat split].
    apply (contains_here "" "Too many failed attempts"
             (". Last attempt failed with: "
              +:+ "failed to send email with following error " +:+ e0)).
  - destruct (give_up_state
                "Too many failed attempts. Max number of retries reached. Last attempt failed with: "
                (sendEmail env w)) as (v & Hv & Hout & Hreason & Hs & Hid & _ & Hcalls).
    exists e0, v. rewrite Hcalls, Hc1, Hreason, HF, Hs, Hid, Hout, HI, Ho1.
    cbn [pred]. unfold maxEmailRetries in Heq. split; [lia|].
    split; [exact He0|].
    split; [apply contains_after, contains_suffix|].
    split; [|now repeat split].
    apply (contains_here "" "Too many failed attempts"
             (". Max number of retries reached. Last attempt failed with: "
              +:+ "failed to send email with following error " +:+ e0)).
  - unfold maxEmailRetries in Hne.
    destruct (IH (sendEmail env w)) as (e & v & Hlen & He & Hce & Hct & Hs & Hid & Hv & Hout);
      [rewrite HN; lia | rewrite HN; lia |].
    exists e, v. rewrite Hlen, Hid, Hout, Hc1, HM, HN, HI, Ho1.
    split; [lia|]. now repeat split.
Qed.

End Failing.

(** *** From the worker back to the caller *)

Lemma contains_nonempty (s sub : string) : contains s sub -> sub <> "" -> s <> "".
Proof.
  intros (pre & post & ->) Hsub.
  destruct pre as [|x pre]; [|discriminate].
  change ("" +:+ sub +:+ post) with (sub +:+ post). now apply append_nonempty.
Qed.

Section Relay.
Context {payload : Type} `{!JSON payload}.

(** Polls that find the entry pending, and listener events that leave it
    pending, are passed over by the [select]. *)
Lemma await_skip_quiet (id : UUID) (pre more : list (Event payload))
    (p : Process payload) :
  pending (Get id (notificationStore p)) ->
  Forall (quietFor id) pre -> existsb isHardTimeout pre = false ->
  exists p' : Process payload,
    await id (pre ++ more) p = await id more p'
    /\ pending (Get id (notificationStore p')).
Proof.
  intros Hp Hq. revert p Hp.
  induction Hq as [|e pre He Hq IH]; intros p Hp Hno; [now exists p|].
  destruct e as [msg| |]; cbn [existsb isHardTimeout orb] in Hno;
    [| |discriminate]; cbn [app await].
  - apply IH; [|exact Hno]. now apply listen_keeps_pending.
  - rewrite GetResultsTick_pending by exact Hp. now apply IH.
Qed.

(** Listener events for other requests do not touch the entry. *)
Lemma await_skip_other (id : UUID) (mid more : list (Event payload))
    (p : Process payload) :
  Forall (otherFor id) mid ->
  exists p' : Process payload,
    await id (mid ++ more) p = await id more p'
    /\ Get id (notificationStore p') = Get id (notificationStore p).
Proof.
  intros Ho. revert p.
  induction Ho as [|e mid He Ho IH]; intros p; [now exists p|].
  destruct e as [msg| |]; cbn [otherFor] in He; [|contradiction..].
  cbn [app await].
  destruct (IH (listen msg p)) as (p' & Heq & HG).
  exists p'. split; [exact Heq|]. rewrite HG, listen_store.
  destruct (decoded msg) as [n|]; [|reflexivity].
  unfold Update, Get. now rewrite lookup_insert_ne.
Qed.

(** From the start of the wait to the first poll after the outcome. *)
Lemma await_delivered (id : UUID) (msg : payload) (n : Notification)
    (events : list (Event payload)) (p : Process payload) :
  pending (Get id (notificationStore p)) ->
  delivers id msg events ->
  json_Unmarshal msg = inl n -> MessageID n = id ->
  exists (p' : Process payload) (rest : list (Event payload)),
    await id events p = await id (EvTick :: rest) p'
    /\ Get id (notificationStore p') = n.
Proof.
  intros Hp (pre & mid & rest & Hq & Hno & Ho & ->) Hdec Hid.
  destruct (await_skip_quiet id pre (EvProcessed msg :: mid ++ EvTick :: rest)
              p Hp Hq Hno) as (p1 & -> & _).
  cbn [await].
  destruct (await_skip_other id mid (EvTick :: rest) (listen msg p1) Ho)
    as (p2 & -> & HG).
  exists p2, rest. split; [reflexivity|]. rewrite HG, listen_store.
  unfold decoded. rewrite Hdec. apply Get_lookup. unfold Update.
  rewrite Hid. apply lookup_insert_eq.
Qed.

(** What the handler registers is pending. *)
Lemma registered_pending (rq : Request payload) (p : Process payload)
    (id : UUID) (data : MessageNotification) :
  registered rq p id data -> pending (Get id data).
Proof.
  intros (_ & _ & M & _ & HAdd).
  destruct (Add_ok_Get _ _ _ _ _ _ HAdd) as [t Ht].
  rewrite (Get_lookup _ _ _ Ht). now split.
Qed.

Lemma failed_outcome_relayed (id : UUID) (msg : payload) (n : Notification) :
  json_Unmarshal msg = inl n -> MessageID n = id ->
  IsSent n = false -> FailReason n <> "" ->
  relayed id msg (FailReason n).
Proof.
  intros Hdec Hid Hsent Hreason rq p data Hadm Hdel.
  rewrite (handler_admitted_answer _ _ _ _ Hadm).
  match goal with
  | |- context [await id _ ?q] =>
      destruct (await_delivered id msg n (schedule rq) q) as (p' & rest & -> & HG)
  end; [| exact Hdel | exact Hdec | exact Hid |].
  { cbn [notificationStore]. apply (registered_pending rq p), Hadm. }
  cbn [await]. rewrite GetResultsTick_failed by (rewrite HG; assumption).
  cbn [fst]. now rewrite HG.
Qed.

Lemma sent_outcome_relays (id : UUID) (msg : payload) (n : Notification) :
  json_Unmarshal msg = inl n -> MessageID n = id -> IsSent n = true ->
  relayedSuccess id msg.
Proof.
  intros Hdec Hid Hsent rq p data Hadm Hdel.
  rewrite (handler_admitted_answer _ _ _ _ Hadm).
  match goal with
  | |- context [await id _ ?q] =>
      destruct (await_delivered id msg n (schedule rq) q) as (p' & rest & -> & HG)
  end; [| exact Hdel | exact Hdec | exact Hid |].
  { cbn [notificationStore]. apply (registered_pending rq p), Hadm. }
  cbn [await]. unfold GetResultsTick. rewrite HG, Hsent. reflexivity.
Qed.

End Relay.

(** What the handler registers, and publishes, for an email request "hi"
    with two attempts allowed. *)
Lemma registered_email_hi_2 {payload : Type} (rq : Request payload)
    (p : Process payload) (id : UUID) (data : MessageNotification) :
  endpoints.PostForm rq "mode" = "email" ->
  endpoints.PostForm rq "message" = "hi" ->
  endpoints.PostForm rq "max_retry_attempts" = "2" ->
  registered rq p id data ->
  exists (recipient : string) (t : Time),
    Get id data = mkNotification "email" "hi" 2 recipient t id 0 false "".
Proof.
  intros Hmode Hmsg Hmax (_ & _ & M & HAtoi & HAdd).
  rewrite Hmode, Hmsg, Hmax in *. cbn in HAtoi. injection HAtoi as <-.
  destruct (Add_ok_Get _ _ _ _ _ _ HAdd) as [t Ht].
  eexists _, t. now rewrite (Get_lookup _ _ _ Ht).
Qed.

(** *** All three channels *)

Section Channels.
Context {payload : Type} `{!JSON payload}.
Variable env : World.
Hypothesis codec_ok : roundtrips payload.
Hypothesis broker_ok : broker_reply env = brokerUp.

Lemma emailService_failing (n : Notification) :
  NumOfRepetitions n = 0 ->
  (forall k : nat, smtp_SendMail env k <> None) ->
  exists (e : string) (v : payload),
    Z.of_nat (length (calls (emailService (payload := payload) env n)))
    = Z.max 1 (Z.min (MaxRetryAttempts n) maxEmailRetries)
    /\ smtp_SendMail env (pred (length (calls (emailService (payload := payload) env n))))
       = Some e
    /\ contains (FailReason (notification (emailService (payload := payload) env n))) e
    /\ outbox (emailService env n)
       = [mkProducerMessage kafkaTopicProcessed (MessageID n) v]
    /\ json_Unmarshal v = inl (notification (emailService env n))
    /\ relayed (MessageID n) v (FailReason (notification (emailService env n))).
Proof.
  intros H0 Hfail. unfold emailService.
  destruct (emailLoop_failing env codec_ok broker_ok
              (S (Z.to_nat maxEmailRetries)) (start n) Hfail)
    as (e & v & Hlen & He & Hce & Htoo & Hs & Hid & Hv & Hout);
    [ cbn [start notification]; lia
    | unfold maxEmailRetries; cbn [start notification]; lia |].
  cbn [start notification calls outbox length app] in Hlen, Hid, Hout.
  exists e, v. split; [rewrite Hlen, H0; unfold maxEmailRetries; lia|].
  split; [exact He|]. split; [exact Hce|]. split; [exact Hout|].
  split; [exact Hv|].
  apply (failed_outcome_relayed _ _ _ Hv Hid Hs).
  apply (contains_nonempty _ _ Htoo). discriminate.
Qed.

Lemma smsService_failing (n : Notification) (status e : string)
    (more : list string) :
  nexmo_SendSMS env 0 = (Some (status :: more), Some e) ->
  exists (v : payload) (w : Worker payload),
    smsService env n = Returned w
    /\ length (calls w) = 1%nat
    /\ contains (FailReason (notification w)) e
    /\ IsSent (notification w) = false
    /\ outbox w = [mkProducerMessage kafkaTopicProcessed (MessageID n) v]
    /\ json_Unmarshal v = inl (notification w)
    /\ relayed (MessageID n) v (FailReason (notification w)).
Proof.
  intros Hreply. unfold smsService, sendSms.
  cbn [start calls length]. rewrite Hreply.
  cbn [assign call notification history calls outbox IsSent setFailReason
       setNumOfRepetitions setIsSent].
  match goal with
  | |- context [publish env ?w0] =>
      destruct (publish_up env w0 codec_ok broker_ok) as (v & Hv & Hout);
      destruct (publish_same env w0) as (Hn & _ & Hc);
      exists v, (snd (publish env w0))
  end.
  rewrite Hn, Hc, Hout. cbn [notification calls outbox] in *.
  split; [reflexivity|]. split; [reflexivity|].
  split; [apply contains_here|]. split; [reflexivity|].
  split; [reflexivity|]. split; [exact Hv|].
  apply (failed_outcome_relayed (MessageID n) v _ Hv); [reflexivity..|].
  cbn [FailReason]. discriminate.
Qed.

Lemma slackService_failing (n : Notification) :
  (forall k : nat, slack_PostMessage env k <> None) ->
  exists v : payload,
    length (calls (slackService (payload := payload) env n)) = 1%nat
    /\ IsSent (notification (slackService (payload := payload) env n)) = false
    /\ outbox (slackService env n)
       = [mkProducerMessage kafkaTopicProcessed (MessageID n) v]
    /\ json_Unmarshal v = inl (notification (slackService env n))
    /\ relayed (MessageID n) v (FailReason (notification (slackService env n))).
Proof.
  intros Hfail. unfold slackService.
  destruct (slack_PostMessage env (length (calls (start (payload := payload) n))))
    as [e|] eqn:He; [|now destruct (Hfail _ He)].
  destruct (sendSlack_fail env (start n) e He) as (Hn1 & _ & Hc1 & Ho1).
  rewrite Hn1.
  cbn [afterFailure setFailReason setNumOfRepetitions setIsSent IsSent].
  match goal with
  | |- context [publish env ?w0] =>
      destruct (publish_up env w0 codec_ok broker_ok) as (v & Hv & Hout);
      destruct (publish_same env w0) as (Hn & _ & Hc);
      exists v
  end.
  rewrite Hn, Hc, Hout.
  cbn [assign notification calls outbox] in *. rewrite Hn1, Hc1, Ho1 in *.
  cbn [afterFailure setFailReason setNumOfRepetitions setIsSent IsSent
       MessageID FailReason start notification outbox calls length app] in *.
  split; [reflexivity|]. split; [reflexivity|]. split; [reflexivity|].
  split; [exact Hv|].
  apply (failed_outcome_relayed (MessageID n) v _ Hv); [reflexivity..|].
  discriminate.
Qed.

End Channels.

(** C4, as stated, fails: with attempts that always fail and five attempts
    allowed, the slack worker and the sms worker stop after one attempt, not
    after min(5, 5) = 5; and with zero attempts allowed the email worker
    still makes one attempt, not min(0, 5) = 0. *)
Lemma one_attempt_whatever_maxAttempts :
  Z.of_nat (length (calls (slackService (payload := wire) failingWorld
                             (sampleRequest "slack" 5))))
    <> Z.min (MaxRetryAttempts (sampleRequest "slack" 5)) maxEmailRetries
  /\ Z.of_nat (length (calls (finalState
                 (smsService (payload := wire) failingWorld
                    (sampleRequest "sms" 5)))))
       <> Z.min (MaxRetryAttempts (sampleRequest "sms" 5)) maxEmailRetries
  /\ Z.of_nat (length (calls (emailService (payload := wire) failingWorld
                                (sampleRequest "email" 0))))
       <> Z.min (MaxRetryAttempts (sampleRequest "email" 0)) maxEmailRetries.
Proof. repeat split; vm_compute; discriminate. Qed.

(** The slack worker replaces the reason recorded by the attempt with a
    fixed text. *)
Example slack_reason_overwritten :
  FailReason (notification (slackService (payload := wire) failingWorld
                              (sampleRequest "slack" 5)))
  = "Failed to send Slack with".
Proof. reflexivity. Qed.

(** C4, amended.  Every delivery attempt fails, the broker accepts the
    outcome, and the request enters the worker with its counter at zero.
    The email worker publishes one outcome after exactly
    max(1, min(maxAttempts, 5)) attempts, with a reason that contains the
    error of the last attempt.  The slack worker publishes one outcome after
    exactly one attempt, whatever maxAttempts is.  The sms worker makes
    exactly one attempt, whatever maxAttempts is, and, when the failed
    response of the gateway carries a message status, publishes one outcome
    whose reason contains the error of that attempt.  Whenever a published
    outcome is delivered while the handler waits, its reason is the one the
    caller receives in the failure response. *)
Theorem failing_channel_outcome {payload : Type} `{!JSON payload}
    (env : World) (n : Notification) :
  roundtrips payload ->
  broker_reply env = brokerUp ->
  NumOfRepetitions n = 0 ->
  (forall k : nat, smtp_SendMail env k <> None) ->
  (forall k : nat, snd (nexmo_SendSMS env k) <> None) ->
  (forall k : nat, slack_PostMessage env k <> None) ->
  (exists (e : string) (v : payload),
     Z.of_nat (length (calls (emailService (payload := payload) env n)))
     = Z.max 1 (Z.min (MaxRetryAttempts n) maxEmailRetries)
     /\ smtp_SendMail env (pred (length (calls (emailService (payload := payload) env n))))
        = Some e
     /\ contains (FailReason (notification (emailService (payload := payload) env n))) e
     /\ outbox (emailService env n)
        = [mkProducerMessage kafkaTopicProcessed (MessageID n) v]
     /\ json_Unmarshal v = inl (notification (emailService env n))
     /\ relayed (MessageID n) v (FailReason (notification (emailService env n))))
  /\ length (calls (finalState (smsService (payload := payload) env n))) = 1%nat
  /\ (forall (status : string) (more : list string),
        fst (nexmo_SendSMS env 0) = Some (status :: more) ->
        exists (e : string) (v : payload) (w : Worker payload),
          smsService env n = Returned w
          /\ length (calls w) = 1%nat
          /\ snd (nexmo_SendSMS env 0) = Some e
          /\ contains (FailReason (notification w)) e
          /\ outbox w = [mkProducerMessage kafkaTopicProcessed (MessageID n) v]
          /\ json_Unmarshal v = inl (notification w)
          /\ relayed (MessageID n) v (FailReason (notification w)))
  /\ (exists v : payload,
        length (calls (slackService (payload := payload) env n)) = 1%nat
        /\ outbox (slackService env n)
           = [mkProducerMessage kafkaTopicProcessed (MessageID n) v]
        /\ json_Unmarshal v = inl (notification (slackService env n))
        /\ relayed (MessageID n) v
             (FailReason (notification (slackService env n)))).
Proof.
  intros Hrt Hup H0 Hmail Hsms Hslack. split; [|split; [|split]].
  - now apply emailService_failing.
  - unfold smsService, sendSms. cbn [start calls length].
    destruct (nexmo_SendSMS env 0) as [resp [e|]];
      [destruct resp as [[|status more]|]|];
      cbn [finalState assign call calls notification IsSent setFailReason
           setNumOfRepetitions setIsSent app length];
      try reflexivity;
      match goal with
      | |- context [publish env ?w0] =>
          destruct (publish_same env w0) as (_ & _ & ->)
      end; reflexivity.
  - intros status more Hresp.
    destruct (nexmo_SendSMS env 0) as [resp [e|]] eqn:Hreply;
      [|now destruct (Hsms 0%nat); rewrite Hreply].
    simpl in Hresp. subst resp.
    destruct (smsService_failing env Hrt Hup n status e more Hreply)
      as (v & w & Hret & Hlen & Hce & _ & Hout & Hv & Hrel).
    exists e, v, w. now repeat split.
  - destruct (slackService_failing env Hrt Hup n Hslack)
      as (v & Hlen & _ & Hout & Hv & Hrel).
    exists v. now repeat split.
Qed.

Lemma failing_channel_outcome_witness :
  (exists (e : string) (v : wire),
     Z.of_nat (length (calls (emailService (payload := wire) failingWorld
                                (sampleRequest "email" 9)))) = 5
     /\ smtp_SendMail failingWorld 4 = Some e
     /\ contains (FailReason (notification
                    (emailService (payload := wire) failingWorld
                       (sampleRequest "email" 9)))) e
     /\ relayed 7%N v
          (FailReason (notification
             (emailService (payload := wire) failingWorld
                (sampleRequest "email" 9)))))
  /\ length (calls (finalState (smsService (payload := wire) failingSilentWorld
                                  (sampleRequest "sms" 9)))) = 1%nat
  /\ (exists (e : string) (v : wire) (w : Worker wire),
        smsService failingWorld (sampleRequest "sms" 9) = Returned w
        /\ length (calls w) = 1%nat
        /\ contains (FailReason (notification w)) e
        /\ relayed 7%N v (FailReason (notification w)))
  /\ (exists v : wire,
        length (calls (slackService (payload := wire) failingWorld
                         (sampleRequest "slack" 9))) = 1%nat
        /\ relayed 7%N v
             (FailReason (notification
                (slackService (payload := wire) failingWorld
                   (sampleRequest "slack" 9))))).
Proof.
  assert (roundtrips wire) as Hrt
    by (intros n; exists (Encoded n); now split).
  split; [|split; [|split]].
  - destruct (failing_channel_outcome (payload := wire) failingWorld
                (sampleRequest "email" 9) Hrt)
      as [(e & v & Hlen & He & Hce & _ & _ & Hrel) _];
      [reflexivity | reflexivity | discriminate | discriminate | discriminate |].
    exists e, v. split; [exact Hlen|]. split; [exact He|]. now split.
  - destruct (failing_channel_outcome (payload := wire) failingSilentWorld
                (sampleRequest "sms" 9) Hrt)
      as (_ & Hone & _);
      [reflexivity | reflexivity | discriminate | discriminate | discriminate |].
    exact Hone.
  - destruct (failing_channel_outcome (payload := wire) failingWorld
                (sampleRequest "sms" 9) Hrt)
      as (_ & _ & Hsms & _);
      [reflexivity | reflexivity | discriminate | discriminate | discriminate |].
    destruct (Hsms "1" []) as (e & v & w & Hret & Hlen & _ & Hce & _ & _ & Hrel);
      [reflexivity|].
    exists e, v, w. now repeat split.
  - destruct (failing_channel_outcome (payload := wire) failingWorld
                (sampleRequest "slack" 9) Hrt)
      as (_ & _ & _ & v & Hlen & _ & _ & Hrel);
      [reflexivity | reflexivity | discriminate | discriminate | discriminate |].
    exists v. now split.
Defined.

(** A failed attempt whose response is nil or has no messages makes
    [sendSms] panic, whatever the notification. *)
Lemma sendSms_panics {payload : Type} (env : World) (w : Worker payload)
    (resp : option (list string)) (e : string) :
  nexmo_SendSMS env (length (calls w)) = (resp, Some e) ->
  resp = None \/ resp = Some [] ->
  exists (why : string) (w' : Worker payload),
    sendSms env w = Panicked why w' /\ FailReason (notification w') = FailReason (notification w).
Proof.
  intros Hreply Hresp. unfold sendSms. rewrite Hreply.
  destruct Hresp as [-> | ->]; now eexists _, _.
Qed.

(** C10, on the code: the gateway cannot be reached, so [SendSMS] returns
    an error together with a response that has no messages.  [sendSms]
    panics on [Messages[0]] after it has cleared [IsSent] and incremented
    the counter; no reason is recorded, and [smsService] publishes
    nothing. *)
Theorem sendSms_faults_without_messages :
  (exists w : Worker wire,
     sendSms unreachableSmsWorld (start (sampleRequest "sms" 5))
     = Panicked "index out of range [0] with length 0" w
     /\ IsSent (notification w) = false
     /\ NumOfRepetitions (notification w) = 1
     /\ FailReason (notification w) = "")
  /\ (exists w : Worker wire,
        smsService unreachableSmsWorld (sampleRequest "sms" 5)
        = Panicked "index out of range [0] with length 0" w
        /\ outbox w = []).
Proof. split; eexists; repeat split. Qed.

(** * Further properties *)

(** ** The store *)

Lemma Add_ok_inv (uuid_New : nat -> UUID) (time_Now : nat -> Time)
    (n : Notification) (data data' : MessageNotification) (id : UUID) :
  Add uuid_New time_Now n data = ((id, None), data') ->
  exists k : nat,
    (k <= maxChecks)%nat /\ id = uuid_New k /\ data !! id = None
    /\ data' = <[id := setMessageID id (setTimeStamp (time_Now k) n)]> data.
Proof.
  intros HAdd.
  destruct (first_fresh uuid_New data (S maxChecks))
    as [(k & Hk & Hfree & Hcol)|Hall].
  - unfold Add in HAdd.
    rewrite (AddLoop_fresh (S maxChecks) 0 k) in HAdd;
      [| lia | exact Hfree | intros j Hj; apply Hcol; lia].
    injection HAdd as <- <-. exists k. split; [lia|]. now repeat split.
  - unfold Add in HAdd. rewrite AddLoop_collide in HAdd; [discriminate|].
    intros k Hk. apply Hall. lia.
Qed.

Lemma Add_err_inv (uuid_New : nat -> UUID) (time_Now : nat -> Time)
    (n : Notification) (data data' : MessageNotification) (id : UUID)
    (e : string) :
  Add uuid_New time_Now n data = ((id, Some e), data') ->
  data' = data /\ id = 0%N
  /\ forall k : nat, (k <= maxChecks)%nat -> is_Some (data !! uuid_New k).
Proof.
  intros HAdd.
  destruct (first_fresh uuid_New data (S maxChecks))
    as [(k & Hk & Hfree & Hcol)|Hall].
  - unfold Add in HAdd.
    rewrite (AddLoop_fresh (S maxChecks) 0 k) in HAdd;
      [discriminate | lia | exact Hfree | intros j Hj; apply Hcol; lia].
  - unfold Add in HAdd. rewrite AddLoop_collide in HAdd
      by (intros k Hk; apply Hall; lia).
    injection HAdd as <- _ <-. split; [reflexivity|]. split; [reflexivity|].
    intros k Hk. apply Hall. lia.
Qed.

(** X1.  [Delete] is idempotent, does nothing for an id that is absent,
    touches no other id, and a [Get] after it reads the zero value. *)
Theorem Delete_idempotent (id : UUID) (data : MessageNotification) :
  Delete id (Delete id data) = Delete id data
  /\ (data !! id = None -> Delete id data = data)
  /\ (forall id' : UUID, id' <> id -> Get id' (Delete id data) = Get id' data)
  /\ Get id (Delete id data) = zeroNotification.
Proof.
  split; [|split; [|split]].
  - rewrite !Delete_eq. apply delete_delete_eq.
  - intros H. rewrite Delete_eq. now apply delete_id.
  - intros id' Hne. unfold Get. now rewrite Delete_lookup_ne.
  - apply Get_missing, Delete_lookup.
Qed.

Lemma Delete_idempotent_witness :
  Delete 7%N (∅ : MessageNotification) = ∅
  /\ Get 8%N (Delete 7%N {[ 7%N := emailHi2; 8%N := zeroNotification ]})
     = Get 8%N ({[ 7%N := emailHi2; 8%N := zeroNotification ]} : MessageNotification).
Proof.
  split.
  - apply (Delete_idempotent 7%N ∅). apply lookup_empty.
  - apply (Delete_idempotent 7%N {[ 7%N := emailHi2; 8%N := zeroNotification ]}).
    lia.
Defined.

(** X2.  A successful [Add] followed by [Delete] of the returned id gives
    the store back as it was: the id was not a key before, the store grew by
    exactly one entry, and what is stored is the given notification with
    only [MessageID] and [TimeStamp] set. *)
Theorem Add_then_Delete (uuid_New : nat -> UUID) (time_Now : nat -> Time)
    (n : Notification) (data data' : MessageNotification) (id : UUID) :
  Add uuid_New time_Now n data = ((id, None), data') ->
  Delete id data' = data
  /\ data !! id = None
  /\ size data' = S (size data)
  /\ exists t : Time, Get id data' = setMessageID id (setTimeStamp t n).
Proof.
  intros HAdd. destruct (Add_ok_inv _ _ _ _ _ _ HAdd) as (k & _ & _ & Hfree & ->).
  split; [|split; [exact Hfree|split]].
  - rewrite Delete_eq. now apply delete_insert_id.
  - now apply map_size_insert_None.
  - exists (time_Now k). apply Get_lookup, lookup_insert_eq.
Qed.

Lemma Add_then_Delete_witness :
  Delete 8%N
    (snd (Add (fun k => (7 + N.of_nat k)%N) (fun _ => 1000)
            (sampleRequest "sms" 3) {[ 7%N := zeroNotification ]}))
  = {[ 7%N := zeroNotification ]}.
Proof.
  apply (Add_then_Delete (fun k => (7 + N.of_nat k)%N) (fun _ => 1000)
           (sampleRequest "sms" 3) {[ 7%N := zeroNotification ]}).
  reflexivity.
Defined.

(** X3.  [Update] followed by [Get] reads the snapshot written; of two
    updates of one id the later wins; other ids are not affected; and an
    [Update] of an id that is absent creates the entry. *)
Theorem Update_last_write_wins (id : UUID) (n1 n2 : Notification)
    (data : MessageNotification) :
  Get id (Update id n1 data) = n1
  /\ Update id n2 (Update id n1 data) = Update id n2 data
  /\ (forall id' : UUID, id' <> id -> Get id' (Update id n1 data) = Get id' data)
  /\ Delete id (Update id n1 data) = Delete id data
  /\ size (Update id n1 (Delete id data)) = S (size (Delete id data)).
Proof.
  unfold Update. split; [|split; [|split; [|split]]].
  - apply Get_lookup, lookup_insert_eq.
  - apply insert_insert_eq.
  - intros id' Hne. unfold Get. now rewrite lookup_insert_ne.
  - rewrite !Delete_eq. apply delete_insert_eq.
  - apply map_size_insert_None, Delete_lookup.
Qed.

(** *** Entries are kept under their own id *)

Lemma keyed_Add (uuid_New : nat -> UUID) (time_Now : nat -> Time)
    (n : Notification) (data : MessageNotification) :
  keyed data -> keyed (snd (Add uuid_New time_Now n data)).
Proof.
  intros Hk. destruct (Add uuid_New time_Now n data) as [[id [e|]] data'] eqn:HAdd.
  - destruct (Add_err_inv _ _ _ _ _ _ _ HAdd) as (-> & _). exact Hk.
  - destruct (Add_ok_inv _ _ _ _ _ _ HAdd) as (k & _ & _ & _ & ->).
    intros id' n' H. simpl in H.
    destruct (decide (id = id')) as [<-|Hne].
    + rewrite lookup_insert_eq in H. now injection H as <-.
    + rewrite lookup_insert_ne in H by exact Hne. now apply Hk.
Qed.

Lemma keyed_Received (n : Notification) (data : MessageNotification) :
  keyed data -> keyed (ReceiveProcessedNotification n data).
Proof.
  intros Hk id' n' H. unfold ReceiveProcessedNotification, Update in H.
  destruct (decide (MessageID n = id')) as [<-|Hne].
  - rewrite lookup_insert_eq in H. now injection H as <-.
  - rewrite lookup_insert_ne in H by exact Hne. now apply Hk.
Qed.

Lemma keyed_Delete (id : UUID) (data : MessageNotification) :
  keyed data -> keyed (Delete id data).
Proof.
  intros Hk id' n' H. rewrite Delete_eq in H.
  apply lookup_delete_Some in H as [_ H]. now apply Hk.
Qed.

Section Keyed.
Context {payload : Type} `{!JSON payload}.

Lemma keyed_ConsumeClaim (claim : list payload) (sess : Session payload)
    (data : MessageNotification) :
  keyed data ->
  keyed (snd (ConsumeClaim ReceiveProcessedNotification claim sess data)).
Proof.
  revert sess data. induction claim as [|msg rest IH]; intros sess data Hk;
    [exact Hk|].
  simpl. destruct (json_Unmarshal msg) as [n|err]; apply IH; [|exact Hk].
  now apply keyed_Received.
Qed.

Lemma keyed_listen (msg : payload) (p : Process payload) :
  keyed (notificationStore p) -> keyed (notificationStore (listen msg p)).
Proof.
  intros Hk. rewrite listen_store.
  destruct (decoded msg) as [n|]; [|exact Hk].
  now apply (keyed_Received n).
Qed.

Lemma keyed_await (id : UUID) (events : list (Event payload))
    (p : Process payload) :
  keyed (notificationStore p) ->
  keyed (notificationStore (snd (await id events p))).
Proof.
  revert p. induction events as [|e events IH]; intros p Hk; [exact Hk|].
  destruct e as [msg| |]; simpl.
  - apply IH. now apply keyed_listen.
  - destruct (GetResultsTick id (notificationStore p)) as [|[|] more];
      [now apply IH | exact Hk | exact Hk].
  - exact Hk.
Qed.

End Keyed.

(** X4.  If every entry of the store is kept under its own [MessageID],
    this is still so after the handler has served any request, however it
    ends, and after the listener has consumed any claim. *)
Theorem store_stays_keyed {payload : Type} `{!JSON payload}
    (p : Process payload) :
  keyed (notificationStore p) ->
  (forall rq : Request payload,
     keyed (notificationStore (snd (notificationHandler rq p))))
  /\ (forall (claim : list payload) (sess : Session payload),
        keyed (snd (ConsumeClaim ReceiveProcessedNotification claim sess
                      (notificationStore p)))).
Proof.
  intros Hk. split; [|intros claim sess; now apply keyed_ConsumeClaim].
  intros rq. unfold notificationHandler.
  destruct (_ || _); [exact Hk|].
  destruct (String.eqb _ ""); [exact Hk|].
  destruct (Atoi _) as [M|]; [|exact Hk].
  match goal with
  | |- context [Add ?u ?t ?n ?d] =>
      pose proof (keyed_Add u t n d Hk) as HkA;
      destruct (Add u t n d) as [[id [e|]] data]
  end; [exact HkA|].
  destruct (SendKafkaMessage _ _ _ _) as [[e|] topics]; [exact HkA|].
  match goal with
  | |- context [await ?i ?ev ?q] =>
      pose proof (keyed_await i ev q HkA) as HkW;
      destruct (await i ev q) as [[r|] p']
  end; [|exact HkW].
  now apply keyed_Delete.
Qed.

Lemma store_stays_keyed_witness :
  keyed (notificationStore
           (snd (notificationHandler
                   (requestWith (formOf "email" "hi" "2" "") brokerDown [])
                   emptyProcess)))
  /\ keyed (snd (ConsumeClaim ReceiveProcessedNotification
                   [Garbled "{"; Encoded emailHi2Outcome] (mkSession [] []) ∅)).
Proof.
  assert (keyed (notificationStore emptyProcess)) as Hk
    by (intros id n H; simpl in H; rewrite lookup_empty in H; discriminate).
  destruct (store_stays_keyed emptyProcess Hk) as [Hh Hl].
  split; [apply Hh | apply Hl].
Defined.

Lemma Update_last_write_wins_witness :
  Get 8%N (Update 7%N emailHi2Outcome {[ 8%N := emailHi2 ]})
  = Get 8%N ({[ 8%N := emailHi2 ]} : MessageNotification).
Proof.
  apply (Update_last_write_wins 7%N emailHi2Outcome emailHi2 {[ 8%N := emailHi2 ]}).
  lia.
Defined.

(** ** The handler, all paths *)

Section HandlerPaths.
Context {payload : Type} `{!JSON payload}.

(** With a valid form the handler goes on to [Add]. *)
Lemma handler_valid (rq : Request payload) (p : Process payload) (M : Z) :
  validForm rq -> Atoi (retriesField rq) = Some M ->
  notificationHandler rq p
  = match Add (uuid_New rq) (time_Now rq)
            (mkNotification (PostForm rq "mode") (PostForm rq "message") M
               (recipientField rq) 0 0%N 0 false "")
            (notificationStore p) with
    | ((_, Some _), data) =>
        (Some serverErrorResponse, mkProcess data (broker p) (session p))
    | ((messageID, None), data) =>
        match SendKafkaMessage (endpoints.broker_reply rq) (PostForm rq "mode")
                (Get messageID data) (broker p) with
        | (Some _, topics) =>
            (Some serverErrorResponse, mkProcess data topics (session p))
        | (None, topics) =>
            match await messageID (schedule rq)
                    (mkProcess data topics (session p)) with
            | (Some response, p') =>
                (Some response,
                 mkProcess (Delete messageID (notificationStore p'))
                   (broker p') (session p'))
            | (None, p') => (None, p')
            end
        end
    end.
Proof.
  intros (Hmode & Hmsg & _) HAtoi. unfold notificationHandler.
  assert (String.eqb (PostForm rq "mode") ""
          || (negb (String.eqb (PostForm rq "mode") "email")
              && negb (String.eqb (PostForm rq "mode") "sms")
              && negb (String.eqb (PostForm rq "mode") "slack")) = false) as ->.
  { destruct Hmode as [->|[->| ->]]; reflexivity. }
  apply String.eqb_neq in Hmsg. rewrite Hmsg.
  unfold retriesField in HAtoi. now rewrite HAtoi.
Qed.

Lemma handler_invalid (rq : Request payload) (p : Process payload) :
  ~ validForm rq ->
  exists text : string,
    notificationHandler rq p = (Some (mkResponse StatusBadRequest text), p).
Proof.
  intros Hinv. unfold notificationHandler.
  destruct (String.eqb_spec (PostForm rq "mode") "") as [Hm0|Hm0];
    [now eexists|].
  assert (forall a b c : bool,
            (PostForm rq "mode" = "email" \/ PostForm rq "mode" = "sms"
             \/ PostForm rq "mode" = "slack" -> False) ->
            String.eqb (PostForm rq "mode") "email" = a ->
            String.eqb (PostForm rq "mode") "sms" = b ->
            String.eqb (PostForm rq "mode") "slack" = c ->
            negb a && negb b && negb c = true) as Hbad.
  { intros a b c Hno Ha Hb Hc.
    destruct a; [exfalso; apply Hno; left; now apply String.eqb_eq|].
    destruct b; [exfalso; apply Hno; right; left; now apply String.eqb_eq|].
    destruct c; [exfalso; apply Hno; right; right; now apply String.eqb_eq|].
    reflexivity. }
  destruct (negb (String.eqb (PostForm rq "mode") "email")
            && negb (String.eqb (PostForm rq "mode") "sms")
            && negb (String.eqb (PostForm rq "mode") "slack")) eqn:Hmode;
    cbn [orb]; [now eexists|].
  assert (PostForm rq "mode" = "email" \/ PostForm rq "mode" = "sms"
          \/ PostForm rq "mode" = "slack") as Hok.
  { destruct (String.eqb_spec (PostForm rq "mode") "email"); [now left|].
    destruct (String.eqb_spec (PostForm rq "mode") "sms"); [right; now left|].
    destruct (String.eqb_spec (PostForm rq "mode") "slack");
      [right; now right|]. discriminate. }
  destruct (String.eqb_spec (PostForm rq "message") "") as [Hg|Hg];
    [now eexists|].
  fold (retriesField rq).
  destruct (Atoi (retriesField rq)) as [M|] eqn:HAtoi; [|now eexists].
  exfalso. apply Hinv. split; [exact Hok|]. split; [exact Hg|]. congruence.
Qed.

Lemma await_answers (id : UUID) (events : list (Event payload))
    (p : Process payload) (r : Response) :
  fst (await id events p) = Some r ->
  r = successResponse \/ r = timeoutResponse
  \/ exists reason : string, r = failureResponse reason.
Proof.
  revert p. induction events as [|e events IH]; intros p; simpl;
    [discriminate|].
  destruct e as [msg| |].
  - apply IH.
  - destruct (GetResultsTick id (notificationStore p)) as [|[|] more].
    + apply IH.
    + simpl. intros [= <-]. now left.
    + simpl. intros [= <-]. right. right. now eexists.
  - simpl. intros [= <-]. right. now left.
Qed.

Lemma await_broker (id : UUID) (events : list (Event payload))
    (p : Process payload) :
  broker (snd (await id events p)) = broker p.
Proof.
  revert p. induction events as [|e events IH]; intros p; [reflexivity|].
  destruct e as [msg| |]; simpl.
  - rewrite IH. apply listen_broker.
  - destruct (GetResultsTick id (notificationStore p)) as [|[|] more];
      [apply IH | reflexivity | reflexivity].
  - reflexivity.
Qed.

Lemma await_onlyFor (id : UUID) (events : list (Event payload))
    (p : Process payload) :
  Forall (onlyFor id) events ->
  delete id (notificationStore (snd (await id events p)))
  = delete id (notificationStore p).
Proof.
  intros Hev. revert p.
  induction Hev as [|e events He Hev IH]; intros p; [reflexivity|].
  destruct e as [msg| |]; simpl.
  - rewrite IH, listen_store. simpl in He.
    destruct (decoded msg) as [n|]; [|reflexivity].
    unfold Update. rewrite He. apply delete_insert_eq.
  - destruct (GetResultsTick id (notificationStore p)) as [|[|] more];
      [apply IH | reflexivity | reflexivity].
  - reflexivity.
Qed.

Lemma await_success (id : UUID) (msg : payload) (n : Notification)
    (rest : list (Event payload)) (p : Process payload) :
  json_Unmarshal msg = inl n -> MessageID n = id -> IsSent n = true ->
  fst (await id (EvProcessed msg :: EvTick :: rest) p) = Some successResponse.
Proof.
  intros Hdec Hid Hsent. simpl.
  assert (Get id (notificationStore (listen msg p)) = n) as HG.
  { rewrite listen_store. unfold decoded. rewrite Hdec.
    apply Get_lookup. unfold Update. rewrite Hid. apply lookup_insert_eq. }
  unfold GetResultsTick. rewrite HG, Hsent. reflexivity.
Qed.

Lemma process_eta (p : Process payload) :
  mkProcess (notificationStore p) (broker p) (session p) = p.
Proof. now destruct p. Qed.

End HandlerPaths.

(** X5.  When the form is valid but every id that [Add] draws is already a
    key of the store, the handler answers 500 and leaves the store, the
    topics and the session exactly as they were. *)
Theorem store_exhaustion_is_500 {payload : Type} `{!JSON payload}
    (rq : Request payload) (p : Process payload) :
  validForm rq ->
  (forall k : nat, (k <= maxChecks)%nat ->
     is_Some (notificationStore p !! uuid_New rq k)) ->
  notificationHandler rq p = (Some serverErrorResponse, p).
Proof.
  intros Hv Hall. destruct (Atoi (retriesField rq)) as [M|] eqn:HAtoi;
    [|now destruct Hv as (_ & _ & Hne)].
  rewrite (handler_valid rq p M Hv HAtoi). unfold Add.
  rewrite AddLoop_collide by (intros k Hk; apply Hall; lia).
  now rewrite process_eta.
Qed.

Lemma store_exhaustion_is_500_witness :
  notificationHandler
    (mkRequest (formOf "sms" "hi" "" "") noEnv (fun _ => 7%N) (fun _ => 1000)
       brokerUp [])
    (mkProcess {[ 7%N := emailHi2 ]} [] (mkSession [] []))
  = (Some serverErrorResponse,
     mkProcess {[ 7%N := emailHi2 ]} ([] : list (ProducerMessage wire))
       (mkSession [] [])).
Proof.
  apply (store_exhaustion_is_500 (payload := wire)).
  - split; [right; now left|]. split; discriminate.
  - intros k _. simpl. rewrite lookup_singleton_eq. now eexists.
Defined.

(** X6.  The handler answers 400 exactly when the form is not valid, and
    then changes nothing.  Whatever the form, an answer has status 200, 400,
    408 or 500. *)
Theorem handler_statuses {payload : Type} `{!JSON payload}
    (rq : Request payload) (p : Process payload) :
  (~ validForm rq ->
     exists text : string,
       notificationHandler rq p = (Some (mkResponse StatusBadRequest text), p))
  /\ (validForm rq ->
        forall r : Response, fst (notificationHandler rq p) = Some r ->
          status r = StatusOK \/ status r = StatusRequestTimeout
          \/ status r = StatusInternalServerError)
  /\ (forall r : Response, fst (notificationHandler rq p) = Some r ->
        status r = StatusOK \/ status r = StatusBadRequest
        \/ status r = StatusRequestTimeout
        \/ status r = StatusInternalServerError).
Proof.
  assert (validForm rq ->
          forall r : Response, fst (notificationHandler rq p) = Some r ->
            status r = StatusOK \/ status r = StatusRequestTimeout
            \/ status r = StatusInternalServerError) as Hvalid.
  { intros Hv r. destruct (Atoi (retriesField rq)) as [M|] eqn:HAtoi;
      [|now destruct Hv as (_ & _ & Hne)].
    rewrite (handler_valid rq p M Hv HAtoi).
    destruct (Add _ _ _ _) as [[id [e|]] data]; simpl.
    - intros [= <-]. now right; right.
    - destruct (SendKafkaMessage _ _ _ _) as [[e|] topics]; simpl.
      + intros [= <-]. now right; right.
      + destruct (await id _ _) as [[r'|] p'] eqn:Haw; simpl;
          [|discriminate].
        intros [= <-].
        destruct (await_answers id _ _ r' (f_equal fst Haw))
          as [-> | [-> | [reason ->]]]; [now left | right; now left..]. }
  split; [apply handler_invalid|]. split; [exact Hvalid|].
  intros r Hr.
  assert (validForm rq \/ ~ validForm rq) as [Hv|Hinv].
  { unfold validForm.
    destruct (String.eqb_spec (PostForm rq "mode") "email"); [|
    destruct (String.eqb_spec (PostForm rq "mode") "sms"); [|
    destruct (String.eqb_spec (PostForm rq "mode") "slack"); [|
      right; intros ([?|[?|?]] & _); congruence]]];
    (destruct (String.eqb_spec (PostForm rq "message") "");
       [right; now intros (_ & ? & _)|]);
    (destruct (Atoi (retriesField rq)) eqn:HA;
       [left; repeat split; auto; discriminate
       |right; now intros (_ & _ & ?)]). }
  - destruct (Hvalid Hv r Hr) as [?|[?|?]]; auto.
  - destruct (handler_invalid rq p Hinv) as [text Heq].
    rewrite Heq in Hr. injection Hr as <-. right. now left.
Qed.

Lemma handler_statuses_witness :
  (exists text : string,
     notificationHandler (requestWith (formOf "email" "hi" "1e3" "") brokerUp [])
       emptyProcess
     = (Some (mkResponse StatusBadRequest text), emptyProcess))
  /\ (status serverErrorResponse = StatusOK
      \/ status serverErrorResponse = StatusRequestTimeout
      \/ status serverErrorResponse = StatusInternalServerError).
Proof.
  destruct (handler_statuses
              (requestWith (formOf "email" "hi" "1e3" "") brokerUp [])
              emptyProcess) as (Hbad & _ & _).
  destruct (handler_statuses
              (requestWith (formOf "email" "hi" "" "") brokerDown [])
              emptyProcess) as (_ & Hok & _).
  split.
  - apply Hbad. intros (_ & _ & Hne). now apply Hne.
  - apply Hok; [|reflexivity].
    split; [now left|]. split; discriminate.
Defined.

(** X7.  For an admitted request the handler hands the broker exactly one
    message: on the topic named by the mode, keyed by the request id, and
    carrying the registered snapshot, whose fields are those of the form
    (5 attempts when the field is absent; for email without recipient, the
    configured default), with the counter at zero, not sent and without
    reason. *)
Theorem admitted_request_published {payload : Type} `{!JSON payload}
    (rq : Request payload) (p : Process payload) (id : UUID)
    (data : MessageNotification) :
  admitted rq p id data ->
  exists (v : payload) (M : Z) (t : Time),
    Atoi (retriesField rq) = Some M
    /\ (PostForm rq "max_retry_attempts" = "" -> M = 5)
    /\ Get id data
       = mkNotification (PostForm rq "mode") (PostForm rq "message") M
           (recipientField rq) t id 0 false ""
    /\ json_Marshal (Get id data) = inl v
    /\ broker (snd (notificationHandler rq p))
       = broker p ++ [mkProducerMessage (PostForm rq "mode") id v].
Proof.
  intros Hadm. pose proof Hadm as [(Hmode & Hmsg & M & HAtoi & HAdd) Hsend].
  destruct (Add_ok_Get _ _ _ _ _ _ HAdd) as [t Ht].
  pose proof (Get_lookup _ _ _ Ht) as HG.
  assert (exists v : payload,
            json_Marshal (Get id data) = inl v
            /\ snd (SendKafkaMessage (endpoints.broker_reply rq)
                      (PostForm rq "mode") (Get id data) (broker p))
               = broker p ++ [mkProducerMessage (PostForm rq "mode") id v])
    as (v & Hv & Hsnd).
  { revert Hsend. unfold SendKafkaMessage.
    destruct (setupProducer (endpoints.broker_reply rq)); [discriminate|].
    destruct (json_Marshal (Get id data)) as [v|err] eqn:Hm; [|discriminate].
    destruct (SendMessage_err (endpoints.broker_reply rq)); [discriminate|].
    intros _. exists v. split; [reflexivity|]. simpl. now rewrite HG. }
  exists v, M, t. split; [exact HAtoi|]. split.
  { intros Habs. unfold retriesField in HAtoi. rewrite Habs in HAtoi.
    change (Some 5 = Some M) in HAtoi. congruence. }
  split; [exact HG|]. split; [exact Hv|].
  rewrite (handler_admitted _ _ _ _ Hadm), Hsnd.
  match goal with
  | |- context [await ?i ?ev ?q] =>
      pose proof (await_broker i ev q) as Hb;
      destruct (await i ev q) as [[r|] p']
  end; exact Hb.
Qed.

Lemma admitted_request_published_witness :
  exists v : wire,
    broker (snd (notificationHandler
                   (requestWith (formOf "slack" "hi" "" "") brokerUp [EvTick])
                   emptyProcess))
    = [mkProducerMessage "slack" 7%N v]
    /\ json_Unmarshal v
       = inl (mkNotification "slack" "hi" 5 "" 1000 7%N 0 false "").
Proof.
  destruct (admitted_request_published (payload := wire)
              (requestWith (formOf "slack" "hi" "" "") brokerUp [EvTick])
              emptyProcess 7%N
              {[ 7%N := mkNotification "slack" "hi" 5 "" 1000 7%N 0 false "" ]})
    as (v & M & t & _ & _ & HG & Hv & Hb).
  - split; [|reflexivity].
    split; [right; now right|]. split; [discriminate|].
    exists 5. split; reflexivity.
  - exists v. split; [exact Hb|].
    erewrite Get_lookup in Hv by apply lookup_singleton_eq.
    cbn in Hv. now injection Hv as <-.
Defined.

(** X8.  An admitted request that is answered leaves the store exactly as
    it found it, provided the outcome events that arrive meanwhile are for
    this request or do not decode: the one entry it created is the one
    entry it deleted. *)
Theorem answered_request_restores_store {payload : Type} `{!JSON payload}
    (rq : Request payload) (p : Process payload) (id : UUID)
    (data : MessageNotification) :
  admitted rq p id data ->
  Forall (onlyFor id) (schedule rq) ->
  is_Some (fst (notificationHandler rq p)) ->
  notificationStore (snd (notificationHandler rq p)) = notificationStore p.
Proof.
  intros Hadm Hev Hans.
  pose proof Hadm as [(_ & _ & M & _ & HAdd) _].
  destruct (Add_ok_inv _ _ _ _ _ _ HAdd) as (k & _ & _ & Hfree & Hdata).
  rewrite (handler_admitted _ _ _ _ Hadm) in *.
  match goal with
  | |- context [await ?i ?ev ?q] =>
      pose proof (await_onlyFor i ev q Hev) as Hd;
      destruct (await i ev q) as [[r|] p']
  end.
  - cbn [snd notificationStore] in *. rewrite Delete_eq, Hd, Hdata.
    now apply delete_insert_id.
  - destruct Hans as [x Hx]. discriminate.
Qed.

Lemma answered_request_restores_store_witness :
  notificationStore
    (snd (notificationHandler
            (requestWith (formOf "email" "hi" "2" "") brokerUp
               [EvTick; EvProcessed (Garbled "{");
                EvProcessed (Encoded emailHi2Outcome); EvTick])
            (mkProcess {[ 9%N := zeroNotification ]} [] (mkSession [] []))))
  = {[ 9%N := zeroNotification ]}.
Proof.
  assert (admitted
            (requestWith (formOf "email" "hi" "2" "") brokerUp
               [EvTick; EvProcessed (Garbled "{");
                EvProcessed (Encoded emailHi2Outcome); EvTick])
            (mkProcess {[ 9%N := zeroNotification ]} [] (mkSession [] []))
            7%N (<[ 7%N := emailHi2 ]> {[ 9%N := zeroNotification ]})) as Hadm.
  { split; [|reflexivity].
    split; [now left|]. split; [discriminate|]. exists 2. split; reflexivity. }
  exact (answered_request_restores_store (payload := wire) _ _ _ _ Hadm
           ltac:(repeat constructor) ltac:(eexists; reflexivity)).
Defined.

(** ** The workers, whatever the delivery clients answer *)

Section WorkerRules.
Context {payload : Type} `{!JSON payload}.
Variable env : World.

(** A property of the worker state that every step of the email loop
    keeps holds when the loop is left. *)
Lemma emailLoop_rule (I : Worker payload -> Prop) :
  (forall w : Worker payload, I w -> I (sendEmail env w)) ->
  (forall (w : Worker payload) (prefix : string), I w ->
     I (assign (fun n => setFailReason (prefix +:+ FailReason n) n)
          (assign (setIsSent false) w))) ->
  (forall w : Worker payload, I w -> I (snd (publish env w))) ->
  forall (remaining : nat) (w : Worker payload),
    I w -> I (emailLoop remaining env w).
Proof.
  intros Hsend Hgive Hpub. induction remaining as [|r IH]; intros w Hw;
    [exact Hw|].
  cbn [emailLoop]. pose proof (Hsend w Hw) as Hw1.
  destruct (IsSent (notification (sendEmail env w))); cbn [negb andb].
  - now apply Hpub.
  - destruct (_ <=? _); [now apply Hpub, Hgive|].
    destruct (_ =? _); [now apply Hpub, Hgive|]. now apply IH.
Qed.

Lemma sameRequest_refl (n : Notification) : sameRequest n n.
Proof. now repeat split. Qed.

Lemma tracks_start (n : Notification) : tracks n (start (payload := payload) n).
Proof.
  split; [|split]; [repeat constructor; apply sameRequest_refl
                   | apply sameRequest_refl | constructor].
Qed.

Lemma tracks_assign (n : Notification) (f : Notification -> Notification)
    (w : Worker payload) :
  (forall s : Notification, sameRequest n s -> sameRequest n (f s)) ->
  tracks n w -> tracks n (assign f w).
Proof.
  intros Hf (Hh & Hn & Ho). split; [|split]; [| now apply Hf | exact Ho].
  cbn [assign history]. apply Forall_app. split; [exact Hh|].
  constructor; [now apply Hf | constructor].
Qed.

Lemma tracks_call (n : Notification) (c : Call) (w : Worker payload) :
  tracks n w -> tracks n (call c w).
Proof. now intros (Hh & Hn & Ho). Qed.

Lemma tracks_publish (n : Notification) (w : Worker payload) :
  tracks n w -> tracks n (snd (publish env w)).
Proof.
  intros (Hh & Hn & Ho). unfold publish, SendKafkaMessage.
  destruct (setupProducer (broker_reply env));
    [exact (conj Hh (conj Hn Ho))|].
  destruct (json_Marshal (notification w)); [|exact (conj Hh (conj Hn Ho))].
  destruct (SendMessage_err (broker_reply env));
    [exact (conj Hh (conj Hn Ho))|].
  split; [exact Hh|]. split; [exact Hn|]. cbn [snd outbox].
  apply Forall_app. split; [exact Ho|].
  constructor; [|constructor]. split; [reflexivity|].
  cbn [Key]. now destruct Hn as (_ & _ & _ & _ & _ & Hid).
Qed.

Ltac step_tracks :=
  repeat first
    [ apply tracks_publish
    | apply tracks_assign; [intros ? Hsame; exact Hsame |]
    | apply tracks_call ].

Lemma tracks_sendEmail (n : Notification) (w : Worker payload) :
  tracks n w -> tracks n (sendEmail env w).
Proof.
  intros Hw. unfold sendEmail.
  destruct (smtp_SendMail env (length (calls w))); step_tracks; exact Hw.
Qed.

Lemma tracks_sendSlack (n : Notification) (w : Worker payload) :
  tracks n w -> tracks n (sendSlack env w).
Proof.
  intros Hw. unfold sendSlack.
  destruct (slack_PostMessage env (length (calls w))); step_tracks; exact Hw.
Qed.

Lemma tracks_sendSms (n : Notification) (w : Worker payload) :
  tracks n w -> tracks n (finalState (sendSms env w)).
Proof.
  intros Hw. unfold sendSms.
  destruct (nexmo_SendSMS env (length (calls w))) as [resp [e|]].
  - destruct resp as [[|Status more]|]; cbn [finalState]; step_tracks;
      exact Hw.
  - cbn [finalState]. step_tracks. exact Hw.
Qed.

Lemma tracks_emailLoop (n : Notification) (remaining : nat)
    (w : Worker payload) :
  tracks n w -> tracks n (emailLoop remaining env w).
Proof.
  apply emailLoop_rule.
  - apply tracks_sendEmail.
  - intros w' prefix Hw'. step_tracks. exact Hw'.
  - apply tracks_publish.
Qed.

(** *** The envelope of the mails *)

Lemma sendEmail_call (w : Worker payload) :
  calls (sendEmail env w) = calls w ++ [envelope env (notification w)].
Proof.
  assert (SendMail ("smtp.gmail.com" +:+ ":" +:+ "587")
            ("Info", "infos6587", Getenv env "NS_EMAIL_TOKEN", "smtp.gmail.com")
            ("infos6587" +:+ "@" +:+ "gmail.com")
            [Recipient (notification w)]
            (("To: " +:+ Recipient (notification w) +:+ CRLF)
             +:+ ("Subject: Email Notification System" +:+ CRLF)
             +:+ CRLF +:+ Message (notification w))
          = envelope env (notification w)) as Hcall.
  { unfold envelope. f_equal. now rewrite !append_assoc. }
  unfold sendEmail.
  destruct (smtp_SendMail env (length (calls w)));
    cbn [assign call calls]; now rewrite Hcall.
Qed.

Lemma sendEmail_sameRequest (n : Notification) (w : Worker payload) :
  sameRequest n (notification w) ->
  sameRequest n (notification (sendEmail env w)).
Proof.
  intros Hn. unfold sendEmail.
  destruct (smtp_SendMail env (length (calls w))); exact Hn.
Qed.

Lemma mails_sendEmail (n : Notification) (w : Worker payload) :
  mails env n w -> mails env n (sendEmail env w).
Proof.
  intros [Hn Hc]. split; [now apply sendEmail_sameRequest|].
  rewrite sendEmail_call. apply Forall_app. split; [exact Hc|].
  constructor; [|constructor].
  destruct Hn as (_ & Hm & _ & Hr & _). unfold envelope. now rewrite Hm, Hr.
Qed.

Lemma mails_emailLoop (n : Notification) (remaining : nat) (w : Worker payload) :
  mails env n w -> mails env n (emailLoop remaining env w).
Proof.
  apply emailLoop_rule.
  - apply mails_sendEmail.
  - intros w' prefix Hw'. exact Hw'.
  - intros w' [Hn Hc]. destruct (publish_same env w') as (Hn' & _ & Hc').
    unfold mails. now rewrite Hn', Hc'.
Qed.

End WorkerRules.

(** X10.  While the email, slack or sms worker processes a request, it
    writes only [IsSent], [NumOfRepetitions] and [FailReason]: in every value
    the notification takes, mode, message, retry bound, recipient, time
    stamp and id are those of the request.  Whatever it hands to the broker
    goes to the processed topic under the id of the request.  This holds
    whatever the delivery clients and the broker answer. *)
Theorem workers_keep_the_request {payload : Type} `{!JSON payload}
    (env : World) (n : Notification) :
  tracks n (emailService (payload := payload) env n)
  /\ tracks n (slackService (payload := payload) env n)
  /\ tracks n (finalState (smsService (payload := payload) env n)).
Proof.
  split; [|split].
  - apply tracks_emailLoop, tracks_start.
  - unfold slackService.
    pose proof (tracks_sendSlack env n _ (tracks_start (payload := payload) n))
      as Hw.
    destruct (IsSent _).
    + now apply tracks_publish.
    + apply tracks_publish.
      apply tracks_assign; [intros ? Hsame; exact Hsame | exact Hw].
  - unfold smsService.
    pose proof (tracks_sendSms env n _ (tracks_start (payload := payload) n))
      as Hw.
    destruct (sendSms env (start n)) as [w|why w]; cbn [finalState] in *;
      [|exact Hw].
    destruct (IsSent _); cbn [finalState]; now apply tracks_publish.
Qed.

(** X11.  Every attempt of the email worker, first or repeated, is the
    same call: through smtp.gmail.com:587, from infos6587@gmail.com, to the
    one recipient of the request, with the "To" and "Subject" header lines
    followed by the message of the request. *)
Theorem email_attempts_same_envelope {payload : Type} `{!JSON payload}
    (env : World) (n : Notification) :
  Forall (fun c => c = envelope env n)
    (calls (emailService (payload := payload) env n)).
Proof.
  apply (mails_emailLoop env n). split; [apply sameRequest_refl | constructor].
Qed.

(** ** Deliveries that succeed *)

Section Succeeding.
Context {payload : Type} `{!JSON payload}.
Variable env : World.
Hypothesis codec_ok : roundtrips payload.
Hypothesis broker_ok : broker_reply env = brokerUp.

(** The mails [0 .. k-1] after the calls already made fail and mail [k]
    goes out, before either bound is reached. *)
Lemma emailLoop_recovers (k : nat) :
  forall (remaining : nat) (w : Worker payload),
    (k < remaining)%nat ->
    (forall j : nat, (j < k)%nat ->
       smtp_SendMail env (length (calls w) + j) <> None) ->
    smtp_SendMail env (length (calls w) + k) = None ->
    0 <= NumOfRepetitions (notification w) ->
    NumOfRepetitions (notification w) + Z.of_nat k
      < MaxRetryAttempts (notification w) ->
    NumOfRepetitions (notification w) + Z.of_nat k < 5 ->
    length (calls (emailLoop remaining env w)) = (length (calls w) + k + 1)%nat
    /\ IsSent (notification (emailLoop remaining env w)) = true
    /\ NumOfRepetitions (notification (emailLoop remaining env w))
       = NumOfRepetitions (notification w) + Z.of_nat k
    /\ MessageID (notification (emailLoop remaining env w))
       = MessageID (notification w)
    /\ match k with
       | O => FailReason (notification (emailLoop remaining env w))
              = FailReason (notification w)
       | S k' =>
           exists e : string,
             smtp_SendMail env (length (calls w) + k') = Some e
             /\ FailReason (notification (emailLoop remaining env w))
                = emailError e
       end
    /\ exists v : payload,
         json_Unmarshal v = inl (notification (emailLoop remaining env w))
         /\ outbox (emailLoop remaining env w)
            = outbox w
              ++ [mkProducerMessage kafkaTopicProcessed
                    (MessageID (notification w)) v].
Proof.
  induction k as [|k IH]; intros remaining w Hrem Hfail Hok Hc HM H5;
    (destruct remaining as [|r]; [lia|]); cbn [emailLoop].
  - rewrite Nat.add_0_r in Hok.
    destruct (sendEmail_ok env w Hok) as (Hn1 & _ & Hc1 & Ho1).
    rewrite Hn1. cbn [IsSent setIsSent].
    destruct (publish_up env (sendEmail env w) codec_ok broker_ok)
      as (v & Hv & Hout).
    destruct (publish_same env (sendEmail env w)) as (Hn & _ & Hcalls).
    rewrite Hn, Hcalls, Hc1, Hout, Ho1, Hn1 in *. cbn.
    split; [lia|]. split; [reflexivity|]. split; [lia|].
    split; [reflexivity|]. split; [reflexivity|]. now exists v.
  - destruct (smtp_SendMail env (length (calls w))) as [e0|] eqn:He0;
      [|destruct (Hfail 0%nat); [lia | now rewrite Nat.add_0_r]].
    destruct (sendEmail_fail env w e0 He0) as (Hn1 & _ & Hc1 & Ho1).
    assert (NumOfRepetitions (notification (sendEmail env w))
            = NumOfRepetitions (notification w) + 1) as HN
      by (rewrite Hn1; cbn; apply intAdd_counter; lia).
    assert (MaxRetryAttempts (notification (sendEmail env w))
            = MaxRetryAttempts (notification w)) as HMx by now rewrite Hn1.
    assert (MessageID (notification (sendEmail env w))
            = MessageID (notification w)) as HI by now rewrite Hn1.
    assert (FailReason (notification (sendEmail env w)) = emailError e0) as HF
      by now rewrite Hn1.
    assert (IsSent (notification (sendEmail env w)) = false) as HS
      by now rewrite Hn1.
    rewrite HS. cbn [negb andb]. rewrite HMx, HN.
    destruct (Z.leb_spec (MaxRetryAttempts (notification w))
                (NumOfRepetitions (notification w) + 1)); [lia|].
    destruct (Z.eqb_spec (NumOfRepetitions (notification w) + 1)
                maxEmailRetries) as [Heq|_];
      [unfold maxEmailRetries in Heq; lia|].
    destruct (IH r (sendEmail env w))
      as (Hlen & Hs & Hcnt & Hid & Hlast & v & Hv & Hout).
    + lia.
    + intros j Hj. rewrite Hc1.
      replace (S (length (calls w)) + j)%nat
        with (length (calls w) + S j)%nat by lia.
      apply Hfail. lia.
    + rewrite Hc1.
      now replace (S (length (calls w)) + k)%nat
        with (length (calls w) + S k)%nat by lia.
    + lia.
    + lia.
    + lia.
    + rewrite Hlen, Hs, Hcnt, Hid, Hout, Hc1, HN, HI, Ho1.
      split; [lia|]. split; [reflexivity|]. split; [lia|].
      split; [reflexivity|]. split; [|now exists v].
      destruct k as [|k'].
      * exists e0. rewrite Nat.add_0_r. split; [exact He0|].
        now rewrite Hlast.
      * destruct Hlast as (e & He & Hreason).
        exists e. split; [|exact Hreason].
        rewrite <- He. f_equal. rewrite Hc1. lia.
Qed.

End Succeeding.

(** X13.  When the first delivery attempt succeeds, each worker makes
    exactly one call, sets [IsSent] and changes nothing else, and publishes
    one outcome; whenever that outcome is delivered while the handler waits
    (after any number of polls that found the entry pending, and with
    outcomes of other requests in between), the caller is answered 200
    "Notification sent successfully!".  The retry bound of the request plays
    no part. *)
Theorem first_attempt_delivers {payload : Type} `{!JSON payload}
    (env : World) (n : Notification) :
  roundtrips payload ->
  broker_reply env = brokerUp ->
  (smtp_SendMail env 0 = None ->
     exists v : payload,
       length (calls (emailService (payload := payload) env n)) = 1%nat
       /\ notification (emailService (payload := payload) env n)
          = setIsSent true n
       /\ outbox (emailService env n)
          = [mkProducerMessage kafkaTopicProcessed (MessageID n) v]
       /\ relayedSuccess (MessageID n) v)
  /\ (slack_PostMessage env 0 = None ->
        exists v : payload,
          length (calls (slackService (payload := payload) env n)) = 1%nat
          /\ notification (slackService (payload := payload) env n)
             = setIsSent true n
          /\ outbox (slackService env n)
             = [mkProducerMessage kafkaTopicProcessed (MessageID n) v]
          /\ relayedSuccess (MessageID n) v)
  /\ (snd (nexmo_SendSMS env 0) = None ->
        exists (v : payload) (w : Worker payload),
          smsService env n = Returned w
          /\ length (calls w) = 1%nat
          /\ notification w = setIsSent true n
          /\ outbox w = [mkProducerMessage kafkaTopicProcessed (MessageID n) v]
          /\ relayedSuccess (MessageID n) v).
Proof.
  intros Hrt Hup. split; [|split].
  - intros Hok. unfold emailService. cbn [emailLoop Z.to_nat].
    destruct (sendEmail_ok env (start (payload := payload) n) Hok) as (Hn1 & _ & Hc1 & Ho1).
    rewrite Hn1. cbn [IsSent setIsSent].
    destruct (publish_up env (sendEmail env (start n)) Hrt Hup)
      as (v & Hv & Hout).
    destruct (publish_same env (sendEmail env (start n))) as (Hn & _ & Hcalls).
    exists v. rewrite Hn, Hcalls, Hc1, Hout, Ho1, Hn1 in *.
    cbn [start notification outbox calls length app MessageID setIsSent] in *.
    repeat split. now apply (sent_outcome_relays _ _ _ Hv).
  - intros Hok. unfold slackService.
    destruct (sendSlack_ok env (start (payload := payload) n) Hok) as (Hn1 & _ & Hc1 & Ho1).
    rewrite Hn1. cbn [IsSent setIsSent].
    destruct (publish_up env (sendSlack env (start n)) Hrt Hup)
      as (v & Hv & Hout).
    destruct (publish_same env (sendSlack env (start n))) as (Hn & _ & Hcalls).
    exists v. rewrite Hn, Hcalls, Hc1, Hout, Ho1, Hn1 in *.
    cbn [start notification outbox calls length app MessageID setIsSent] in *.
    repeat split. now apply (sent_outcome_relays _ _ _ Hv).
  - intros Hok. unfold smsService, sendSms. cbn [start calls length].
    destruct (nexmo_SendSMS env 0) as [resp err]. simpl in Hok. subst err.
    cbn [assign call notification history calls outbox IsSent setIsSent].
    match goal with
    | |- context [publish env ?w0] =>
        destruct (publish_up env w0 Hrt Hup) as (v & Hv & Hout);
        destruct (publish_same env w0) as (Hn & _ & Hc);
        exists v, (snd (publish env w0))
    end.
    rewrite Hn, Hc, Hout. cbn [notification calls outbox] in *.
    repeat split. now apply (sent_outcome_relays _ _ _ Hv).
Qed.

Lemma first_attempt_delivers_witness :
  (exists v : wire,
     outbox (slackService workingWorld (sampleRequest "slack" 0))
     = [mkProducerMessage "processed" 7%N v]
     /\ relayedSuccess 7%N v)
  /\ notification (emailService (payload := wire) workingWorld
                     (sampleRequest "email" 0))
     = setIsSent true (sampleRequest "email" 0).
Proof.
  assert (roundtrips wire) as Hrt by (intros n; exists (Encoded n); now split).
  split.
  - destruct (first_attempt_delivers (payload := wire) workingWorld
                (sampleRequest "slack" 0) Hrt eq_refl) as (_ & Hslack & _).
    destruct (Hslack eq_refl) as (v & _ & _ & Hout & Hrel).
    now exists v.
  - destruct (first_attempt_delivers (payload := wire) workingWorld
                (sampleRequest "email" 0) Hrt eq_refl) as (Hmail & _).
    destruct (Hmail eq_refl) as (v & _ & Hn & _). exact Hn.
Defined.

(** X14.  The email worker recovers: when the first [k] mails fail and the
    next one goes out, with [k] below both the caller's bound and the cap 5,
    it makes exactly [k + 1] calls and publishes one outcome with [IsSent]
    set and the counter at [k].  The reason of the last failure is left in
    [FailReason], yet whenever the outcome is delivered while the handler
    waits the caller is answered 200, because the poller offers success
    first. *)
Theorem email_recovers_after_failures {payload : Type} `{!JSON payload}
    (env : World) (n : Notification) (k : nat) :
  roundtrips payload ->
  broker_reply env = brokerUp ->
  NumOfRepetitions n = 0 ->
  (forall j : nat, (j < k)%nat -> smtp_SendMail env j <> None) ->
  smtp_SendMail env k = None ->
  Z.of_nat k < MaxRetryAttempts n -> Z.of_nat k < maxEmailRetries ->
  exists v : payload,
    length (calls (emailService (payload := payload) env n)) = S k
    /\ IsSent (notification (emailService (payload := payload) env n)) = true
    /\ NumOfRepetitions (notification (emailService (payload := payload) env n))
       = Z.of_nat k
    /\ match k with
       | O => FailReason (notification (emailService (payload := payload) env n))
              = FailReason n
       | S k' =>
           exists e : string,
             smtp_SendMail env k' = Some e
             /\ FailReason (notification (emailService (payload := payload) env n))
                = emailError e
       end
    /\ outbox (emailService env n)
       = [mkProducerMessage kafkaTopicProcessed (MessageID n) v]
    /\ relayedSuccess (MessageID n) v.
Proof.
  intros Hrt Hup H0 Hfail Hok HM H5. unfold maxEmailRetries in H5.
  unfold emailService.
  destruct (emailLoop_recovers env Hrt Hup k (S (Z.to_nat maxEmailRetries))
              (start n))
    as (Hlen & Hs & Hcnt & Hid & Hlast & v & Hv & Hout);
    cbn [start notification calls length Nat.add];
    [ unfold maxEmailRetries; lia | exact Hfail | exact Hok | lia | lia | lia |].
  cbn [start notification calls outbox length Nat.add app] in *.
  exists v. split; [lia|]. split; [exact Hs|]. split; [lia|].
  split; [exact Hlast|]. split; [exact Hout|].
  apply (sent_outcome_relays (MessageID n) v _ Hv); [exact Hid | exact Hs].
Qed.

Lemma email_recovers_after_failures_witness :
  exists v : wire,
    length (calls (emailService (payload := wire) flakyWorld
                     (sampleRequest "email" 4))) = 3%nat
    /\ FailReason (notification (emailService (payload := wire) flakyWorld
                                   (sampleRequest "email" 4)))
       = emailError "421 try again later"
    /\ relayedSuccess 7%N v.
Proof.
  assert (roundtrips wire) as Hrt by (intros n; exists (Encoded n); now split).
  destruct (email_recovers_after_failures (payload := wire) flakyWorld
              (sampleRequest "email" 4) 2 Hrt eq_refl eq_refl)
    as (v & Hlen & _ & _ & (e & He & Hreason) & _ & Hrel).
  - intros j Hj. destruct j as [|[|j]]; [discriminate | discriminate | lia].
  - reflexivity.
  - reflexivity.
  - reflexivity.
  - exists v. split; [exact Hlen|]. split; [|exact Hrel].
    injection He as <-. exact Hreason.
Defined.

(** ** The email loop, its two bounds *)

Section EmailBounds.
Context {payload : Type} `{!JSON payload}.
Variable env : World.

Lemma give_up_notification (prefix : string) (w : Worker payload) :
  notification
    (snd (publish env
            (assign (fun n => setFailReason (prefix +:+ FailReason n) n)
               (assign (setIsSent false) w))))
  = setFailReason (prefix +:+ FailReason (notification w))
      (setIsSent false (notification w))
  /\ calls
       (snd (publish env
               (assign (fun n => setFailReason (prefix +:+ FailReason n) n)
                  (assign (setIsSent false) w))))
     = calls w.
Proof.
  match goal with
  | |- context [publish env ?w0] =>
      destruct (publish_same env w0) as (Hn & _ & Hc)
  end.
  rewrite Hn, Hc. now split.
Qed.

Lemma emailLoop_gives_up (remaining : nat) (w : Worker payload) :
  (forall k : nat, smtp_SendMail env k <> None) ->
  0 <= NumOfRepetitions (notification w) <= 4 ->
  5 - NumOfRepetitions (notification w) <= Z.of_nat remaining ->
  exists e : string,
    smtp_SendMail env (pred (length (calls (emailLoop remaining env w))))
    = Some e
    /\ FailReason (notification (emailLoop remaining env w))
       = (if MaxRetryAttempts (notification w) <=? 5
          then callerBudgetPrefix else systemBudgetPrefix)
         +:+ emailError e
    /\ IsSent (notification (emailLoop remaining env w)) = false
    /\ NumOfRepetitions (notification (emailLoop remaining env w))
       = NumOfRepetitions (notification w)
         + Z.max 1 (Z.min (MaxRetryAttempts (notification w)) 5
                    - NumOfRepetitions (notification w)).
Proof.
  intros Hfail. revert w.
  induction remaining as [|r IH]; intros w Hc Hr; [lia|].
  destruct (smtp_SendMail env (length (calls w))) as [e0|] eqn:He0;
    [|now destruct (Hfail (length (calls w)))].
  destruct (sendEmail_fail env w e0 He0) as (Hn1 & _ & Hc1 & _).
  assert (NumOfRepetitions (notification (sendEmail env w))
          = NumOfRepetitions (notification w) + 1) as HN
    by (rewrite Hn1; cbn; now apply intAdd_counter).
  assert (MaxRetryAttempts (notification (sendEmail env w))
          = MaxRetryAttempts (notification w)) as HM by now rewrite Hn1.
  assert (FailReason (notification (sendEmail env w)) = emailError e0) as HF
    by now rewrite Hn1.
  assert (IsSent (notification (sendEmail env w)) = false) as HS
    by now rewrite Hn1.
  cbn [emailLoop]. rewrite HS. cbn [negb andb]. rewrite HM, HN.
  destruct (Z.leb_spec (MaxRetryAttempts (notification w))
              (NumOfRepetitions (notification w) + 1)) as [Hle|Hgt];
    [|destruct (Z.eqb_spec (NumOfRepetitions (notification w) + 1)
                 maxEmailRetries) as [Heq|Hne]].
  - destruct (give_up_notification
                "Too many failed attempts. Last attempt failed with: "
                (sendEmail env w)) as (Hn & Hcalls).
    exists e0. rewrite Hn, Hcalls, Hc1. cbn [pred FailReason IsSent
      NumOfRepetitions setFailReason setIsSent]. rewrite HF, HN.
    split; [exact He0|]. split; [|split; [reflexivity|lia]].
    destruct (Z.leb_spec (MaxRetryAttempts (notification w)) 5);
      [reflexivity | lia].
  - unfold maxEmailRetries in Heq.
    destruct (give_up_notification
                "Too many failed attempts. Max number of retries reached. Last attempt failed with: "
                (sendEmail env w)) as (Hn & Hcalls).
    exists e0. rewrite Hn, Hcalls, Hc1. cbn [pred FailReason IsSent
      NumOfRepetitions setFailReason setIsSent]. rewrite HF, HN.
    split; [exact He0|]. split; [|split; [reflexivity|lia]].
    destruct (Z.leb_spec (MaxRetryAttempts (notification w)) 5);
      [lia | reflexivity].
  - unfold maxEmailRetries in Hne.
    destruct (IH (sendEmail env w)) as (e & He & Hreason & Hs & Hcnt);
      [rewrite HN; lia | rewrite HN; lia |].
    exists e. rewrite Hreason, Hcnt, HM, HN.
    split; [exact He|]. split; [reflexivity|]. split; [exact Hs|]. lia.
Qed.

Lemma emailLoop_one_outcome (remaining : nat) (w : Worker payload) :
  roundtrips payload -> broker_reply env = brokerUp ->
  0 <= NumOfRepetitions (notification w) <= 4 ->
  5 - NumOfRepetitions (notification w) <= Z.of_nat remaining ->
  length (outbox (emailLoop remaining env w)) = S (length (outbox w))
  /\ Z.of_nat (length (calls w))
     < Z.of_nat (length (calls (emailLoop remaining env w)))
     <= Z.of_nat (length (calls w)) + (5 - NumOfRepetitions (notification w)).
Proof.
  intros Hrt Hup. revert w.
  assert (forall w : Worker payload,
            length (outbox (snd (publish env w))) = S (length (outbox w))
            /\ calls (snd (publish env w)) = calls w) as Hpub.
  { intros w. destruct (publish_up env w Hrt Hup) as (v & _ & Hout).
    destruct (publish_same env w) as (_ & _ & Hc).
    rewrite Hout, Hc, length_app. simpl. split; [lia | reflexivity]. }
  induction remaining as [|r IH]; intros w Hc Hr; [lia|].
  cbn [emailLoop].
  destruct (smtp_SendMail env (length (calls w))) as [e0|] eqn:He0.
  - destruct (sendEmail_fail env w e0 He0) as (Hn1 & _ & Hc1 & Ho1).
    assert (NumOfRepetitions (notification (sendEmail env w))
            = NumOfRepetitions (notification w) + 1) as HN
      by (rewrite Hn1; cbn; now apply intAdd_counter).
    assert (IsSent (notification (sendEmail env w)) = false) as HS
      by now rewrite Hn1.
    rewrite HS. cbn [negb andb]. rewrite HN.
    destruct (_ <=? _);
      [|destruct (Z.eqb_spec (NumOfRepetitions (notification w) + 1)
                   maxEmailRetries) as [Heq|Hne]].
    + match goal with
      | |- context [publish env ?w0] => destruct (Hpub w0) as (Ho & Hcs)
      end.
      rewrite Ho, Hcs. cbn [assign outbox calls]. rewrite Ho1, Hc1. lia.
    + match goal with
      | |- context [publish env ?w0] => destruct (Hpub w0) as (Ho & Hcs)
      end.
      rewrite Ho, Hcs. cbn [assign outbox calls]. rewrite Ho1, Hc1. lia.
    + unfold maxEmailRetries in Hne.
      destruct (IH (sendEmail env w)) as (Ho & Hcs);
        [rewrite HN; lia | rewrite HN; lia |].
      rewrite Ho, Ho1. rewrite Hc1, HN in Hcs. lia.
  - destruct (sendEmail_ok env w He0) as (Hn1 & _ & Hc1 & Ho1).
    rewrite Hn1. cbn [IsSent setIsSent].
    destruct (Hpub (sendEmail env w)) as (Ho & Hcs).
    rewrite Ho, Hcs, Ho1, Hc1. lia.
Qed.

End EmailBounds.

(** X15.  When every mail fails, the outcome of the email worker tells
    which bound stopped it.  With a caller's bound of at most 5 the reason is
    "Too many failed attempts. Last attempt failed with: " followed by the
    error of the last attempt; with a larger bound the cap 5 stops the
    worker and the reason starts "Too many failed attempts. Max number of
    retries reached. ...".  A bound of exactly 5 counts as the caller's.  The
    counter of the outcome is max(1, min(bound, 5)). *)
Theorem email_reason_names_the_bound {payload : Type} `{!JSON payload}
    (env : World) (n : Notification) :
  NumOfRepetitions n = 0 ->
  (forall k : nat, smtp_SendMail env k <> None) ->
  exists e : string,
    smtp_SendMail env
      (pred (length (calls (emailService (payload := payload) env n)))) = Some e
    /\ FailReason (notification (emailService (payload := payload) env n))
       = (if MaxRetryAttempts n <=? maxEmailRetries
          then callerBudgetPrefix else systemBudgetPrefix)
         +:+ "failed to send email with following error " +:+ e
    /\ IsSent (notification (emailService (payload := payload) env n)) = false
    /\ NumOfRepetitions (notification (emailService (payload := payload) env n))
       = Z.max 1 (Z.min (MaxRetryAttempts n) maxEmailRetries).
Proof.
  intros H0 Hfail. unfold emailService.
  destruct (emailLoop_gives_up env (S (Z.to_nat maxEmailRetries))
              (start (payload := payload) n) Hfail)
    as (e & He & Hreason & Hs & Hcnt);
    [ cbn [start notification]; lia
    | unfold maxEmailRetries; cbn [start notification]; lia |].
  cbn [start notification] in Hreason, Hcnt.
  exists e. split; [exact He|]. split; [exact Hreason|]. split; [exact Hs|].
  rewrite Hcnt, H0. unfold maxEmailRetries. lia.
Qed.

Lemma email_reason_names_the_bound_witness :
  FailReason (notification (emailService (payload := wire) failingWorld
                              (sampleRequest "email" 5)))
  = callerBudgetPrefix
    +:+ "failed to send email with following error dial tcp: connection refused"
  /\ FailReason (notification (emailService (payload := wire) failingWorld
                                 (sampleRequest "email" 6)))
     = systemBudgetPrefix
       +:+ "failed to send email with following error dial tcp: connection refused".
Proof.
  split.
  - destruct (email_reason_names_the_bound (payload := wire) failingWorld
                (sampleRequest "email" 5) eq_refl) as (e & He & Hreason & _);
      [discriminate|].
    injection He as <-. exact Hreason.
  - destruct (email_reason_names_the_bound (payload := wire) failingWorld
                (sampleRequest "email" 6) eq_refl) as (e & He & Hreason & _);
      [discriminate|].
    injection He as <-. exact Hreason.
Defined.

(** X16.  Whatever the mail server answers, attempt by attempt, the email
    worker ends a request that enters with its counter at zero with exactly
    one outcome on the processed topic, after at least one and at most five
    attempts: the sixth iteration the loop allows is never reached. *)
Theorem email_always_one_outcome {payload : Type} `{!JSON payload}
    (env : World) (n : Notification) :
  roundtrips payload ->
  broker_reply env = brokerUp ->
  NumOfRepetitions n = 0 ->
  length (outbox (emailService (payload := payload) env n)) = 1%nat
  /\ (1 <= length (calls (emailService (payload := payload) env n)) <= 5)%nat.
Proof.
  intros Hrt Hup H0. unfold emailService.
  destruct (emailLoop_one_outcome env (S (Z.to_nat maxEmailRetries))
              (start (payload := payload) n) Hrt Hup) as (Ho & Hc);
    [ cbn [start notification]; lia
    | unfold maxEmailRetries; cbn [start notification]; lia |].
  cbn [start notification outbox calls length] in Ho, Hc.
  split; [exact Ho | lia].
Qed.

Lemma email_always_one_outcome_witness :
  length (outbox (emailService (payload := wire) flakyWorld
                    (sampleRequest "email" 100))) = 1%nat
  /\ (1 <= length (calls (emailService (payload := wire) flakyWorld
                            (sampleRequest "email" 100))) <= 5)%nat.
Proof.
  apply (email_always_one_outcome (payload := wire) flakyWorld
           (sampleRequest "email" 100)).
  - intros n. exists (Encoded n). now split.
  - reflexivity.
  - reflexivity.
Defined.

(** ** The sms attempt *)

(** X17.  [sendSms] panics exactly when the gateway call returns an error
    together with a nil response or a response without messages.  It has
    then made the call, cleared [IsSent] and incremented the counter, but
    recorded no reason; and [smsService] ends with it, publishing nothing. *)
Theorem sendSms_panics_iff {payload : Type} `{!JSON payload}
    (env : World) (n : Notification) :
  ((exists (why : string) (w : Worker payload),
      sendSms env (start n) = Panicked why w)
   <-> (snd (nexmo_SendSMS env 0) <> None
        /\ (fst (nexmo_SendSMS env 0) = None
            \/ fst (nexmo_SendSMS env 0) = Some [])))
  /\ (forall (why : string) (w : Worker payload),
        sendSms env (start n) = Panicked why w ->
        length (calls w) = 1%nat
        /\ notification w
           = setNumOfRepetitions (intAdd (NumOfRepetitions n) 1)
               (setIsSent false n)
        /\ smsService env n = Panicked why w
        /\ outbox w = []).
Proof.
  unfold smsService, sendSms. cbn [start calls length].
  destruct (nexmo_SendSMS env 0) as [resp [e|]]; cbn [fst snd].
  - destruct resp as [[|Status more]|]; cbn [start].
    + split.
      * split; [intros _; split; [discriminate | now right]|].
        intros _. now eexists _, _.
      * intros why w [= <- <-]. now repeat split.
    + split.
      * split; [intros (why & w & Hp); discriminate|].
        intros (_ & [Hn|Hn]); discriminate.
      * intros why w Hp. discriminate.
    + split.
      * split; [intros _; split; [discriminate | now left]|].
        intros _. now eexists _, _.
      * intros why w [= <- <-]. now repeat split.
  - split.
    + split; [intros (why & w & Hp); discriminate|].
      now intros (Hne & _).
    + intros why w Hp. discriminate.
Qed.

Lemma sendSms_panics_iff_witness :
  exists (why : string) (w : Worker wire),
    sendSms unreachableSmsWorld (start (sampleRequest "sms" 5)) = Panicked why w.
Proof.
  apply (sendSms_panics_iff (payload := wire) unreachableSmsWorld
           (sampleRequest "sms" 5)).
  split; [discriminate | now right].
Defined.

(** ** The broker client *)

(** X18.  [SendKafkaMessage] is all or nothing.  It returns nil exactly
    when creating the producer, encoding and sending all succeed, and has
    then appended one message, on the given topic, keyed by the message id
    and carrying the encoding; on any error the topics are as before.  A
    failure to create the producer is reported first, with the prefix
    "failed to setup producer: " twice. *)
Theorem SendKafkaMessage_all_or_nothing {payload : Type} `{!JSON payload}
    (reply : BrokerReply) (topic : string) (n : Notification)
    (topics : list (ProducerMessage payload)) :
  (fst (SendKafkaMessage reply topic n topics) = None
   <-> (NewSyncProducer_err reply = None /\ SendMessage_err reply = None
        /\ exists v : payload, json_Marshal n = inl v))
  /\ (forall v : payload,
        fst (SendKafkaMessage reply topic n topics) = None ->
        json_Marshal n = inl v ->
        snd (SendKafkaMessage reply topic n topics)
        = topics ++ [mkProducerMessage topic (MessageID n) v])
  /\ (fst (SendKafkaMessage reply topic n topics) <> None ->
        snd (SendKafkaMessage reply topic n topics) = topics)
  /\ (forall err : string,
        NewSyncProducer_err reply = Some err ->
        fst (SendKafkaMessage reply topic n topics)
        = Some ("failed to setup producer: failed to setup producer: " +:+ err)).
Proof.
  unfold SendKafkaMessage, setupProducer.
  destruct (NewSyncProducer_err reply) as [e1|].
  - split; [|split; [|split]]; cbn [fst snd].
    + split; [discriminate | now intros (H1 & _)].
    + discriminate.
    + reflexivity.
    + intros err [= ->].
      change ("failed to setup producer: failed to setup producer: " +:+ err)
        with ("failed to setup producer: "
              +:+ "failed to setup producer: " +:+ err).
      reflexivity.
  - destruct (json_Marshal n) as [v|e2].
    + destruct (SendMessage_err reply) as [e3|];
        (split; [|split; [|split]]); cbn [fst snd]; try discriminate;
        try reflexivity.
      * split; [discriminate | now intros (_ & H3 & _)].
      * split; [intros _; repeat split; now exists v | reflexivity].
      * now intros v' _ [= ->].
      * congruence.
    + split; [|split; [|split]]; cbn [fst snd]; try discriminate;
        try reflexivity.
      split; [discriminate | now intros (_ & _ & v & Hv)].
Qed.

Lemma SendKafkaMessage_all_or_nothing_witness :
  snd (SendKafkaMessage brokerUp "sms" emailHi2 [])
  = [mkProducerMessage "sms" 7%N (Encoded emailHi2)]
  /\ snd (SendKafkaMessage brokerDown "sms" emailHi2
            [mkProducerMessage "sms" 7%N (Encoded emailHi2)])
     = [mkProducerMessage "sms" 7%N (Encoded emailHi2)].
Proof.
  split.
  - apply (SendKafkaMessage_all_or_nothing (payload := wire) brokerUp "sms"
             emailHi2 []); reflexivity.
  - apply (SendKafkaMessage_all_or_nothing (payload := wire) brokerDown "sms"
             emailHi2 [mkProducerMessage "sms" 7%N (Encoded emailHi2)]).
    discriminate.
Defined.

(** ** The consumer, claim by claim *)

Section Consumer.
Context {payload : Type} `{!JSON payload} {S : Type}.
Variable callback : Notification -> S -> S.

Lemma ConsumeClaim_app (a b : list payload) (sess : Session payload) (st : S) :
  ConsumeClaim callback (a ++ b) sess st
  = ConsumeClaim callback b (fst (ConsumeClaim callback a sess st))
      (snd (ConsumeClaim callback a sess st)).
Proof.
  revert sess st. induction a as [|msg a IH]; intros sess st; [reflexivity|].
  simpl. destruct (json_Unmarshal msg); apply IH.
Qed.

Lemma ConsumeClaim_state (claim : list payload) (sess : Session payload) (st : S) :
  snd (ConsumeClaim callback claim sess st)
  = fold_left (fun s n => callback n s) (omap decoded claim) st.
Proof.
  revert sess st. induction claim as [|msg rest IH]; intros sess st;
    [reflexivity|].
  rewrite omap_decoded_cons. unfold decoded at 1. simpl.
  destruct (json_Unmarshal msg); apply IH.
Qed.

Lemma ConsumeClaim_session (claim : list payload) (sess : Session payload)
    (st : S) :
  marked (fst (ConsumeClaim callback claim sess st))
  = marked sess ++ List.filter decodable claim
  /\ exists lines : list string,
       logged (fst (ConsumeClaim callback claim sess st)) = logged sess ++ lines
       /\ length lines
          = length (List.filter (fun msg => negb (decodable msg)) claim).
Proof.
  revert sess st. induction claim as [|msg rest IH]; intros sess st.
  - simpl. split; [now rewrite app_nil_r|]. exists [].
    split; [now rewrite app_nil_r | reflexivity].
  - cbn [ConsumeClaim List.filter].
    destruct (json_Unmarshal msg) as [n|err] eqn:Hd.
    + assert (decodable msg = true) as -> by (unfold decodable; now rewrite Hd).
      destruct (IH (mkSession (logged sess) (marked sess ++ [msg]))
                  (callback n st)) as (Hm & lines & Hl & Hlen).
      cbn [negb marked logged] in *. rewrite Hm, <- app_assoc.
      split; [reflexivity|]. now exists lines.
    + assert (decodable msg = false) as -> by (unfold decodable; now rewrite Hd).
      destruct (IH (mkSession
                      (logged sess ++ ["failed to unmarshal notification: " +:+ err])
                      (marked sess)) st) as (Hm & lines & Hl & Hlen).
      cbn [negb marked logged] in *. split; [exact Hm|].
      exists (("failed to unmarshal notification: " +:+ err) :: lines).
      rewrite Hl, <- app_assoc. split; [reflexivity|]. simpl. now rewrite Hlen.
Qed.

Lemma lastFor_found (id : UUID) (snapshots : list Notification)
    (found : option Notification) :
  lastFor id snapshots found
  = match lastFor id snapshots None with
    | Some n => Some n
    | None => found
    end.
Proof.
  revert found. induction snapshots as [|n rest IH]; intros found;
    [reflexivity|].
  simpl. destruct (N.eqb (MessageID n) id).
  - rewrite (IH (Some n)). now destruct (lastFor id rest None).
  - apply IH.
Qed.

End Consumer.

Lemma fold_Update_lookup (id : UUID) (snapshots : list Notification)
    (data : MessageNotification) :
  fold_left (fun d n => ReceiveProcessedNotification n d) snapshots data !! id
  = match lastFor id snapshots None with
    | Some n => Some n
    | None => data !! id
    end.
Proof.
  revert data. induction snapshots as [|n rest IH]; intros data;
    [reflexivity|].
  simpl. rewrite IH, (lastFor_found id rest (if N.eqb _ _ then _ else _)).
  destruct (lastFor id rest None); [reflexivity|].
  unfold ReceiveProcessedNotification, Update.
  destruct (N.eqb_spec (MessageID n) id) as [Heq|Hne].
  - rewrite Heq. apply lookup_insert_eq.
  - now apply lookup_insert_ne.
Qed.

(** X19.  Consuming a claim in two parts is the same as consuming it in
    one: what is stored, logged and marked after the first part is where
    the second part starts. *)
Theorem ConsumeClaim_in_parts {payload : Type} `{!JSON payload} {S : Type}
    (callback : Notification -> S -> S) (a b : list payload)
    (sess : Session payload) (st : S) :
  ConsumeClaim callback (a ++ b) sess st
  = ConsumeClaim callback b (fst (ConsumeClaim callback a sess st))
      (snd (ConsumeClaim callback a sess st)).
Proof. apply ConsumeClaim_app. Qed.

(** X20.  After the listener has consumed a claim, the entry under an id
    is the snapshot of the last message of the claim that decodes and
    carries that id; when there is none, the entry is what it was.  So
    duplicates and later outcomes overwrite earlier ones, and undecodable
    messages count for nothing. *)
Theorem ConsumeClaim_last_outcome_wins {payload : Type} `{!JSON payload}
    (claim : list payload) (sess : Session payload)
    (data : MessageNotification) (id : UUID) :
  snd (ConsumeClaim ReceiveProcessedNotification claim sess data) !! id
  = match lastFor id (omap decoded claim) None with
    | Some n => Some n
    | None => data !! id
    end.
Proof. rewrite ConsumeClaim_state. apply fold_Update_lookup. Qed.

(** X21.  [ConsumeClaim] marks exactly the messages that decode, in their
    order, after those already marked; it logs one line for each message
    that does not decode, after the lines logged before.  A message that
    does not decode is never marked. *)
Theorem ConsumeClaim_marks_decodable {payload : Type} `{!JSON payload}
    {S : Type} (callback : Notification -> S -> S) (claim : list payload)
    (sess : Session payload) (st : S) :
  marked (fst (ConsumeClaim callback claim sess st))
  = marked sess ++ List.filter decodable claim
  /\ exists lines : list string,
       logged (fst (ConsumeClaim callback claim sess st)) = logged sess ++ lines
       /\ length lines
          = length (List.filter (fun msg => negb (decodable msg)) claim).
Proof. apply ConsumeClaim_session. Qed.

(** ** The subscribe loop *)

Section Subscribe.
Context {payload : Type} `{!JSON payload} {S : Type}.
Variable callback : Notification -> S -> S.

Lemma snapshotsOf_cons (r : Round payload) (rounds : list (Round payload)) :
  snapshotsOf (r :: rounds) = omap decoded (claimed r) ++ snapshotsOf rounds.
Proof. unfold snapshotsOf. simpl. apply omap_app. Qed.

Lemma consumeLoop_state (rounds : list (Round payload))
    (sess : Session payload) (st : S) :
  snd (snd (consumeLoop callback rounds sess st))
  = fold_left (fun s n => callback n s) (snapshotsOf (untilDone rounds)) st
  /\ fst (consumeLoop callback rounds sess st) = existsb ctx_done rounds.
Proof.
  revert sess st. induction rounds as [|r rounds IH]; intros sess st;
    [now split|].
  cbn [consumeLoop untilDone existsb].
  pose proof (ConsumeClaim_state callback (claimed r) sess st) as Hst.
  destruct (ConsumeClaim callback (claimed r) sess st) as [sess1 st1].
  cbn [snd] in Hst.
  destruct (ctx_done r); cbn [orb].
  - rewrite snapshotsOf_cons. unfold snapshotsOf at 1. cbn [map concat omap].
    rewrite app_nil_r, Hst. now split.
  - rewrite snapshotsOf_cons, fold_left_app, <- Hst. apply IH.
Qed.

End Subscribe.

Section SubscribeLog.
Context {payload : Type} `{!JSON payload} {S : Type}.
Variable callback : Notification -> S -> S.

Lemma ConsumeClaim_log (claim : list payload) (sess : Session payload) (st : S) :
  logged (fst (ConsumeClaim callback claim sess st))
  = logged sess ++ map unmarshalLine (decodeErrors claim).
Proof.
  revert sess st. induction claim as [|msg rest IH]; intros sess st.
  - simpl. now rewrite app_nil_r.
  - unfold decodeErrors. cbn [ConsumeClaim omap list_omap].
    destruct (json_Unmarshal msg) as [n|err]; rewrite IH; cbn [logged].
    + reflexivity.
    + now rewrite <- app_assoc.
Qed.

Lemma consumeLoop_session (rounds : list (Round payload))
    (sess : Session payload) (st : S) :
  logged (fst (snd (consumeLoop callback rounds sess st)))
  = logged sess ++ concat (map roundLines (untilDone rounds))
  /\ marked (fst (snd (consumeLoop callback rounds sess st)))
     = marked sess
       ++ List.filter decodable (concat (map claimed (untilDone rounds))).
Proof.
  revert sess st. induction rounds as [|r rounds IH]; intros sess st.
  - simpl. now rewrite !app_nil_r.
  - cbn [consumeLoop untilDone].
    pose proof (ConsumeClaim_log (claimed r) sess st) as Hlog.
    pose proof (proj1 (ConsumeClaim_session callback (claimed r) sess st))
      as Hmark.
    destruct (ConsumeClaim callback (claimed r) sess st) as [sess1 st1].
    cbn [fst] in Hlog, Hmark.
    assert (logged
              match Consume_err r with
              | Some err =>
                  mkSession (logged sess1 ++ ["error from consumer: " +:+ err])
                    (marked sess1)
              | None => sess1
              end = logged sess ++ roundLines r
            /\ marked
                 match Consume_err r with
                 | Some err =>
                     mkSession (logged sess1 ++ ["error from consumer: " +:+ err])
                       (marked sess1)
                 | None => sess1
                 end = marked sess ++ List.filter decodable (claimed r))
      as [Hl Hm].
    { unfold roundLines. destruct (Consume_err r); cbn [logged marked];
        rewrite Hlog, Hmark; [now rewrite <- app_assoc | now rewrite app_nil_r]. }
    destruct (ctx_done r).
    + cbn [fst snd map concat]. rewrite Hl, Hm, !app_nil_r. now split.
    + destruct (IH match Consume_err r with
                   | Some err =>
                       mkSession
                         (logged sess1 ++ ["error from consumer: " +:+ err])
                         (marked sess1)
                   | None => sess1
                   end st1) as [Hl' Hm'].
      rewrite Hl', Hm', Hl, Hm. cbn [map concat].
      rewrite List.filter_app, <- !app_assoc. now split.
Qed.

End SubscribeLog.

(** X22.  [ReceiveKafkaMessage] with a consumer group that cannot be
    created logs the error and then panics on the nil group: no message is
    consumed and the callback never runs.  Otherwise it consumes call after
    call of [Consume]; it returns only after a call that finds the context
    cancelled, and until then it is still running.  Up to that call the
    callback has been applied, in order, to the snapshots of exactly the
    messages that decode; exactly those messages are marked; and the log has
    received, call by call, one line "failed to unmarshal notification: ..."
    for each message that does not decode followed by the line "error from
    consumer: ..." when the call returned an error, which does not stop the
    loop. *)
Theorem ReceiveKafkaMessage_until_cancelled {payload : Type} `{!JSON payload}
    {S : Type} (callback : Notification -> S -> S)
    (NewConsumerGroup_err : option string) (rounds : list (Round payload))
    (sess : Session payload) (st : S) :
  (forall err : string, NewConsumerGroup_err = Some err ->
     ReceiveKafkaMessage callback NewConsumerGroup_err rounds sess st
     = Crashed "runtime error: invalid memory address or nil pointer dereference"
         (mkSession
            (logged sess
             ++ ["initialization error: failed to initialize consumer group: "
                 +:+ err])
            (marked sess))
         st)
  /\ (NewConsumerGroup_err = None ->
        match ReceiveKafkaMessage callback NewConsumerGroup_err rounds sess st with
        | Stopped sess' st' =>
            existsb ctx_done rounds = true
            /\ st' = fold_left (fun s n => callback n s)
                       (snapshotsOf (untilDone rounds)) st
            /\ logged sess'
               = logged sess ++ concat (map roundLines (untilDone rounds))
            /\ marked sess'
               = marked sess
                 ++ List.filter decodable
                      (concat (map claimed (untilDone rounds)))
        | Running sess' st' =>
            existsb ctx_done rounds = false
            /\ st' = fold_left (fun s n => callback n s)
                       (snapshotsOf (untilDone rounds)) st
            /\ logged sess'
               = logged sess ++ concat (map roundLines (untilDone rounds))
            /\ marked sess'
               = marked sess
                 ++ List.filter decodable
                      (concat (map claimed (untilDone rounds)))
        | Crashed _ _ _ => False
        end).
Proof.
  split.
  - intros err ->. unfold ReceiveKafkaMessage, initializeConsumerGroup.
    change ("initialization error: failed to initialize consumer group: " +:+ err)
      with ("initialization error: "
            +:+ "failed to initialize consumer group: " +:+ err).
    reflexivity.
  - intros ->. unfold ReceiveKafkaMessage, initializeConsumerGroup.
    destruct (consumeLoop_state callback rounds sess st) as (Hst & Hret).
    destruct (consumeLoop_session callback rounds sess st) as (Hlog & Hmark).
    destruct (consumeLoop callback rounds sess st) as [[|] [sess' st']];
      cbn [fst snd] in *; now repeat split.
Qed.

Lemma ReceiveKafkaMessage_until_cancelled_witness :
  ReceiveKafkaMessage ReceiveProcessedNotification (Some "no brokers")
    [mkRound [Encoded emailHi2Outcome] None false] (mkSession [] []) ∅
  = Crashed "runtime error: invalid memory address or nil pointer dereference"
      (mkSession
         ["initialization error: failed to initialize consumer group: no brokers"]
         []) ∅
  /\ match ReceiveKafkaMessage ReceiveProcessedNotification None
             [mkRound [Garbled "{"] (Some "rebalance") false;
              mkRound [Encoded emailHi2Outcome] None true;
              mkRound [Encoded emailHi2] None false]
             (mkSession [] []) ∅ with
     | Stopped sess' data =>
         data !! 7%N = Some emailHi2Outcome
         /\ logged sess'
            = ["failed to unmarshal notification: invalid character in {";
               "error from consumer: rebalance"]
         /\ marked sess' = [Encoded emailHi2Outcome]
     | _ => False
     end.
Proof.
  split.
  - exact (proj1 (ReceiveKafkaMessage_until_cancelled (payload := wire)
             ReceiveProcessedNotification (Some "no brokers")
             [mkRound [Encoded emailHi2Outcome] None false]
             (mkSession [] []) ∅) "no brokers" eq_refl).
  - pose proof (proj2 (ReceiveKafkaMessage_until_cancelled (payload := wire)
             ReceiveProcessedNotification None
             [mkRound [Garbled "{"] (Some "rebalance") false;
              mkRound [Encoded emailHi2Outcome] None true;
              mkRound [Encoded emailHi2] None false]
             (mkSession [] []) ∅) eq_refl) as H.
    destruct (ReceiveKafkaMessage _ _ _ _ _) as [sess' data|sess' data|why sess' data].
    + destruct H as (_ & -> & -> & ->). now repeat split.
    + destruct H as [H _]. discriminate.
    + exact H.
Defined.

(** ** The debug helper *)

(** X23.  [randRange min max] panics when [max <= min]; when [min < max]
    it returns a value [v] with [min <= v < max]: the upper end is never
    returned.  Both for bounds whose difference fits in an [int], and a
    generator that keeps the contract of [rand.IntN]. *)
Theorem randRange_bounds (rand_IntN : Z -> Z) (min max : Z) :
  minInt <= min <= maxInt -> minInt <= max <= maxInt ->
  minInt <= max - min <= maxInt ->
  (forall n : Z, 0 < n -> 0 <= rand_IntN n < n) ->
  (max <= min -> randRange rand_IntN min max = inr "invalid argument to IntN")
  /\ (min < max ->
        exists v : Z, randRange rand_IntN min max = inl v /\ min <= v < max).
Proof.
  intros Hmin Hmax Hdiff Hrand. unfold randRange.
  rewrite (wrapInt_id _ Hdiff). split.
  - intros Hle. destruct (Z.leb_spec (max - min) 0); [reflexivity | lia].
  - intros Hlt. destruct (Z.leb_spec (max - min) 0); [lia|].
    pose proof (Hrand (max - min) ltac:(lia)) as Hr.
    exists (rand_IntN (max - min) + min). split; [|lia].
    f_equal. apply intAdd_small. lia.
Qed.

Lemma randRange_bounds_witness :
  randRange (fun n => n - 1) 100 1 = inr "invalid argument to IntN"
  /\ exists v : Z, randRange (fun n => n - 1) 1 100 = inl v /\ 1 <= v < 100.
Proof.
  split.
  - apply (randRange_bounds (fun n => n - 1) 100 1);
      unfold minInt, maxInt; lia.
  - apply (randRange_bounds (fun n => n - 1) 1 100);
      unfold minInt, maxInt; lia.
Defined.

(** ** The listener, message by message *)

(** C8.  A message of the processed topic that does not decode is skipped:
    the line "failed to unmarshal notification: " followed by the decode
    error is logged, the message is not marked, the store is not touched and
    the loop goes on with the messages that follow.  A message that decodes
    is marked and its snapshot is stored: a lookup of its [MessageID] then
    reads that snapshot, every other entry being as before.  After a whole
    claim the entry under an id is the snapshot of the last message that
    decodes and carries that id (the old entry when there is none), the log
    has received exactly the lines of the messages that do not decode, in
    order, and exactly the messages that decode are marked. *)
Theorem ConsumeClaim_skips_undecodable {payload : Type} `{!JSON payload}
    (claim : list payload) (sess : Session payload) (data : MessageNotification) :
  (forall (msg : payload) (rest : list payload) (err : string),
     claim = msg :: rest -> json_Unmarshal msg = inr err ->
     ConsumeClaim ReceiveProcessedNotification claim sess data
     = ConsumeClaim ReceiveProcessedNotification rest
         (mkSession
            (logged sess ++ ["failed to unmarshal notification: " +:+ err])
            (marked sess))
         data)
  /\ (forall (msg : payload) (n : Notification) (rest : list payload),
        claim = msg :: rest -> json_Unmarshal msg = inl n ->
        ConsumeClaim ReceiveProcessedNotification claim sess data
        = ConsumeClaim ReceiveProcessedNotification rest
            (mkSession (logged sess) (marked sess ++ [msg]))
            (ReceiveProcessedNotification n data)
        /\ ReceiveProcessedNotification n data !! MessageID n = Some n
        /\ forall id : UUID, id <> MessageID n ->
             ReceiveProcessedNotification n data !! id = data !! id)
  /\ (forall id : UUID,
        snd (ConsumeClaim ReceiveProcessedNotification claim sess data) !! id
        = match lastFor id (omap decoded claim) None with
          | Some n => Some n
          | None => data !! id
          end)
  /\ logged (fst (ConsumeClaim ReceiveProcessedNotification claim sess data))
     = logged sess ++ map unmarshalLine (decodeErrors claim)
  /\ marked (fst (ConsumeClaim ReceiveProcessedNotification claim sess data))
     = marked sess ++ List.filter decodable claim.
Proof.
  split; [|split; [|split; [|split]]].
  - intros msg rest err -> Hd. cbn [ConsumeClaim]. now rewrite Hd.
  - intros msg n rest -> Hd.
    split; [cbn [ConsumeClaim]; now rewrite Hd|].
    unfold ReceiveProcessedNotification, Update.
    split; [apply lookup_insert_eq|].
    intros id Hne. now apply lookup_insert_ne.
  - intros id. rewrite ConsumeClaim_state. apply fold_Update_lookup.
  - apply ConsumeClaim_log.
  - apply ConsumeClaim_session.
Qed.

Lemma ConsumeClaim_skips_undecodable_witness :
  ConsumeClaim ReceiveProcessedNotification
    [Garbled "{"; Encoded emailHi2Outcome] (mkSession [] []) ∅
  = ConsumeClaim ReceiveProcessedNotification [Encoded emailHi2Outcome]
      (mkSession ["failed to unmarshal notification: invalid character in {"] [])
      ∅
  /\ snd (ConsumeClaim ReceiveProcessedNotification [Encoded emailHi2Outcome]
            (mkSession [] []) {[ 9%N := zeroNotification ]}) !! 7%N
     = Some emailHi2Outcome
  /\ snd (ConsumeClaim ReceiveProcessedNotification [Encoded emailHi2Outcome]
            (mkSession [] []) {[ 9%N := zeroNotification ]}) !! 9%N
     = Some zeroNotification.
Proof.
  split.
  - exact (proj1 (ConsumeClaim_skips_undecodable (payload := wire)
             [Garbled "{"; Encoded emailHi2Outcome] (mkSession [] []) ∅)
             (Garbled "{") [Encoded emailHi2Outcome] "invalid character in {"
             eq_refl eq_refl).
  - destruct (ConsumeClaim_skips_undecodable (payload := wire)
                [Encoded emailHi2Outcome] (mkSession [] [])
                {[ 9%N := zeroNotification ]}) as (_ & Hdec & _).
    destruct (Hdec (Encoded emailHi2Outcome) emailHi2Outcome [] eq_refl eq_refl)
      as (Heq & Hnew & Hold).
    rewrite Heq. cbn [ConsumeClaim snd]. split; [exact Hnew|].
    rewrite Hold by (cbn; lia). apply lookup_singleton_eq.
Defined.

(** ** The email scenario *)

(** C3.  An email request with message "hi" and max_retry_attempts 2 is
    admitted, and every delivery attempt of the email worker fails.  The
    worker makes exactly two attempts and publishes one outcome on the
    processed topic, keyed by the request id, with the counter at 2.  When
    that outcome is delivered while the handler waits (after any number of
    polls that found the entry pending, and with outcomes of other requests
    in between), the caller gets status 408 with a reason that mentions
    "Too many failed attempts". *)
Theorem email_hi_2_two_attempts {payload : Type} `{!JSON payload}
    (env : World) (rq : Request payload) (p : Process payload) (id : UUID)
    (data : MessageNotification) :
  roundtrips payload ->
  endpoints.PostForm rq "mode" = "email" ->
  endpoints.PostForm rq "message" = "hi" ->
  endpoints.PostForm rq "max_retry_attempts" = "2" ->
  admitted rq p id data ->
  (forall k : nat, smtp_SendMail env k <> None) ->
  broker_reply env = brokerUp ->
  exists out : ProducerMessage payload,
    length (calls (emailService env (Get id data))) = 2%nat
    /\ NumOfRepetitions (notification (emailService env (Get id data))) = 2
    /\ outbox (emailService env (Get id data)) = [out]
    /\ Topic out = "processed" /\ Key out = id
    /\ json_Unmarshal (Value out)
       = inl (notification (emailService env (Get id data)))
    /\ IsSent (notification (emailService env (Get id data))) = false
    /\ contains (FailReason (notification (emailService env (Get id data))))
         "Too many failed attempts"
    /\ (delivers id (Value out) (schedule rq) ->
          fst (notificationHandler rq p)
          = Some (mkResponse StatusRequestTimeout
                    ("Notification sending failed after max number of attempts. Notification service error: "
                     +:+ FailReason (notification
                                       (emailService env (Get id data)))))).
Proof.
  intros Hrt Hmode Hmsg Hmax Hadm Hfail Hup.
  destruct (registered_email_hi_2 rq p id data Hmode Hmsg Hmax (proj1 Hadm))
    as (recipient & t & HG).
  rewrite HG. unfold emailService.
  destruct (emailLoop_failing env Hrt Hup (S (Z.to_nat maxEmailRetries))
              (start (mkNotification "email" "hi" 2 recipient t id 0 false ""))
              Hfail)
    as (e & v & Hlen & _ & _ & Htoo & Hs & Hid & Hv & Hout);
    [cbn; lia
    | unfold maxEmailRetries; cbn [start notification NumOfRepetitions]; lia |].
  destruct (emailLoop_gives_up env (S (Z.to_nat maxEmailRetries))
              (start (payload := payload)
                 (mkNotification "email" "hi" 2 recipient t id 0 false ""))
              Hfail)
    as (_ & _ & _ & _ & Hcnt);
    [cbn; lia
    | unfold maxEmailRetries; cbn [start notification NumOfRepetitions]; lia |].
  cbn [start notification calls outbox MaxRetryAttempts NumOfRepetitions
       MessageID length app] in Hlen, Hid, Hout, Hcnt.
  exists (mkProducerMessage kafkaTopicProcessed id v).
  split; [lia|]. split; [rewrite Hcnt; lia|].
  split; [exact Hout|]. split; [reflexivity|].
  split; [reflexivity|]. split; [exact Hv|]. split; [exact Hs|].
  split; [exact Htoo|].
  intros Hdel.
  apply (failed_outcome_relayed id v _ Hv Hid Hs) with (data := data);
    [| exact Hadm | exact Hdel].
  apply (contains_nonempty _ _ Htoo). discriminate.
Qed.

Lemma email_hi_2_two_attempts_witness :
  length (calls (emailService (payload := wire) failingWorld
                   (Get 7%N {[ 7%N := emailHi2 ]}))) = 2%nat
  /\ outbox (emailService (payload := wire) failingWorld
               (Get 7%N {[ 7%N := emailHi2 ]}))
     = [mkProducerMessage "processed" 7%N (Encoded emailHi2Outcome)]
  /\ fst (notificationHandler
            (requestWith (formOf "email" "hi" "2" "") brokerUp
               [EvTick; EvProcessed (Garbled "{"); EvTick;
                EvProcessed (Encoded emailHi2Outcome);
                EvProcessed (Encoded zeroNotification); EvTick; EvHardTimeout])
            emptyProcess)
     = Some (mkResponse StatusRequestTimeout
               ("Notification sending failed after max number of attempts. Notification service error: "
                +:+ FailReason emailHi2Outcome)).
Proof.
  destruct (email_hi_2_two_attempts (payload := wire) failingWorld
              (requestWith (formOf "email" "hi" "2" "") brokerUp
                 [EvTick; EvProcessed (Garbled "{"); EvTick;
                  EvProcessed (Encoded emailHi2Outcome);
                  EvProcessed (Encoded zeroNotification); EvTick; EvHardTimeout])
              emptyProcess 7%N {[ 7%N := emailHi2 ]})
    as (out & Hlen & _ & Hout & _ & _ & Hv & _ & _ & Hrelay).
  - intros n. exists (Encoded n). now split.
  - reflexivity.
  - reflexivity.
  - reflexivity.
  - split; [|reflexivity].
    split; [now left|]. split; [discriminate|]. exists 2. split; reflexivity.
  - intros k. discriminate.
  - reflexivity.
  - split; [exact Hlen|].
    assert (out = mkProducerMessage "processed" 7%N (Encoded emailHi2Outcome))
      as -> by (vm_compute in Hout; now injection Hout as <-).
    split; [exact Hout|].
    refine (Hrelay _).
    exists [EvTick; EvProcessed (Garbled "{"); EvTick],
           [EvProcessed (Encoded zeroNotification)], [EvHardTimeout].
    split; [repeat constructor|]. split; [reflexivity|].
    split; [|reflexivity]. repeat constructor. cbn. lia.
Defined.

